(** * lang-test: the research pipeline, embedded shallowly

    The TypeScript sources are translated file by file:
    - [LlmHelpers]          utils/llm-helpers.ts
    - [SearxNGSearchTool]   tools/searxng-search-tool.ts
    - [SearchAgent]         agents/search-agent.ts
    - [SearchAgentTool]     tools/search-agent-tool.ts
    - [VectorSearch]        utils/vector-search.ts
    - [MongoDBStorageTool]  tools/mongodb-storage-tool.ts
    - [ResearchAgent]       agents/research-agent.ts

    What the sources take from the language and from libraries is modelled
    in [JS] (errors, strings), [JSON] ([JSON.parse], [JSON.stringify]),
    [JSMap] (the built-in [Map]) and [toSorted]; the services they call
    (search engine, language model, embedding model, database) are the
    fields of [Env], and every call to one of them is written to a log.

    JavaScript numbers are modelled as exact rationals ([Q]); NaN, the
    infinities and rounding are outside the model.  Strings are byte
    strings, so what is said about whitespace and case is said about
    ASCII.  Asynchronous code is sequential here (every [await] in the
    sources is awaited before the next statement runs), so a promise is
    the computation that produces its value. *)

From Stdlib Require Import Ascii String QArith Qminmax Lqa.
From stdpp Require Import gmap strings list fin_maps pretty sorting.

Set Warnings "-register-all".
Local Open Scope string_scope.
Local Open Scope list_scope.

(** ** JavaScript prelude *)

Module JS.

(** Thrown values.  The sources test thrown values with [instanceof], so
    the class of the error is kept next to its message. *)
Inductive error_class :=
  PlainError | SyntaxError | ZodError | TypeError | AxiosError.

Record exn := Exn { exn_class : error_class; message : string }.

Definition error_class_eqb (a b : error_class) : bool :=
  match a, b with
  | PlainError, PlainError | SyntaxError, SyntaxError
  | ZodError, ZodError | TypeError, TypeError | AxiosError, AxiosError => true
  | _, _ => false
  end.

(** [instanceof Error] holds of every class above. *)
Definition instanceof (e : exn) (c : error_class) : bool :=
  match c with
  | PlainError => true
  | _ => error_class_eqb (exn_class e) c
  end.

(** [String(error)] and [`${error}`] of an Error object. *)
Definition class_name (c : error_class) : string :=
  match c with
  | PlainError => "Error"
  | SyntaxError => "SyntaxError"
  | ZodError => "ZodError"
  | TypeError => "TypeError"
  | AxiosError => "AxiosError"
  end.

Definition toString (e : exn) : string :=
  class_name (exn_class e) +:+ ": " +:+ message e.

(** How a call ends: with a value, or with a thrown error. *)
Inductive outcome (A : Type) : Type :=
| Returned (a : A)
| Thrown (e : exn).
Arguments Returned {A} a.
Arguments Thrown {A} e.

Definition is_thrown {A} (o : outcome A) : bool :=
  match o with Thrown _ => true | Returned _ => false end.

Definition and_then {A B} (o : outcome A) (k : A -> outcome B) : outcome B :=
  match o with
  | Returned a => k a
  | Thrown e => Thrown e
  end.

(** [try { body } catch (error) { handler }] for code without other effects. *)
Definition catch {A} (body : outcome A) (handler : exn -> outcome A) : outcome A :=
  match body with
  | Returned a => Returned a
  | Thrown e => handler e
  end.

(** The line feed of a template literal. *)
Definition nl : string := String (Ascii.ascii_of_nat 10) EmptyString.

(** The double quote, and a text between double quotes. *)
Definition dq : string := String (Ascii.ascii_of_nat 34) EmptyString.
Definition quoted (s : string) : string := dq +:+ s +:+ dq.

(** *** Strings *)

Fixpoint trimStart (s : string) : string :=
  match s with
  | String c s' => if Ascii.is_space c then trimStart s' else s
  | EmptyString => EmptyString
  end.

Definition trimEnd (s : string) : string :=
  String.rev (trimStart (String.rev s)).

Definition trim (s : string) : string := trimEnd (trimStart s).

Definition startsWith (s prefix : string) : bool := String.prefix prefix s.

(** [indexOf] and [lastIndexOf] of a one-character pattern: the index of
    the first (last) occurrence, [-1] when there is none. *)
Fixpoint indexOf_from (i : Z) (s : string) (c : ascii) : Z :=
  match s with
  | EmptyString => (-1)%Z
  | String d s' =>
      if Ascii.eqb d c then i else indexOf_from (i + 1)%Z s' c
  end.

Definition indexOf (s : string) (c : ascii) : Z := indexOf_from 0%Z s c.

Fixpoint lastIndexOf_from (i : Z) (s : string) (c : ascii) (found : Z) : Z :=
  match s with
  | EmptyString => found
  | String d s' =>
      lastIndexOf_from (i + 1)%Z s' c (if Ascii.eqb d c then i else found)
  end.

Definition lastIndexOf (s : string) (c : ascii) : Z :=
  lastIndexOf_from 0%Z s c (-1)%Z.

(** [s.slice(a, b)] for the indices the sources pass, [0 <= a]; an empty
    string when [b <= a]. *)
Definition slice (s : string) (a b : Z) : string :=
  String.substring (Z.to_nat a) (Z.to_nat (b - a)) s.

Fixpoint join (sep : string) (l : list string) : string :=
  match l with
  | [] => ""
  | [x] => x
  | x :: l' => x +:+ sep +:+ join sep l'
  end.

(** [s.replaceAll(/\s+/g, "-")]: every maximal run of whitespace becomes
    one dash. *)
Fixpoint dash_whitespace (in_run : bool) (s : string) : string :=
  match s with
  | EmptyString => EmptyString
  | String c s' =>
      if Ascii.is_space c
      then if in_run then dash_whitespace true s'
           else String "-"%char (dash_whitespace true s')
      else String c (dash_whitespace false s')
  end.

Definition lower (c : ascii) : ascii :=
  let n := Ascii.nat_of_ascii c in
  if (65 <=? n)%nat && (n <=? 90)%nat then Ascii.ascii_of_nat (n + 32) else c.

Fixpoint toLowerCase (s : string) : string :=
  match s with
  | EmptyString => EmptyString
  | String c s' => String (lower c) (toLowerCase s')
  end.

(** Truthiness of the values the sources test: a string is falsy when
    empty, a number when zero, an optional value when absent. *)
Definition truthy_string (s : string) : bool := negb (String.eqb s "").
Definition truthy_number (x : Q) : bool := negb (Qeq_bool x 0).

End JS.
Export JS.

(** ** JSON values and [JSON.parse]

    [JSON.parse] is the JavaScript built-in.  It is modelled for JSON
    texts over ASCII: objects, arrays, strings with the short escapes and
    [\u00XX] below 128, numbers, [true], [false] and [null].  A text
    outside this fragment is reported as a syntax error: the built-in
    accepts every [\uXXXX] escape, which a string of ASCII characters
    cannot hold.  A number is kept as the exact rational its text denotes;
    the built-in rounds it to a double.  The statements about code that
    calls [JSON.parse] name its outcome for this reason. *)

Module JSON.

Inductive json :=
| JNull
| JBool (b : bool)
| JNumber (x : Q)
| JString (s : string)
| JArray (items : list json)
| JObject (members : list (string * json)).

(** Property read [o.key] on a parsed object; a key given twice in the text
    keeps its last value. *)
Fixpoint get_member (members : list (string * json)) (key : string) : option json :=
  match members with
  | [] => None
  | (k, v) :: rest =>
      match get_member rest key with
      | Some v' => Some v'
      | None => if String.eqb k key then Some v else None
      end
  end.

Definition is_json_space (c : ascii) : bool :=
  match Ascii.nat_of_ascii c with
  | 9%nat | 10%nat | 13%nat | 32%nat => true
  | _ => false
  end.

Fixpoint skip_ws (s : string) : string :=
  match s with
  | String c s' => if is_json_space c then skip_ws s' else s
  | EmptyString => EmptyString
  end.

Definition digit_of (c : ascii) : option Z :=
  let n := Ascii.nat_of_ascii c in
  if (48 <=? n)%nat && (n <=? 57)%nat then Some (Z.of_nat (n - 48)) else None.

Definition hex_of (c : ascii) : option nat :=
  let n := Ascii.nat_of_ascii c in
  if (48 <=? n)%nat && (n <=? 57)%nat then Some (n - 48)%nat
  else if (65 <=? n)%nat && (n <=? 70)%nat then Some (n - 55)%nat
  else if (97 <=? n)%nat && (n <=? 102)%nat then Some (n - 87)%nat
  else None.

(** The digits at the head of [s]: their value, how many there are, and the
    rest of the text. *)
Fixpoint read_digits (s : string) (acc : Z) (count : nat) : Z * nat * string :=
  match s with
  | String c s' =>
      match digit_of c with
      | Some d => read_digits s' (10 * acc + d)%Z (S count)
      | None => (acc, count, s)
      end
  | EmptyString => (acc, count, s)
  end.

Definition pow10 (n : Z) : Q :=
  if (0 <=? n)%Z then inject_Z (10 ^ n) else / inject_Z (10 ^ (- n)).

Definition read_frac (s : string) : option (Q * string) :=
  match s with
  | String "." r =>
      let '(f, k, rest) := read_digits r 0%Z 0%nat in
      if (k =? 0)%nat then None
      else Some ((inject_Z f * pow10 (- Z.of_nat k))%Q, rest)
  | _ => Some (0%Q, s)
  end.

Definition read_exp_digits (negative : bool) (s : string) : option (Z * string) :=
  let '(e, k, rest) := read_digits s 0%Z 0%nat in
  if (k =? 0)%nat then None
  else Some (if negative then (- e)%Z else e, rest).

Definition read_exp (s : string) : option (Z * string) :=
  match s with
  | String c r =>
      if Ascii.eqb c "e" || Ascii.eqb c "E" then
        match r with
        | String "-" r' => read_exp_digits true r'
        | String "+" r' => read_exp_digits false r'
        | _ => read_exp_digits false r
        end
      else Some (0%Z, s)
  | EmptyString => Some (0%Z, s)
  end.

(** A JSON number: [-? int frac? exp?], with no leading zero in [int]. *)
Definition parse_number (s : string) : option (Q * string) :=
  let '(negative, s1) :=
    match s with String "-" r => (true, r) | _ => (false, s) end in
  let '(int, n, s2) := read_digits s1 0%Z 0%nat in
  let leading_zero :=
    match s1 with String "0" _ => (1 <? n)%nat | _ => false end in
  if (n =? 0)%nat || leading_zero then None else
  match read_frac s2 with
  | None => None
  | Some (f, s3) =>
      match read_exp s3 with
      | None => None
      | Some (e, s4) =>
          let v := Qred ((inject_Z int + f) * pow10 e) in
          Some (if negative then Qred (- v) else v, s4)
      end
  end.

Definition hex4 (a b c d : ascii) : option nat :=
  match hex_of a, hex_of b, hex_of c, hex_of d with
  | Some x, Some y, Some z, Some w => Some ((((x * 16 + y) * 16 + z) * 16 + w)%nat)
  | _, _, _, _ => None
  end.

(** The characters of a string literal after its opening quote, up to the
    closing quote.  [acc] holds what was read so far, reversed. *)
Fixpoint parse_string_body (s : string) (acc : string) : option (string * string) :=
  match s with
  | EmptyString => None
  | String c rest =>
      if Ascii.eqb c "034" then Some (String.rev acc, rest)
      else if (Ascii.nat_of_ascii c <? 32)%nat then None
      else if Ascii.eqb c "\" then
        match rest with
        | String e rest' =>
            let simple (x : ascii) := parse_string_body rest' (String x acc) in
            if Ascii.eqb e "034" then simple "034"%char
            else if Ascii.eqb e "\" then simple "\"%char
            else if Ascii.eqb e "/" then simple "/"%char
            else if Ascii.eqb e "b" then simple (Ascii.ascii_of_nat 8)
            else if Ascii.eqb e "f" then simple (Ascii.ascii_of_nat 12)
            else if Ascii.eqb e "n" then simple (Ascii.ascii_of_nat 10)
            else if Ascii.eqb e "r" then simple (Ascii.ascii_of_nat 13)
            else if Ascii.eqb e "t" then simple (Ascii.ascii_of_nat 9)
            else if Ascii.eqb e "u" then
              match rest' with
              | String a (String b (String c' (String d rest''))) =>
                  match hex4 a b c' d with
                  | Some n =>
                      if (n <? 128)%nat
                      then parse_string_body rest'' (String (Ascii.ascii_of_nat n) acc)
                      else None
                  | None => None
                  end
              | _ => None
              end
            else None
        | EmptyString => None
        end
      else parse_string_body rest (String c acc)
  end.

Definition strip_prefix (p s : string) : option string :=
  if String.prefix p s
  then Some (String.substring (String.length p) (String.length s - String.length p) s)
  else None.

(** The recursive-descent parser.  [fuel] bounds the nesting of calls; twice
    the length of the text is always enough, since every second call
    consumes a character. *)
Fixpoint parse_value (fuel : nat) (s : string) : option (json * string) :=
  match fuel with
  | O => None
  | S fuel' =>
      match skip_ws s with
      | String "{" r =>
          match skip_ws r with
          | String "}" r' => Some (JObject [], r')
          | r' => parse_members fuel' r' []
          end
      | String "[" r =>
          match skip_ws r with
          | String "]" r' => Some (JArray [], r')
          | r' => parse_elements fuel' r' []
          end
      | String "034" r =>
          match parse_string_body r "" with
          | Some (str, r') => Some (JString str, r')
          | None => None
          end
      | s' =>
          match strip_prefix "true" s', strip_prefix "false" s', strip_prefix "null" s' with
          | Some r, _, _ => Some (JBool true, r)
          | _, Some r, _ => Some (JBool false, r)
          | _, _, Some r => Some (JNull, r)
          | None, None, None =>
              match parse_number s' with
              | Some (x, r) => Some (JNumber x, r)
              | None => None
              end
          end
      end
  end
with parse_elements (fuel : nat) (s : string) (acc : list json) : option (json * string) :=
  match fuel with
  | O => None
  | S fuel' =>
      match parse_value fuel' s with
      | Some (v, r) =>
          match skip_ws r with
          | String "," r' => parse_elements fuel' r' (v :: acc)
          | String "]" r' => Some (JArray (rev (v :: acc)), r')
          | _ => None
          end
      | None => None
      end
  end
with parse_members (fuel : nat) (s : string) (acc : list (string * json)) : option (json * string) :=
  match fuel with
  | O => None
  | S fuel' =>
      match skip_ws s with
      | String "034" r =>
          match parse_string_body r "" with
          | Some (key, r1) =>
              match skip_ws r1 with
              | String ":" r2 =>
                  match parse_value fuel' r2 with
                  | Some (v, r3) =>
                      match skip_ws r3 with
                      | String "," r4 => parse_members fuel' r4 ((key, v) :: acc)
                      | String "}" r4 => Some (JObject (rev ((key, v) :: acc)), r4)
                      | _ => None
                      end
                  | None => None
                  end
              | _ => None
              end
          | None => None
          end
      | _ => None
      end
  end.

(** [JSON.parse(text)]: the value when the whole text is one JSON value,
    a [SyntaxError] otherwise. *)
Definition parse (text : string) : outcome json :=
  match parse_value (2 * String.length text + 2) text with
  | Some (v, rest) =>
      match skip_ws rest with
      | EmptyString => Returned v
      | _ =>
          Thrown (Exn SyntaxError "Unexpected non-whitespace character after JSON")
      end
  | None => Thrown (Exn SyntaxError "Unexpected token or end of JSON input")
  end.

(** [JSON.stringify] of a string and of an array of strings, which is what
    the program serialises. *)
Definition hex_digit (n : nat) : ascii :=
  if (n <? 10)%nat then Ascii.ascii_of_nat (48 + n) else Ascii.ascii_of_nat (87 + n).

Definition escape_char (c : ascii) : string :=
  let n := Ascii.nat_of_ascii c in
  if Ascii.eqb c "034" then "\" +:+ dq
  else if Ascii.eqb c "\" then "\\"
  else if (n =? 8)%nat then "\b"
  else if (n =? 12)%nat then "\f"
  else if (n =? 10)%nat then "\n"
  else if (n =? 13)%nat then "\r"
  else if (n =? 9)%nat then "\t"
  else if (n <? 32)%nat then
    "\u00" +:+ String (hex_digit (n / 16)) (String (hex_digit (n mod 16)) "")
  else String c "".

Fixpoint escape (s : string) : string :=
  match s with
  | EmptyString => EmptyString
  | String c s' => escape_char c +:+ escape s'
  end.

Definition stringify_string (s : string) : string :=
  quoted (escape s).

Definition stringify_strings (l : list string) : string :=
  "[" +:+ join "," (map stringify_string l) +:+ "]".

End JSON.
Export JSON.

(** ** Data model: the interfaces the sources declare *)

Module SearxNGResult.
Record t := { title : string; url : string; content : string; engine : option string }.
End SearxNGResult.

(** [results] is optional here because the code tests [!response.data.results]. *)
Module SearxNGResponse.
Record t := { results : option (list SearxNGResult.t); query : string }.
End SearxNGResponse.

Module StructuredSearchResult.
Record t := { title : string; url : string; snippet : string; relevanceScore : option Q }.
End StructuredSearchResult.

Module SearchResult.
Record t := {
  query : string;
  results : list StructuredSearchResult.t;
  summary : string;
  timestamp : Z
}.
End SearchResult.

(** The interface declares [query] and [summary] as strings and [sources] as
    an array of strings, but a document is built from whatever [JSON.parse]
    returned, unchecked: the fields hold JSON values. *)
Module ResearchDocument.
Record t := { query : json; summary : json; sources : json; timestamp : Z }.
End ResearchDocument.

(** [metadata?: Record<string, unknown>]: the values this program stores are
    strings. *)
Module SearchableContent.
Record t := { text : string; metadata : option (gmap string string) }.
End SearchableContent.

(** What [VectorSearch.search] returns: [{ key, value, score? }]. *)
Module ScoredMatch.
Record t := { key : string; value : gmap string string; score : option Q }.
End ScoredMatch.

Module Source.
Record t := { url : string; title : string; relevance : Q }.
End Source.

(** [searchResults] holds what [getStructuredResult] resolved to, which is
    [undefined] when the cache has no entry: hence the [option]. *)
Module ResearchState.
Record t := {
  topic : string;
  generatedQueries : list string;
  searchResults : list (option SearchResult.t);
  filteredResults : list SearchResult.t;
  summary : string;
  sources : list Source.t
}.
End ResearchState.

Module ResearchReport.
Record t := {
  topic : string;
  queries : list string;
  summary : string;
  topSources : list Source.t;
  allResults : list SearchResult.t;
  timestamp : Z
}.
End ResearchReport.

(** ** The world outside the program, and the effect monad *)

(** What the program does to the outside world, in the order it happens. *)
Inductive event :=
| HttpGet (q : string)                (* axios.get on SearxNG's /search *)
| Sleep (ms : Z)                      (* a setTimeout the code awaits *)
| LlmInvoke (prompt : string)         (* ChatOllama.invoke *)
| AgentSearch (q : string)            (* new SearchAgent().search(q) *)
| Embed (text : string)               (* a text sent to the embedding model *)
| DbConnect                           (* MongoClient.connect *)
| DbInsert (doc : ResearchDocument.t) (* collection.insertOne *).

Definition is_HttpGet (e : event) : bool :=
  match e with HttpGet _ => true | _ => false end.
Definition is_LlmInvoke (e : event) : bool :=
  match e with LlmInvoke _ => true | _ => false end.
Definition is_DbConnect (e : event) : bool :=
  match e with DbConnect => true | _ => false end.
Definition is_DbInsert (e : event) : bool :=
  match e with DbInsert _ => true | _ => false end.
Definition is_AgentSearch (q : string) (e : event) : bool :=
  match e with AgentSearch q' => String.eqb q q' | _ => false end.
Definition is_Sleep (e : event) : bool :=
  match e with Sleep _ => true | _ => false end.

Definition count (p : event -> bool) (tr : list event) : nat :=
  length (filter (fun e => p e = true) tr).

(** The collaborators.  Each answer may depend on the arguments of the call
    and on how many calls of the same kind came before, which is enough to
    describe a service that fails now and works later. *)
Class Env := {
  axios_get : nat -> string -> outcome SearxNGResponse.t;
  llm_invoke : nat -> string -> outcome string;
  ollama_embeddings : string -> outcome unit;
  indexed_text : gmap string string -> string;
  similarity : string -> string -> option Q;
  mongo_connect : nat -> outcome unit;
  mongo_insertOne : nat -> ResearchDocument.t -> outcome string;
  Date_now : nat -> Z;
  Number_toString : Q -> string;
  toJSONSchema : string
}.

(** The mutable state: the log of effects and the fields of the long-lived
    objects ([SearchAgentTool.searchCache], the [InMemoryStore] behind
    [VectorSearch], [MongoDBStorageTool.db] and the database collection). *)
Record world := World {
  trace : list event;
  searchCache : gmap string SearchResult.t;
  store : gmap (string * string) (gmap string string);
  db : bool;
  research_collection : list ResearchDocument.t
}.

Definition initial_world : world :=
  {| trace := []; searchCache := ∅; store := ∅; db := false;
     research_collection := [] |}.

Definition set_trace (tr : list event) (w : world) : world :=
  {| trace := tr; searchCache := searchCache w; store := store w; db := db w;
     research_collection := research_collection w |}.
Definition set_searchCache (c : gmap string SearchResult.t) (w : world) : world :=
  {| trace := trace w; searchCache := c; store := store w; db := db w;
     research_collection := research_collection w |}.
Definition set_store (s : gmap (string * string) (gmap string string)) (w : world) : world :=
  {| trace := trace w; searchCache := searchCache w; store := s; db := db w;
     research_collection := research_collection w |}.
Definition set_db (b : bool) (w : world) : world :=
  {| trace := trace w; searchCache := searchCache w; store := store w; db := b;
     research_collection := research_collection w |}.
Definition set_research_collection (c : list ResearchDocument.t) (w : world) : world :=
  {| trace := trace w; searchCache := searchCache w; store := store w; db := db w;
     research_collection := c |}.

(** A computation runs in a world and ends with a value or a thrown error;
    what it did to the world stays done in both cases. *)
Definition M (A : Type) : Type := world -> outcome A * world.

Definition ret {A} (a : A) : M A := fun w => (Returned a, w).
Definition throw {A} (e : exn) : M A := fun w => (Thrown e, w).
Definition bind {A B} (m : M A) (k : A -> M B) : M B :=
  fun w =>
    match m w with
    | (Returned a, w') => k a w'
    | (Thrown e, w') => (Thrown e, w')
    end.
Definition try_catch {A} (body : M A) (handler : exn -> M A) : M A :=
  fun w =>
    match body w with
    | (Returned a, w') => (Returned a, w')
    | (Thrown e, w') => handler e w'
    end.
Definition lift {A} (o : outcome A) : M A := fun w => (o, w).
Definition get_world : M world := fun w => (Returned w, w).
Definition modify (f : world -> world) : M unit := fun w => (Returned tt, f w).
Definition emit (e : event) : M unit := modify (fun w => set_trace (trace w ++ [e]) w).

Notation "'let*' x ':=' m 'in' k" := (bind m (fun x => k))
  (at level 10, x pattern, m at level 100, k at level 200).
Notation "m ';;' k" := (bind m (fun _ => k))
  (at level 100, k at level 200, right associativity).

(** [await new Promise((resolve) => setTimeout(resolve, ms))] *)
Definition sleep (ms : Z) : M unit := emit (Sleep ms).

(** [new Date()], read off the length of the log. *)
Definition new_Date `{Env} : M Z := fun w => (Returned (Date_now (length (trace w))), w).

(** ** utils/llm-helpers.ts *)

Module LlmHelpers.

(** A Zod schema is used through [schema.parse]: it returns the validated
    value or throws a [ZodError].  The optional [schema] argument left out
    is the schema that accepts every value. *)
Definition Schema (T : Type) : Type := json -> outcome T.

Definition no_json_object_found : string :=
  "No valid JSON object found in LLM response. Response must contain a JSON object enclosed in curly braces.".

(** The first half of the function: the text handed to [JSON.parse]. *)
Definition locate_json (responseText : string) : outcome string :=
  let jsonText := trim responseText in
  if negb (startsWith jsonText "{") then
    let firstBrace := indexOf jsonText "{" in
    let lastBrace := lastIndexOf jsonText "}" in
    if (firstBrace =? -1)%Z || (lastBrace =? -1)%Z || (lastBrace <=? firstBrace)%Z
    then Thrown (Exn PlainError no_json_object_found)
    else Returned (slice jsonText firstBrace (lastBrace + 1))
  else Returned jsonText.

(** The second half: the [try] block and its [catch]. *)
Definition parse_and_validate {T} (jsonText : string) (schema : Schema T) : outcome T :=
  catch
    (and_then (JSON.parse jsonText) (fun parsed => schema parsed))
    (fun error =>
       if instanceof error ZodError then
         Thrown (Exn PlainError
           ("Failed to validate LLM response against schema: " +:+ message error))
       else
         Thrown (Exn PlainError
           ("Failed to parse JSON from LLM response: " +:+ message error))).

Definition extractJsonFromLLMResponse {T} (responseText : string) (schema : Schema T)
  : outcome T :=
  and_then (locate_json responseText) (fun jsonText => parse_and_validate jsonText schema).

(** [createJsonPrompt(task, schema, additionalInstructions?)], for a schema
    given as its JSON-schema text. *)
Definition createJsonPrompt (task jsonSchemaString : string)
    (additionalInstructions : option string) : string :=
  trim
    (task +:+ nl +:+ nl +:+
     "You MUST respond with valid JSON in this exact format:" +:+ nl +:+
     jsonSchemaString +:+ nl +:+ nl +:+
     (match additionalInstructions with
      | Some i => if truthy_string i then i else ""
      | None => ""
      end) +:+ nl +:+ nl +:+
     "IMPORTANT: Respond with ONLY the JSON object, no additional text or explanation before or after.").

End LlmHelpers.

(** ** Calls to the collaborators *)

Section Collaborators.
Context `{Env}.

(** [axios.get(`${SEARXNG_BASE_URL}/search`, { params: { q, ... } })],
    resolved to [response.data]. *)
Definition axios_request (q : string) : M SearxNGResponse.t :=
  fun w => (axios_get (count is_HttpGet (trace w)) q,
            set_trace (trace w ++ [HttpGet q]) w).

(** [this.llm.invoke(prompt)], resolved to [response.content.toString()]. *)
Definition llm_request (prompt : string) : M string :=
  fun w => (llm_invoke (count is_LlmInvoke (trace w)) prompt,
            set_trace (trace w ++ [LlmInvoke prompt]) w).

End Collaborators.

(** ** tools/searxng-search-tool.ts *)

Module SearxNGSearchTool.

(** How one pass through the body of the [for] loop ends: with [continue]
    (or by falling off the end of the body), or with [return]. *)
Inductive control (A : Type) :=
| Continue
| Return (a : A).
Arguments Continue {A}.
Arguments Return {A} a.

Section WithEnv.
Context `{Env}.

Definition is_empty_or_missing (results : option (list SearxNGResult.t)) : bool :=
  match results with
  | None | Some [] => true
  | Some (_ :: _) => false
  end.

Definition snippet_of (result : SearxNGResult.t) : string :=
  if truthy_string (SearxNGResult.content result)
  then SearxNGResult.content result
  else "No description available".

Definition _call (query : string) : M string :=
  try_catch
    (let* response := axios_request query in
     match SearxNGResponse.results response with
     | None | Some [] => ret "No results found for the query."
     | Some results =>
         ret (join (nl +:+ nl)
                (imap (fun index result =>
                         pretty (index + 1)%nat +:+ ". " +:+ SearxNGResult.title result +:+
                         nl +:+ "   URL: " +:+ SearxNGResult.url result +:+
                         nl +:+ "   Snippet: " +:+ snippet_of result)
                      (take 5 results)))
     end)
    (fun error =>
       if instanceof error AxiosError
       then ret ("Error searching SearxNG: " +:+ message error)
       else ret ("Error: " +:+ toString error)).

Definition maxRetries : Z := 3.
Definition retryDelay : Z := 3000.

Definition attempt_body (query : string) (maxResults : nat) (attempt : Z)
  : M (control (list StructuredSearchResult.t)) :=
  try_catch
    (let* response := axios_request query in
     match SearxNGResponse.results response with
     | None | Some [] =>
         if (attempt <? maxRetries)%Z
         then sleep retryDelay ;; ret Continue
         else ret (Return [])
     | Some results =>
         ret (Return
                (map (fun result =>
                        {| StructuredSearchResult.title := SearxNGResult.title result;
                           StructuredSearchResult.url := SearxNGResult.url result;
                           StructuredSearchResult.snippet := snippet_of result;
                           StructuredSearchResult.relevanceScore := None |})
                     (take maxResults results)))
     end)
    (fun error =>
       if (attempt <? maxRetries)%Z
       then sleep retryDelay ;; ret Continue
       else ret (Return [])).

(** [for (let attempt = 1; attempt <= maxRetries; attempt++) { ... } return []].
    [fuel] counts the passes that may still be made. *)
Fixpoint for_attempts (fuel : nat) (query : string) (maxResults : nat) (attempt : Z)
  : M (list StructuredSearchResult.t) :=
  if (attempt <=? maxRetries)%Z then
    match fuel with
    | O => ret []
    | S fuel' =>
        let* c := attempt_body query maxResults attempt in
        match c with
        | Continue => for_attempts fuel' query maxResults (attempt + 1)%Z
        | Return v => ret v
        end
    end
  else ret [].

(** [maxResults] is a natural number: the only caller leaves it at its
    default, 5. *)
Definition getStructuredResults (query : string) (maxResults : nat)
  : M (list StructuredSearchResult.t) :=
  for_attempts (Z.to_nat maxRetries) query maxResults 1%Z.

End WithEnv.
End SearxNGSearchTool.

(** ** agents/search-agent.ts *)

Module SearchAgent.
Section WithEnv.
Context `{Env}.

(** The single node of the agent's graph, run on the message list
    [[HumanMessage(query)]]; it resolves to the text of the reply. *)
Definition searchNode (query : string) : M string :=
  let* searchResults := SearxNGSearchTool._call query in
  let prompt :=
    "Based on the following search results for " +:+ quoted query +:+
    ", provide a clear and concise answer:" +:+ nl +:+ nl +:+
    searchResults +:+ nl +:+ nl +:+
    "Please synthesize the information and provide a helpful response." in
  llm_request prompt.

Definition search (query : string) : M SearchResult.t :=
  emit (AgentSearch query) ;;
  let* rawResults := SearxNGSearchTool.getStructuredResults query 5 in
  let* summary := searchNode query in
  let* now := new_Date in
  ret {| SearchResult.query := query;
         SearchResult.results := rawResults;
         SearchResult.summary := summary;
         SearchResult.timestamp := now |}.

Definition searchSimple (query : string) : M string :=
  let* result := search query in
  ret (SearchResult.summary result).

End WithEnv.
End SearchAgent.

(** ** tools/search-agent-tool.ts *)

Module SearchAgentTool.
Section WithEnv.
Context `{Env}.

Definition formatResults (result : SearchResult.t) : string :=
  let resultsList :=
    join (nl +:+ nl)
      (imap (fun index r =>
               pretty (index + 1)%nat +:+ ". " +:+ StructuredSearchResult.title r +:+
               nl +:+ "   URL: " +:+ StructuredSearchResult.url r +:+
               nl +:+ "   Snippet: " +:+ StructuredSearchResult.snippet r)
            (take 5 (SearchResult.results result))) in
  "Search Results for " +:+ quoted (SearchResult.query result) +:+ ":" +:+ nl +:+ nl +:+
  resultsList +:+ nl +:+ nl +:+
  "Summary:" +:+ nl +:+ SearchResult.summary result +:+ nl +:+ nl +:+
  "Total results found: " +:+ pretty (length (SearchResult.results result)).

Definition _call (query : string) : M string :=
  try_catch
    (let* w := get_world in
     match searchCache w !! query with
     | Some cached => ret (formatResults cached)
     | None =>
         let* result := SearchAgent.search query in
         modify (fun w => set_searchCache (<[query := result]> (searchCache w)) w) ;;
         if (length (SearchResult.results result) =? 0)%nat
         then ret ("No results found for query: " +:+ quoted query)
         else ret (formatResults result)
     end)
    (fun error => ret ("Error performing search: " +:+ message error)).

(** [return this.searchCache.get(query)!]: the non-null assertion is erased
    at run time, so the result is [undefined] ([None]) when the cache has
    no entry for the query. *)
Definition getStructuredResult (query : string) : M (option SearchResult.t) :=
  _call query ;;
  let* w := get_world in
  ret (searchCache w !! query).

Definition clearCache : M unit :=
  modify (set_searchCache ∅).

End WithEnv.
End SearchAgentTool.

(** ** [Array.prototype.toSorted]

    The built-in sort is stable and, for a comparator that is consistent,
    its result does not depend on the algorithm; insertion from the right
    is used here.  [cmp a b <= 0] leaves [a] before [b]. *)

Section ToSorted.
Context {A : Type} (cmp : A -> A -> Q).

Fixpoint sorted_insert (x : A) (l : list A) : list A :=
  match l with
  | [] => [x]
  | y :: l' =>
      if Qle_bool (cmp x y) 0 then x :: y :: l' else y :: sorted_insert x l'
  end.

Fixpoint toSorted (l : list A) : list A :=
  match l with
  | [] => []
  | x :: l' => sorted_insert x (toSorted l')
  end.

End ToSorted.

(** ** utils/vector-search.ts

    [InMemoryStore] comes from a library.  It files an item under the
    parts of its namespace joined by a colon and under its key, so that
    [["a"; "b"]] and [["a:b"]] name one namespace; it is modelled as a
    finite map from such pairs to the stored value.  Its index is set up
    without a list of fields, so the text it embeds for an item is made of
    the whole value ([indexed_text]), not of the [text] field alone.  Its
    [search] scores the values of the namespace against the query with the
    embedding model ([similarity]), orders them by decreasing score and
    keeps [limit]. *)

Module VectorSearch.
Section WithEnv.
Context `{Env}.

Definition embed (text : string) : M unit :=
  emit (Embed text) ;; lift (ollama_embeddings text).

(** The name under which the store files a namespace. *)
Definition namespace_key (namespace : list string) : string := join ":" namespace.

Definition store_put (namespace : list string) (id : string) (value : gmap string string)
  : M unit :=
  embed (indexed_text value) ;;
  modify (fun w => set_store (<[(namespace_key namespace, id) := value]> (store w)) w).

Definition matches_filter (filter : option (gmap string string)) (value : gmap string string)
  : bool :=
  match filter with
  | None => true
  | Some f =>
      forallb (fun '(k, v) => bool_decide (value !! k = Some v)) (map_to_list f)
  end.

Definition score_order (a b : ScoredMatch.t) : Q :=
  match ScoredMatch.score a, ScoredMatch.score b with
  | Some x, Some y => y - x
  | Some _, None => -1
  | None, Some _ => 1
  | None, None => 0
  end.

Definition store_search (namespace : list string) (query : string)
    (filter : option (gmap string string)) (limit : nat) : M (list ScoredMatch.t) :=
  embed query ;;
  let* w := get_world in
  let candidates :=
    omap (fun '((ns, id), value) =>
            if bool_decide (ns = namespace_key namespace) && matches_filter filter value
            then Some {| ScoredMatch.key := id;
                         ScoredMatch.value := value;
                         ScoredMatch.score := similarity query (indexed_text value) |}
            else None)
         (map_to_list (store w)) in
  ret (take limit (toSorted score_order candidates)).

(** [{ text: content.text, ...content.metadata }]: a [text] entry of the
    metadata overrides the text. *)
Definition addContent (namespace : list string) (id : string) (content : SearchableContent.t)
  : M unit :=
  store_put namespace id
    (default ∅ (SearchableContent.metadata content)
       ∪ {[ "text" := SearchableContent.text content ]}).

(** [Promise.all(contents.map(...))]: every item is attempted, and the first
    failure, if any, is the failure of the batch. *)
Fixpoint addBatch (namespace : list string) (contents : list (string * SearchableContent.t))
  : M unit :=
  match contents with
  | [] => ret tt
  | (id, content) :: rest =>
      fun w =>
        match addContent namespace id content w with
        | (Returned _, w') => addBatch namespace rest w'
        | (Thrown e, w') => (Thrown e, snd (addBatch namespace rest w'))
        end
  end.

Definition search (namespace : list string) (query : string)
    (filter : option (gmap string string)) (limit : nat) : M (list ScoredMatch.t) :=
  let* results := store_search namespace query filter limit in
  ret (map (fun result =>
              {| ScoredMatch.key := ScoredMatch.key result;
                 ScoredMatch.value := ScoredMatch.value result;
                 ScoredMatch.score := ScoredMatch.score result |})
           results).

Definition getById (namespace : list string) (id : string) : M (option (gmap string string)) :=
  let* w := get_world in
  ret (store w !! (namespace_key namespace, id)).

Definition delete (namespace : list string) (id : string) : M unit :=
  modify (fun w => set_store (base.delete (namespace_key namespace, id) (store w)) w).

(** The body of [clearNamespace] holds comments only. *)
Definition clearNamespace : M unit := ret tt.

End WithEnv.
End VectorSearch.

(** ** tools/mongodb-storage-tool.ts *)

Module MongoDBStorageTool.
Section WithEnv.
Context `{Env}.

(** [data.key] on a parsed value: a [TypeError] on [null], [undefined]
    ([None]) on a value that has no such property. *)
Definition get_property (data : json) (key : string) : outcome (option json) :=
  match data with
  | JNull =>
      Thrown (Exn TypeError ("Cannot read properties of null (reading '" +:+ key +:+ "')"))
  | JObject members => Returned (get_member members key)
  | _ => Returned None
  end.

Definition truthy (v : option json) : bool :=
  match v with
  | None | Some JNull => false
  | Some (JBool b) => b
  | Some (JNumber x) => truthy_number x
  | Some (JString s) => truthy_string s
  | Some (JArray _) | Some (JObject _) => true
  end.

(** A value inside a template literal. *)
Fixpoint template (v : json) : string :=
  match v with
  | JNull => "null"
  | JBool true => "true"
  | JBool false => "false"
  | JNumber x => Number_toString x
  | JString s => s
  | JArray items =>
      join "," (map (fun item => match item with JNull => "" | _ => template item end) items)
  | JObject _ => "[object Object]"
  end.

Definition connect : M unit :=
  let* w := get_world in
  if negb (db w) then
    (fun w => (mongo_connect (count is_DbConnect (trace w)),
               set_trace (trace w ++ [DbConnect]) w)) ;;
    modify (set_db true)
  else ret tt.

Definition insertOne (document : ResearchDocument.t) : M string :=
  fun w =>
    let w' := set_trace (trace w ++ [DbInsert document]) w in
    match mongo_insertOne (count is_DbInsert (trace w)) document with
    | Returned insertedId =>
        (Returned insertedId,
         set_research_collection (research_collection w' ++ [document]) w')
    | Thrown e => (Thrown e, w')
    end.

Definition missing_fields : string :=
  "Error: Input must contain " +:+ quoted "query" +:+ " and " +:+ quoted "summary" +:+
  " fields.".

Definition _call (input : string) : M string :=
  try_catch
    (let* data := lift (JSON.parse input) in
     let* query := lift (get_property data "query") in
     let* summary := lift (get_property data "summary") in
     if negb (truthy query) || negb (truthy summary) then
       ret missing_fields
     else
       connect ;;
       let* sources := lift (get_property data "sources") in
       let* now := new_Date in
       let document :=
         {| ResearchDocument.query := default JNull query;
            ResearchDocument.summary := default JNull summary;
            ResearchDocument.sources := if truthy sources then default JNull sources else JArray [];
            ResearchDocument.timestamp := now |} in
       let* insertedId := insertOne document in
       ret ("Successfully saved research to MongoDB with ID: " +:+ insertedId +:+
            ". Query: " +:+ quoted (template (default JNull query))))
    (fun error =>
       if instanceof error SyntaxError
       then ret ("Error: Invalid JSON input. " +:+ message error)
       else ret ("Error saving to MongoDB: " +:+ toString error)).

Definition close : M unit := modify (set_db false).

End WithEnv.
End MongoDBStorageTool.

(** ** The built-in [Map], which remembers the order of insertion *)

Module JSMap.
Section Ops.
Context {V : Type}.

Definition t : Type := list (string * V).

Fixpoint get (m : t) (key : string) : option V :=
  match m with
  | [] => None
  | (k, v) :: m' => if String.eqb k key then Some v else get m' key
  end.

Definition has (m : t) (key : string) : bool :=
  match get m key with Some _ => true | None => false end.

(** A new key goes last; a key already there keeps its place. *)
Fixpoint set (m : t) (key : string) (value : V) : t :=
  match m with
  | [] => [(key, value)]
  | (k, v) :: m' =>
      if String.eqb k key then (k, value) :: m' else (k, v) :: set m' key value
  end.

Definition values (m : t) : list V := map snd m.

End Ops.
Arguments t V : clear implicits.
End JSMap.

(** ** agents/research-agent.ts *)

Module ResearchAgent.

(** What [SearchQueriesSchema.parse] returns: [{ queries: string[] }]. *)
Record SearchQueries := { queries : list string }.

Fixpoint all_strings (items : list json) : option (list string) :=
  match items with
  | [] => Some []
  | JString s :: rest =>
      match all_strings rest with
      | Some l => Some (s :: l)
      | None => None
      end
  | _ :: _ => None
  end.

(** [z.object({ queries: z.array(z.string()).min(3).max(5) })] *)
Definition SearchQueriesSchema : LlmHelpers.Schema SearchQueries :=
  fun v =>
    match v with
    | JObject members =>
        match get_member members "queries" with
        | Some (JArray items) =>
            match all_strings items with
            | Some qs =>
                if (length qs <? 3)%nat then
                  Thrown (Exn ZodError "Too small: expected array to have >=3 items")
                else if (5 <? length qs)%nat then
                  Thrown (Exn ZodError "Too big: expected array to have <=5 items")
                else Returned {| queries := qs |}
            | None => Thrown (Exn ZodError "Invalid input: expected string")
            end
        | _ => Thrown (Exn ZodError "Invalid input: expected array")
        end
    | _ => Thrown (Exn ZodError "Invalid input: expected object")
    end.

(** [...state, field: value] for the fields the nodes write. *)
Definition with_generatedQueries (qs : list string) (st : ResearchState.t) :=
  {| ResearchState.topic := ResearchState.topic st;
     ResearchState.generatedQueries := qs;
     ResearchState.searchResults := ResearchState.searchResults st;
     ResearchState.filteredResults := ResearchState.filteredResults st;
     ResearchState.summary := ResearchState.summary st;
     ResearchState.sources := ResearchState.sources st |}.
Definition with_searchResults (rs : list (option SearchResult.t)) (st : ResearchState.t) :=
  {| ResearchState.topic := ResearchState.topic st;
     ResearchState.generatedQueries := ResearchState.generatedQueries st;
     ResearchState.searchResults := rs;
     ResearchState.filteredResults := ResearchState.filteredResults st;
     ResearchState.summary := ResearchState.summary st;
     ResearchState.sources := ResearchState.sources st |}.
Definition with_filteredResults (rs : list SearchResult.t) (st : ResearchState.t) :=
  {| ResearchState.topic := ResearchState.topic st;
     ResearchState.generatedQueries := ResearchState.generatedQueries st;
     ResearchState.searchResults := ResearchState.searchResults st;
     ResearchState.filteredResults := rs;
     ResearchState.summary := ResearchState.summary st;
     ResearchState.sources := ResearchState.sources st |}.
Definition with_summary_sources (summary : string) (sources : list Source.t)
    (st : ResearchState.t) :=
  {| ResearchState.topic := ResearchState.topic st;
     ResearchState.generatedQueries := ResearchState.generatedQueries st;
     ResearchState.searchResults := ResearchState.searchResults st;
     ResearchState.filteredResults := ResearchState.filteredResults st;
     ResearchState.summary := summary;
     ResearchState.sources := sources |}.

Section WithEnv.
Context `{Env}.

(** *** Node 1: generate search queries from the topic *)

Definition generateQueriesNode (state : ResearchState.t) : M (list string) :=
  let queryPrompt :=
    LlmHelpers.createJsonPrompt
      ("You are a research assistant. Generate 3-5 diverse search queries about the following topic." +:+
       nl +:+ nl +:+ "Topic: " +:+ ResearchState.topic state +:+ nl +:+ nl +:+
       "The queries should:" +:+ nl +:+
       "- Cover different aspects of the topic" +:+ nl +:+
       "- Be specific and actionable" +:+ nl +:+
       "- Return complementary information")
      toJSONSchema None in
  let* response := llm_request queryPrompt in
  let responseText := trim response in
  lift
    (catch
       (and_then (LlmHelpers.extractJsonFromLLMResponse responseText SearchQueriesSchema)
          (fun parsed => Returned (queries parsed)))
       (fun error =>
          Thrown (Exn PlainError
            ("Failed to generate valid search queries: " +:+ message error)))).

(** *** Node 2: run the searches one after the other *)

(** The body of [for (const query of state.generatedQueries)], with the
    list built so far in [searchResults]; [last_query] is
    [state.generatedQueries.at(-1)]. *)
Fixpoint search_loop (last_query : option string) (pending : list string)
    (searchResults : list (option SearchResult.t)) : M (list (option SearchResult.t)) :=
  match pending with
  | [] => ret searchResults
  | query :: rest =>
      let* result := SearchAgentTool.getStructuredResult query in
      let searchResults := (searchResults ++ [result])%list in
      (if bool_decide (Some query = last_query) then ret tt else sleep 2000) ;;
      search_loop last_query rest searchResults
  end.

Definition searchNode (state : ResearchState.t) : M (list (option SearchResult.t)) :=
  search_loop (last (ResearchState.generatedQueries state))
    (ResearchState.generatedQueries state) [].

(** *** Node 3: filter and rank with the vector store *)

Definition namespace_of (topic : string) : list string :=
  ["research"; toLowerCase (dash_whitespace false topic)].

Definition undefined_results : exn :=
  Exn TypeError "Cannot read properties of undefined (reading 'results')".
Definition undefined_query : exn :=
  Exn TypeError "Cannot read properties of undefined (reading 'query')".

Definition contentItem (result : SearchResult.t) (index : nat) (r : StructuredSearchResult.t)
  : string * SearchableContent.t :=
  (SearchResult.query result +:+ "-" +:+ pretty index +:+ "-" +:+ StructuredSearchResult.url r,
   {| SearchableContent.text :=
        StructuredSearchResult.title r +:+ nl +:+ nl +:+
        StructuredSearchResult.snippet r +:+ nl +:+ nl +:+
        "Query: " +:+ SearchResult.query result;
      SearchableContent.metadata :=
        Some (list_to_map
                [("title", StructuredSearchResult.title r);
                 ("url", StructuredSearchResult.url r);
                 ("snippet", StructuredSearchResult.snippet r);
                 ("query", SearchResult.query result);
                 ("summary", SearchResult.summary result)]) |}).

(** [state.searchResults.flatMap((result) => result.results.map(...))]; the
    callback throws on an element that is [undefined]. *)
Fixpoint contentItems (searchResults : list (option SearchResult.t))
  : outcome (list (string * SearchableContent.t)) :=
  match searchResults with
  | [] => Returned []
  | None :: _ => Thrown undefined_results
  | Some result :: rest =>
      and_then (contentItems rest) (fun items =>
        Returned (imap (contentItem result) (SearchResult.results result) ++ items)%list)
  end.

(** [state.searchResults.find((r) => r.query === query)], for a [query]
    that may be [undefined]. *)
Fixpoint find_original (searchResults : list (option SearchResult.t)) (query : option string)
  : outcome (option SearchResult.t) :=
  match searchResults with
  | [] => Returned None
  | None :: _ => Thrown undefined_query
  | Some r :: rest =>
      if bool_decide (Some (SearchResult.query r) = query)
      then Returned (Some r)
      else find_original rest query
  end.

(** [result.score ? Math.min(10, result.score * 10) : 5] *)
Definition relevanceScore_of (score : option Q) : Q :=
  match score with
  | Some s => if truthy_number s then Qmin 10 (s * 10) else 5
  | None => 5
  end.

Definition with_results (results : list StructuredSearchResult.t) (r : SearchResult.t) :=
  {| SearchResult.query := SearchResult.query r;
     SearchResult.results := results;
     SearchResult.summary := SearchResult.summary r;
     SearchResult.timestamp := SearchResult.timestamp r |}.

(** A field that the type argument of [search] promises to be a string. *)
Definition field (value : gmap string string) (name : string) : string :=
  default "" (value !! name).

(** One pass through [for (const result of searchResults)].  The object
    pushed to is the one held by the map, so the push is a [set] at a key
    that is already there. *)
Definition group_step (original : list (option SearchResult.t))
    (resultsByQuery : JSMap.t SearchResult.t) (result : ScoredMatch.t)
  : outcome (JSMap.t SearchResult.t) :=
  let query := ScoredMatch.value result !! "query" in
  and_then
    (match query with
     | Some q =>
         if negb (JSMap.has resultsByQuery q) then
           and_then (find_original original query) (fun originalResult =>
             match originalResult with
             | Some originalResult =>
                 Returned (JSMap.set resultsByQuery q (with_results [] originalResult))
             | None => Returned resultsByQuery
             end)
         else Returned resultsByQuery
     | None =>
         and_then (find_original original query) (fun _ => Returned resultsByQuery)
     end)
    (fun resultsByQuery =>
       match query with
       | Some q =>
           match JSMap.get resultsByQuery q with
           | Some queryResult =>
               let relevanceScore := relevanceScore_of (ScoredMatch.score result) in
               Returned
                 (JSMap.set resultsByQuery q
                    (with_results
                       (SearchResult.results queryResult ++
                        [{| StructuredSearchResult.title := field (ScoredMatch.value result) "title";
                            StructuredSearchResult.url := field (ScoredMatch.value result) "url";
                            StructuredSearchResult.snippet := field (ScoredMatch.value result) "snippet";
                            StructuredSearchResult.relevanceScore := Some relevanceScore |}])%list
                       queryResult))
           | None => Returned resultsByQuery
           end
       | None => Returned resultsByQuery
       end).

Fixpoint group_matches (original : list (option SearchResult.t))
    (resultsByQuery : JSMap.t SearchResult.t) (searchResults : list ScoredMatch.t)
  : outcome (JSMap.t SearchResult.t) :=
  match searchResults with
  | [] => Returned resultsByQuery
  | result :: rest =>
      and_then (group_step original resultsByQuery result) (fun resultsByQuery =>
        group_matches original resultsByQuery rest)
  end.

Definition filterNode (state : ResearchState.t) : M (list SearchResult.t) :=
  let namespace := namespace_of (ResearchState.topic state) in
  let* items := lift (contentItems (ResearchState.searchResults state)) in
  VectorSearch.addBatch namespace items ;;
  let* searchResults :=
    VectorSearch.search namespace (ResearchState.topic state) None 20 in
  let* resultsByQuery :=
    lift (group_matches (ResearchState.searchResults state) [] searchResults) in
  let filteredResults := JSMap.values resultsByQuery in
  VectorSearch.clearNamespace ;;
  ret filteredResults.

(** *** Node 4: synthesise the summary and collect the sources *)

Definition allSummaries (filteredResults : list SearchResult.t) : string :=
  join (nl +:+ nl +:+ "---" +:+ nl +:+ nl)
    (map (fun r =>
            "Query: " +:+ SearchResult.query r +:+ nl +:+
            "Findings: " +:+ SearchResult.summary r +:+ nl +:+ nl +:+
            "Sources:" +:+ nl +:+
            join nl
              (map (fun source =>
                      "- " +:+ StructuredSearchResult.title source +:+
                      " (" +:+ StructuredSearchResult.url source +:+ ")")
                   (SearchResult.results r)))
         filteredResults).

Definition summaryPrompt (state : ResearchState.t) : string :=
  "You are a research analyst. Based on the following research findings about " +:+
  quoted (ResearchState.topic state) +:+
  ", create a comprehensive, well-organized report." +:+ nl +:+ nl +:+
  allSummaries (ResearchState.filteredResults state) +:+ nl +:+ nl +:+
  "Provide:" +:+ nl +:+
  "1. An executive summary" +:+ nl +:+
  "2. Key findings organized by theme" +:+ nl +:+
  "3. Important insights and patterns" +:+ nl +:+
  "4. Conclusions" +:+ nl +:+ nl +:+
  "Make it clear, concise, and actionable.".

(** [source.relevanceScore || 5] *)
Definition relevance_of (source : StructuredSearchResult.t) : Q :=
  match StructuredSearchResult.relevanceScore source with
  | Some r => if truthy_number r then r else 5
  | None => 5
  end.

(** The body of the inner loop: [if (!sourcesMap.has(source.url)) sourcesMap.set(...)]. *)
(** The object literal [{ url, title, relevance }] handed to [sourcesMap.set]. *)
Definition source_of (source : StructuredSearchResult.t) : Source.t :=
  {| Source.url := StructuredSearchResult.url source;
     Source.title := StructuredSearchResult.title source;
     Source.relevance := relevance_of source |}.

Definition add_source (sourcesMap : JSMap.t Source.t) (source : StructuredSearchResult.t)
  : JSMap.t Source.t :=
  if negb (JSMap.has sourcesMap (StructuredSearchResult.url source)) then
    JSMap.set sourcesMap (StructuredSearchResult.url source) (source_of source)
  else sourcesMap.

(** The two nested loops over [state.filteredResults] and [result.results]. *)
Definition fill_sourcesMap (filteredResults : list SearchResult.t) : JSMap.t Source.t :=
  fold_left
    (fun sourcesMap result => fold_left add_source (SearchResult.results result) sourcesMap)
    filteredResults [].

Definition by_relevance (a b : Source.t) : Q := Source.relevance b - Source.relevance a.

(** The statements of [summarizeNode] after the call of the model: collect
    the sources, deduplicate them by url, sort and keep fifteen. *)
Definition collectSources (filteredResults : list SearchResult.t) : list Source.t :=
  take 15 (toSorted by_relevance (JSMap.values (fill_sourcesMap filteredResults))).

Definition summarizeNode (state : ResearchState.t) : M (string * list Source.t) :=
  let* summary := llm_request (summaryPrompt state) in
  let sources := collectSources (ResearchState.filteredResults state) in
  ret (summary, sources).

(** *** Node 5: save to MongoDB *)

(** [JSON.stringify({ query, summary, sources })] *)
Definition storageData (state : ResearchState.t) : string :=
  "{" +:+ quoted "query" +:+ ":" +:+ stringify_string (ResearchState.topic state) +:+
  "," +:+ quoted "summary" +:+ ":" +:+ stringify_string (ResearchState.summary state) +:+
  "," +:+ quoted "sources" +:+ ":" +:+
  stringify_strings (map Source.url (ResearchState.sources state)) +:+
  "}".

Definition saveNode (state : ResearchState.t) : M unit :=
  MongoDBStorageTool._call (storageData state) ;;
  ret tt.

(** *** The graph: START, generateQueries, search, filter, summarize, save, END *)

Definition graph_invoke (state : ResearchState.t) : M ResearchState.t :=
  let* generatedQueries := generateQueriesNode state in
  let state := with_generatedQueries generatedQueries state in
  let* searchResults := searchNode state in
  let state := with_searchResults searchResults state in
  let* filteredResults := filterNode state in
  let state := with_filteredResults filteredResults state in
  let* (summary, sources) := summarizeNode state in
  let state := with_summary_sources summary sources state in
  saveNode state ;;
  ret state.

Definition research (topic : string) : M ResearchReport.t :=
  let* result :=
    graph_invoke
      {| ResearchState.topic := topic;
         ResearchState.generatedQueries := [];
         ResearchState.searchResults := [];
         ResearchState.filteredResults := [];
         ResearchState.summary := "";
         ResearchState.sources := [] |} in
  let* now := new_Date in
  ret {| ResearchReport.topic := topic;
         ResearchReport.queries := ResearchState.generatedQueries result;
         ResearchReport.summary := ResearchState.summary result;
         ResearchReport.topSources := ResearchState.sources result;
         ResearchReport.allResults := ResearchState.filteredResults result;
         ResearchReport.timestamp := now |}.

Definition researchSimple (topic : string) : M string :=
  let* result := research topic in
  ret (ResearchReport.summary result).

Definition close : M unit := MongoDBStorageTool.close.

End WithEnv.
End ResearchAgent.

(** ** Vocabulary of the statements *)

(** A request to the search engine that brings nothing: it throws, or its
    result set is missing or empty. *)
Definition brings_nothing (o : outcome SearxNGResponse.t) : bool :=
  match o with
  | Thrown _ => true
  | Returned response =>
      SearxNGSearchTool.is_empty_or_missing (SearxNGResponse.results response)
  end.

(** A computation that touches nothing but the log, and writes to it only
    events that satisfy [P]. *)
Definition logs_only {A} (P : event -> Prop) (m : M A) : Prop :=
  forall w, exists tr, snd (m w) = set_trace (trace w ++ tr) w /\ Forall P tr.

(** The requests one [SearchAgentTool] receives over its lifetime. *)
Fixpoint requests `{Env} (qs : list string) : M unit :=
  match qs with
  | [] => ret tt
  | q :: rest => SearchAgentTool._call q ;; requests rest
  end.

(** How many times a query was handed to a [SearchAgent]. *)
Definition outbound_calls (q : string) (w : world) : nat :=
  count (is_AgentSearch q) (trace w).

(** The items of the groups, group after group, in the order in which the
    two loops of [summarizeNode] visit them. *)
Definition items_in_order (filteredResults : list SearchResult.t)
  : list StructuredSearchResult.t :=
  flat_map SearchResult.results filteredResults.

(** The sources in the order in which [sourcesMap] received them. *)
Definition insertion_order (filteredResults : list SearchResult.t) : list Source.t :=
  JSMap.values (ResearchAgent.fill_sourcesMap filteredResults).

Definition has_url (u : string) (source : StructuredSearchResult.t) : bool :=
  String.eqb (StructuredSearchResult.url source) u.

Definition has_relevance (r : Q) (source : Source.t) : bool :=
  Qeq_bool (Source.relevance source) r.

(** Not increasing from left to right. *)
Definition ranked_before (a b : Source.t) : Prop :=
  (Source.relevance b <= Source.relevance a)%Q.

(** The invariant of [sourcesMap]: no key twice, and every source filed
    under its own url. *)
Definition well_keyed (sourcesMap : JSMap.t Source.t) : Prop :=
  NoDup (map fst sourcesMap) /\
  Forall (fun kv => Source.url (snd kv) = fst kv) sourcesMap.

(** Whether a character occurs in a text. *)
Fixpoint occurs (c : ascii) (s : string) : bool :=
  match s with
  | EmptyString => false
  | String d s' => Ascii.eqb d c || occurs c s'
  end.

(** What a structured result of [getStructuredResults] looks like: it has a
    snippet, and no relevance score yet. *)
Definition fresh (r : StructuredSearchResult.t) : Prop :=
  StructuredSearchResult.snippet r <> "" /\
  StructuredSearchResult.relevanceScore r = None.

(** The logs that one run of [getStructuredResults] can leave. *)
Definition attempts_log (q : string) (tr : list event) : Prop :=
  tr = [HttpGet q] \/
  tr = [HttpGet q; Sleep 3000; HttpGet q] \/
  tr = [HttpGet q; Sleep 3000; HttpGet q; Sleep 3000; HttpGet q].

(** The invariant of the search cache: a result is kept under the query it
    answers. *)
Definition cache_keyed (w : world) : Prop :=
  forall k r, searchCache w !! k = Some r -> SearchResult.query r = k.

(** What [getStructuredResult] may resolve to for a query: [undefined], or
    a result for that query. *)
Definition answers (q : string) (o : option SearchResult.t) : Prop :=
  forall r, o = Some r -> SearchResult.query r = q.

(** The pause of 2000 ms between two searches of [searchNode]. *)
Definition is_pause (e : event) : bool :=
  match e with Sleep ms => (ms =? 2000)%Z | _ => false end.

(** Whether [searchNode] pauses after a query: it does unless the query is
    equal to the last one of the list. *)
Definition pause_after (last_query : option string) (q : string) : bool :=
  negb (bool_decide (Some q = last_query)).

(** Whether every character of a text passes a test. *)
Fixpoint every (p : ascii -> bool) (s : string) : bool :=
  match s with
  | EmptyString => true
  | String c s' => p c && every p s'
  end.



(** An item of a group carries a relevance score, which is at most 10. *)
Definition scored (item : StructuredSearchResult.t) : Prop :=
  exists s, StructuredSearchResult.relevanceScore item = Some s /\ (s <= 10)%Q.

(** What a group filed under a query is: it has that query, at least one
    item, and the summary and timestamp of the first search result with
    that query. *)
Definition group_of (original : list (option SearchResult.t)) (k : string)
    (g : SearchResult.t) : Prop :=
  SearchResult.query g = k /\
  SearchResult.results g <> [] /\
  Forall scored (SearchResult.results g) /\
  exists r,
    ResearchAgent.find_original original (Some k) = Returned (Some r) /\
    SearchResult.summary g = SearchResult.summary r /\
    SearchResult.timestamp g = SearchResult.timestamp r.

(** The invariant of [resultsByQuery]. *)
Definition grouped (original : list (option SearchResult.t))
    (m : JSMap.t SearchResult.t) : Prop :=
  NoDup (map fst m) /\ Forall (fun kv => group_of original (fst kv) (snd kv)) m.

(** How many items the groups of a map hold. *)
Definition held (m : JSMap.t SearchResult.t) : nat :=
  length (flat_map (fun kv => SearchResult.results (snd kv)) m).

(** The value [addContent] stores for a content: [{ text, ...metadata }]. *)
Definition stored_value (content : SearchableContent.t) : gmap string string :=
  default ∅ (SearchableContent.metadata content)
    ∪ {[ "text" := SearchableContent.text content ]}.


(** The inputs [MongoDBStorageTool._call] goes on to store: those for which
    [JSON.parse] returns an object whose [query] and [summary] are truthy.
    The result is the list of members of that object. *)
Definition storable (input : string) : option (list (string * json)) :=
  match JSON.parse input with
  | Returned (JObject members) =>
      if MongoDBStorageTool.truthy (get_member members "query") &&
         MongoDBStorageTool.truthy (get_member members "summary")
      then Some members else None
  | _ => None
  end.

(** The document built from the members of the input. *)
Definition document_of (members : list (string * json)) (now : Z) : ResearchDocument.t :=
  {| ResearchDocument.query := default JNull (get_member members "query");
     ResearchDocument.summary := default JNull (get_member members "summary");
     ResearchDocument.sources :=
       if MongoDBStorageTool.truthy (get_member members "sources")
       then default JNull (get_member members "sources") else JArray [];
     ResearchDocument.timestamp := now |}.

(** What the [catch] block of [_call] returns for an error. *)
Definition error_text (e : exn) : string :=
  if instanceof e SyntaxError
  then "Error: Invalid JSON input. " +:+ message e
  else "Error saving to MongoDB: " +:+ toString e.

Definition saved_text `{Env} (insertedId : string) (members : list (string * json)) : string :=
  "Successfully saved research to MongoDB with ID: " +:+ insertedId +:+
  ". Query: " +:+
  quoted (MongoDBStorageTool.template (default JNull (get_member members "query"))).

(** The three messages of the errors [extractJsonFromLLMResponse] throws. *)
Definition extraction_message (m : string) : Prop :=
  m = LlmHelpers.no_json_object_found \/
  (exists cause, m = "Failed to validate LLM response against schema: " +:+ cause) \/
  (exists cause, m = "Failed to parse JSON from LLM response: " +:+ cause).

(** The members of the object [JSON.stringify({ query, summary, sources })]
    of [saveNode], parsed back. *)
Definition storage_members (topic summary : string) (urls : list string)
  : list (string * json) :=
  [("query", JString topic); ("summary", JString summary);
   ("sources", JArray (map JString urls))].

(** ** Sample collaborators, for the examples *)

Module Samples.

Definition hit (name : string) : SearxNGResult.t :=
  {| SearxNGResult.title := "Title " +:+ name;
     SearxNGResult.url := "http://" +:+ name;
     SearxNGResult.content := "About " +:+ name;
     SearxNGResult.engine := None |}.

Definition two_hits (q : string) : outcome SearxNGResponse.t :=
  Returned {| SearxNGResponse.results := Some [hit (q +:+ "/1"); hit (q +:+ "/2")];
              SearxNGResponse.query := q |}.

Definition no_hits (q : string) : outcome SearxNGResponse.t :=
  Returned {| SearxNGResponse.results := Some []; SearxNGResponse.query := q |}.

(** The reply [{ queries: [...] }] as JSON text, without any white space. *)
Definition queries_reply (queries : list string) : string :=
  "{" +:+ quoted "queries" +:+ ":" +:+ stringify_strings queries +:+ "}".

Definition three_queries : string := queries_reply ["a"; "b"; "c"].

(** An environment given by its search engine, its language model, its
    similarity score and its database insert; the rest always works. *)
Definition env_of (http : nat -> string -> outcome SearxNGResponse.t)
    (llm : nat -> string -> outcome string)
    (score : string -> string -> option Q)
    (insert : nat -> ResearchDocument.t -> outcome string) : Env :=
  {| axios_get := http;
     llm_invoke := llm;
     ollama_embeddings := fun _ => Returned tt;
     indexed_text :=
       fun value => join nl (map (fun '(k, v) => k +:+ ": " +:+ v) (map_to_list value));
     similarity := score;
     mongo_connect := fun _ => Returned tt;
     mongo_insertOne := insert;
     Date_now := fun n => Z.of_nat n;
     Number_toString := fun x => pretty (Qnum x / Zpos (Qden x))%Z;
     toJSONSchema := "{" +:+ quoted "type" +:+ ":" +:+ quoted "object" +:+ "}" |}.

(** The first reply of the model is the list of queries, the later ones are
    summaries. *)
Definition planner (reply : string) (n : nat) (prompt : string) : outcome string :=
  if (n =? 0)%nat then Returned reply else Returned "A summary.".

Definition inserted (n : nat) (doc : ResearchDocument.t) : outcome string :=
  Returned ("id-" +:+ pretty n).

Definition healthy : Env :=
  env_of (fun _ => two_hits) (planner three_queries) (fun _ _ => Some 0.73%Q) inserted.


Definition score_zero : Env :=
  env_of (fun _ => two_hits) (planner three_queries) (fun _ _ => Some 0%Q) inserted.

Definition blank_queries : Env :=
  env_of (fun _ => two_hits) (planner (queries_reply [""; " "; "x"]))
    (fun _ _ => Some 0.73%Q) inserted.

Definition search_engine_down : Env :=
  env_of (fun _ _ => Thrown (Exn AxiosError "timeout of 10000ms exceeded"))
    (planner three_queries) (fun _ _ => Some 0.73%Q) inserted.

Definition nothing_found : Env :=
  env_of (fun _ => no_hits) (planner three_queries) (fun _ _ => Some 0.73%Q) inserted.

Definition llm_down : Env :=
  env_of (fun _ => two_hits) (fun _ _ => Thrown (Exn PlainError "fetch failed"))
    (fun _ _ => Some 0.73%Q) inserted.

(** The model plans the queries and fails on every later call. *)
Definition summaries_down : Env :=
  env_of (fun _ => two_hits)
    (fun n _ => if (n =? 0)%nat then Returned three_queries
                else Thrown (Exn PlainError "fetch failed"))
    (fun _ _ => Some 0.73%Q) inserted.

(** The model fails on its first call only. *)
Definition llm_flaky : Env :=
  env_of (fun _ => two_hits)
    (fun n _ => if (n =? 0)%nat then Thrown (Exn PlainError "fetch failed")
                else Returned "A summary.")
    (fun _ _ => Some 0.73%Q) inserted.

(** The world after one request for "rocq" that went well. *)
Definition after_rocq : world :=
  snd (@SearchAgentTool._call healthy "rocq" initial_world).

(** One search result with one raw item, as [searchNode] leaves it. *)
Definition one_result : SearchResult.t :=
  {| SearchResult.query := "q";
     SearchResult.results :=
       [{| StructuredSearchResult.title := "T";
           StructuredSearchResult.url := "http://a";
           StructuredSearchResult.snippet := "S";
           StructuredSearchResult.relevanceScore := None |}];
     SearchResult.summary := "sum";
     SearchResult.timestamp := 7 |}.

Definition searched_state : ResearchState.t :=
  {| ResearchState.topic := "AI";
     ResearchState.generatedQueries := ["q"];
     ResearchState.searchResults := [Some one_result];
     ResearchState.filteredResults := [];
     ResearchState.summary := "";
     ResearchState.sources := [] |}.

Definition item (url title : string) (relevanceScore : Q) : StructuredSearchResult.t :=
  {| StructuredSearchResult.title := title;
     StructuredSearchResult.url := url;
     StructuredSearchResult.snippet := "";
     StructuredSearchResult.relevanceScore := Some relevanceScore |}.

Definition group (query : string) (items : list StructuredSearchResult.t) : SearchResult.t :=
  {| SearchResult.query := query;
     SearchResult.results := items;
     SearchResult.summary := "";
     SearchResult.timestamp := 0 |}.

(** Twenty sources with distinct urls, whose relevances run through 1..10
    twice. *)
Definition twenty : list SearchResult.t :=
  [group "q1" (map (fun n => item ("http://a/" +:+ pretty n) "A" (inject_Z (Z.of_nat n)))
                 (seq 1 10));
   group "q2" (map (fun n => item ("http://b/" +:+ pretty n) "B" (inject_Z (Z.of_nat n)))
                 (seq 1 10))].

(** A state as [summarizeNode] leaves it, with no source. *)
Definition summarized_state : ResearchState.t :=
  {| ResearchState.topic := "AI";
     ResearchState.generatedQueries := ["q"];
     ResearchState.searchResults := [Some one_result];
     ResearchState.filteredResults := [];
     ResearchState.summary := "A summary.";
     ResearchState.sources := [] |}.

Definition state_of (topic : string) : ResearchState.t :=
  {| ResearchState.topic := topic;
     ResearchState.generatedQueries := [];
     ResearchState.searchResults := [];
     ResearchState.filteredResults := [];
     ResearchState.summary := "";
     ResearchState.sources := [] |}.

(** A search engine that fails on the first request and answers afterwards. *)
Definition engine_flaky : Env :=
  env_of (fun n q => if (n =? 0)%nat
                     then Thrown (Exn AxiosError "timeout of 10000ms exceeded")
                     else two_hits q)
    (planner three_queries) (fun _ _ => Some 0.73%Q) inserted.

Definition planned_state (queries : list string) : ResearchState.t :=
  {| ResearchState.topic := "AI";
     ResearchState.generatedQueries := queries;
     ResearchState.searchResults := [];
     ResearchState.filteredResults := [];
     ResearchState.summary := "";
     ResearchState.sources := [] |}.


End Samples.

(** * Properties *)

(** ** The world record *)

Lemma trace_set_trace tr w : trace (set_trace tr w) = tr.
Proof. reflexivity. Qed.

Lemma set_trace_twice tr tr' w : set_trace tr' (set_trace tr w) = set_trace tr' w.
Proof. reflexivity. Qed.

Lemma set_trace_same w : set_trace (trace w) w = w.
Proof. destruct w; reflexivity. Qed.

Lemma emit_then_emit e1 e2 w :
  set_trace (trace (set_trace (trace w ++ [e1]) w) ++ [e2]) (set_trace (trace w ++ [e1]) w)
  = set_trace (trace w ++ [e1; e2]) w.
Proof. unfold set_trace; simpl. by rewrite <- app_assoc. Qed.

Lemma count_app p tr tr' : count p (tr ++ tr') = (count p tr + count p tr')%nat.
Proof. unfold count. by rewrite filter_app, length_app. Qed.

(** ** The retry policy of [getStructuredResults] *)

Section RetryPolicy.
Context `{Env}.

Import SearxNGSearchTool.

(** One attempt that brings nothing sleeps and asks for another pass, unless
    it was the last one. *)
Lemma attempt_body_nothing q maxResults attempt w :
  brings_nothing (axios_get (count is_HttpGet (trace w)) q) = true ->
  attempt_body q maxResults attempt w =
    if (attempt <? maxRetries)%Z
    then (Returned Continue, set_trace (trace w ++ [HttpGet q; Sleep retryDelay]) w)
    else (Returned (Return []), set_trace (trace w ++ [HttpGet q]) w).
Proof.
  intros Hnone.
  unfold attempt_body, try_catch, bind, axios_request.
  destruct (axios_get _ q) as [response|e]; simpl in Hnone |- *.
  - destruct (SearxNGResponse.results response) as [[|r rs]|]; try discriminate;
      destruct (attempt <? maxRetries)%Z; try reflexivity;
      unfold sleep, emit, modify, ret, bind; by rewrite emit_then_emit.
  - destruct (attempt <? maxRetries)%Z; try reflexivity;
      unfold sleep, emit, modify, ret, bind; by rewrite emit_then_emit.
Qed.

Lemma for_attempts_retry fuel q maxResults attempt w :
  (attempt <? maxRetries)%Z = true ->
  brings_nothing (axios_get (count is_HttpGet (trace w)) q) = true ->
  for_attempts (S fuel) q maxResults attempt w =
    for_attempts fuel q maxResults (attempt + 1)
      (set_trace (trace w ++ [HttpGet q; Sleep retryDelay]) w).
Proof.
  intros Hlt Hnone. cbn [for_attempts].
  replace (attempt <=? maxRetries)%Z with true by lia.
  unfold bind. rewrite attempt_body_nothing by done. by rewrite Hlt.
Qed.

Lemma for_attempts_last fuel q maxResults w :
  brings_nothing (axios_get (count is_HttpGet (trace w)) q) = true ->
  for_attempts (S fuel) q maxResults maxRetries w =
    (Returned [], set_trace (trace w ++ [HttpGet q]) w).
Proof.
  intros Hnone. cbn [for_attempts].
  replace (maxRetries <=? maxRetries)%Z with true by lia.
  unfold bind. rewrite attempt_body_nothing by done. reflexivity.
Qed.

(** C7.  When every request to the search engine for [q] throws or brings
    an empty or missing result set, [getStructuredResults] makes exactly
    three requests, sleeps 3000 ms between consecutive ones, and returns the
    empty list; it does not throw. *)
Theorem getStructuredResults_soft_failure (q : string) (maxResults : nat) (w : world) :
  (forall n, brings_nothing (axios_get n q) = true) ->
  getStructuredResults q maxResults w =
    (Returned [],
     set_trace (trace w ++ [HttpGet q; Sleep 3000; HttpGet q; Sleep 3000; HttpGet q]) w).
Proof.
  intros Hnone. unfold getStructuredResults.
  change (Z.to_nat maxRetries) with 3%nat.
  rewrite for_attempts_retry by done.
  rewrite for_attempts_retry by done.
  change (1 + 1 + 1)%Z with maxRetries.
  rewrite for_attempts_last by done.
  unfold set_trace; simpl. by rewrite <- !app_assoc.
Qed.

End RetryPolicy.

Lemma getStructuredResults_soft_failure_witness :
  @SearxNGSearchTool.getStructuredResults Samples.nothing_found "rocq" 5 initial_world =
    (Returned [],
     set_trace [HttpGet "rocq"; Sleep 3000; HttpGet "rocq"; Sleep 3000; HttpGet "rocq"]
       initial_world).
Proof.
  apply (@getStructuredResults_soft_failure Samples.nothing_found "rocq" 5 initial_world).
  intros n. reflexivity.
Defined.

(** ** Computations that only write to the log *)

Section LogsOnly.
Context `{Env} (P : event -> Prop).

Lemma logs_only_ret {A} (a : A) : logs_only P (ret a).
Proof. intros w. exists []. split; [|constructor]. simpl. by rewrite app_nil_r, set_trace_same. Qed.

Lemma logs_only_lift {A} (o : outcome A) : logs_only P (lift o).
Proof. intros w. exists []. split; [|constructor]. simpl. by rewrite app_nil_r, set_trace_same. Qed.

Lemma logs_only_get_world : logs_only P get_world.
Proof. intros w. exists []. split; [|constructor]. simpl. by rewrite app_nil_r, set_trace_same. Qed.

Lemma logs_only_new_Date : logs_only P new_Date.
Proof. intros w. exists []. split; [|constructor]. simpl. by rewrite app_nil_r, set_trace_same. Qed.

Lemma logs_only_emit e : P e -> logs_only P (emit e).
Proof. intros He w. exists [e]. split; [reflexivity|]. by constructor. Qed.

Lemma logs_only_axios_request q : P (HttpGet q) -> logs_only P (axios_request q).
Proof. intros He w. exists [HttpGet q]. split; [reflexivity|]. by constructor. Qed.

Lemma logs_only_llm_request prompt : P (LlmInvoke prompt) -> logs_only P (llm_request prompt).
Proof. intros He w. exists [LlmInvoke prompt]. split; [reflexivity|]. by constructor. Qed.

Lemma logs_only_bind {A B} (m : M A) (k : A -> M B) :
  logs_only P m -> (forall a, logs_only P (k a)) -> logs_only P (bind m k).
Proof.
  intros Hm Hk w. unfold bind.
  destruct (Hm w) as (tr & Hw & Htr).
  destruct (m w) as [[a|e] w1]; simpl in Hw; subst w1.
  - destruct (Hk a (set_trace (trace w ++ tr) w)) as (tr' & Hw' & Htr').
    exists (tr ++ tr'). split; [|by apply Forall_app].
    rewrite Hw'. simpl. by rewrite app_assoc.
  - by exists tr.
Qed.

Lemma logs_only_try_catch {A} (m : M A) (h : exn -> M A) :
  logs_only P m -> (forall e, logs_only P (h e)) -> logs_only P (try_catch m h).
Proof.
  intros Hm Hh w. unfold try_catch.
  destruct (Hm w) as (tr & Hw & Htr).
  destruct (m w) as [[a|e] w1]; simpl in Hw; subst w1.
  - by exists tr.
  - destruct (Hh e (set_trace (trace w ++ tr) w)) as (tr' & Hw' & Htr').
    exists (tr ++ tr'). split; [|by apply Forall_app].
    rewrite Hw'. simpl. by rewrite app_assoc.
Qed.

End LogsOnly.

Ltac logs_only_step :=
  first
    [ apply logs_only_ret | apply logs_only_lift | apply logs_only_get_world
    | apply logs_only_new_Date
    | apply logs_only_emit | apply logs_only_axios_request | apply logs_only_llm_request
    | apply logs_only_bind; [|intros ?] | apply logs_only_try_catch; [|intros ?] ].

(** ** Searching touches the log only *)

Section SearchFrame.
Context `{Env} (P : event -> Prop).
Hypothesis P_http : forall q, P (HttpGet q).
Hypothesis P_sleep : forall ms, P (Sleep ms).
Hypothesis P_llm : forall prompt, P (LlmInvoke prompt).

Lemma logs_only_searxng_call q : logs_only P (SearxNGSearchTool._call q).
Proof.
  unfold SearxNGSearchTool._call.
  apply logs_only_try_catch.
  - apply logs_only_bind; [by apply logs_only_axios_request|].
    intros response. destruct (SearxNGResponse.results response) as [[|r rs]|];
      apply logs_only_ret.
  - intros e. destruct (instanceof e AxiosError); apply logs_only_ret.
Qed.

Lemma logs_only_attempt_body q maxResults attempt :
  logs_only P (SearxNGSearchTool.attempt_body q maxResults attempt).
Proof.
  unfold SearxNGSearchTool.attempt_body, sleep.
  apply logs_only_try_catch.
  - apply logs_only_bind; [by apply logs_only_axios_request|].
    intros response.
    destruct (SearxNGResponse.results response) as [[|r rs]|];
      try destruct (attempt <? _)%Z; repeat logs_only_step; auto.
  - intros e. destruct (attempt <? _)%Z; repeat logs_only_step; auto.
Qed.

Lemma logs_only_for_attempts fuel q maxResults attempt :
  logs_only P (SearxNGSearchTool.for_attempts fuel q maxResults attempt).
Proof.
  revert attempt. induction fuel as [|fuel IH]; intros attempt; cbn [SearxNGSearchTool.for_attempts];
    destruct (attempt <=? _)%Z; try apply logs_only_ret.
  apply logs_only_bind; [apply logs_only_attempt_body|].
  intros [|v]; [apply IH | apply logs_only_ret].
Qed.

Lemma logs_only_agent_searchNode q : logs_only P (SearchAgent.searchNode q).
Proof.
  unfold SearchAgent.searchNode.
  apply logs_only_bind; [apply logs_only_searxng_call|].
  intros results. by apply logs_only_llm_request.
Qed.

Lemma logs_only_search q : P (AgentSearch q) -> logs_only P (SearchAgent.search q).
Proof.
  intros Hq. unfold SearchAgent.search.
  apply logs_only_bind; [by apply logs_only_emit|]. intros _.
  apply logs_only_bind; [apply logs_only_for_attempts|]. intros raw.
  apply logs_only_bind; [apply logs_only_agent_searchNode|]. intros summary.
  apply logs_only_bind; [apply logs_only_new_Date|]. intros now.
  apply logs_only_ret.
Qed.

End SearchFrame.

(** ** The cache of [SearchAgentTool] *)

Section SearchCache.
Context `{Env}.

Lemma search_keeps_cache q w :
  searchCache (snd (SearchAgent.search q w)) = searchCache w.
Proof.
  destruct (logs_only_search (fun _ => True) (fun _ => I) (fun _ => I) (fun _ => I) q I w)
    as (tr & -> & _).
  reflexivity.
Qed.

(** A search hands its query to one [SearchAgent], once. *)
Lemma search_outbound_calls q q' w :
  outbound_calls q (snd (SearchAgent.search q' w)) =
    (outbound_calls q w + if String.eqb q q' then 1 else 0)%nat.
Proof.
  unfold SearchAgent.search.
  match goal with |- context [bind (emit _) ?k] => set (rest := k) end.
  assert (Hrest : logs_only (fun e => is_AgentSearch q e = false) (rest tt)).
  { subst rest. cbv beta.
    apply logs_only_bind; [by apply logs_only_for_attempts|]. intros raw.
    apply logs_only_bind; [by apply logs_only_agent_searchNode|]. intros summary.
    apply logs_only_bind; [apply logs_only_new_Date|]. intros now.
    apply logs_only_ret. }
  unfold bind at 1. unfold emit, modify. cbv beta iota.
  destruct (Hrest (set_trace (trace w ++ [AgentSearch q']) w)) as (tr & -> & Htr).
  unfold outbound_calls. simpl. rewrite !count_app.
  assert (Hzero : count (is_AgentSearch q) tr = 0%nat).
  { unfold count. induction Htr as [|e tr He _ IH]; [done|].
    rewrite filter_cons. destruct (decide (is_AgentSearch q e = true)); [congruence|done]. }
  rewrite Hzero. unfold count at 2. simpl.
  rewrite filter_cons, filter_nil. simpl.
  case_decide as Heq; rewrite ?Heq; [simpl; lia|].
  apply not_true_is_false in Heq. rewrite Heq. simpl. lia.
Qed.

Lemma _call_hit q cached w :
  searchCache w !! q = Some cached ->
  SearchAgentTool._call q w = (Returned (SearchAgentTool.formatResults cached), w).
Proof.
  intros Hq. unfold SearchAgentTool._call, try_catch, bind, get_world.
  by rewrite Hq.
Qed.

Lemma _call_miss_thrown q e w w' :
  searchCache w !! q = None ->
  SearchAgent.search q w = (Thrown e, w') ->
  SearchAgentTool._call q w = (Returned ("Error performing search: " +:+ message e), w').
Proof.
  intros Hq Hs. unfold SearchAgentTool._call, try_catch, bind, get_world.
  by rewrite Hq, Hs.
Qed.

Lemma _call_miss_returned q result w w' :
  searchCache w !! q = None ->
  SearchAgent.search q w = (Returned result, w') ->
  snd (SearchAgentTool._call q w) = set_searchCache (<[q := result]> (searchCache w')) w'.
Proof.
  intros Hq Hs. unfold SearchAgentTool._call, try_catch, bind, get_world, modify.
  rewrite Hq, Hs. by destruct (_ =? _)%nat.
Qed.

(** A request leaves alone what the cache holds, and does not search for a
    query that the cache holds. *)
Lemma _call_keeps_cached q cached q' w :
  searchCache w !! q = Some cached ->
  searchCache (snd (SearchAgentTool._call q' w)) !! q = Some cached /\
  outbound_calls q (snd (SearchAgentTool._call q' w)) = outbound_calls q w.
Proof.
  intros Hq.
  destruct (searchCache w !! q') as [c'|] eqn:Hq'.
  - by rewrite (_call_hit _ _ _ Hq').
  - assert (Hne : q <> q') by congruence.
    pose proof (search_keeps_cache q' w) as Hcache.
    pose proof (search_outbound_calls q q' w) as Hcount.
    destruct (SearchAgent.search q' w) as [[result|e] w'] eqn:Hs; simpl in Hcache, Hcount.
    + rewrite (_call_miss_returned _ _ _ _ Hq' Hs). simpl.
      rewrite Hcache, lookup_insert_ne by done. split; [done|].
      unfold outbound_calls in *. simpl. rewrite Hcount.
      apply String.eqb_neq in Hne. rewrite Hne. lia.
    + rewrite (_call_miss_thrown _ _ _ _ Hq' Hs). simpl.
      rewrite Hcache. split; [done|]. rewrite Hcount.
      apply String.eqb_neq in Hne. rewrite Hne. lia.
Qed.

(** C6, amended.  Once the cache holds a query, a request for it returns
    the cached result and leaves the world as it was, and whatever is
    requested afterwards, the query is never handed to a [SearchAgent]
    again. *)
Theorem cached_query_is_not_searched_again (q : string) (cached : SearchResult.t) (w : world) :
  searchCache w !! q = Some cached ->
  SearchAgentTool._call q w = (Returned (SearchAgentTool.formatResults cached), w) /\
  forall qs,
    searchCache (snd (requests qs w)) !! q = Some cached /\
    outbound_calls q (snd (requests qs w)) = outbound_calls q w.
Proof.
  intros Hq. split; [by apply _call_hit|].
  intros qs. revert w Hq. induction qs as [|q' qs IH]; intros w Hq; [done|].
  cbn [requests]. unfold bind.
  destruct (_call_keeps_cached q cached q' w Hq) as [Hc Hn].
  destruct (SearchAgentTool._call q' w) as [[s|e] w1] eqn:Hcall; simpl in Hc, Hn.
  - destruct (IH w1 Hc) as [Hc' Hn']. split; [done|]. by rewrite Hn'.
  - done.
Qed.

(** The first request for a query whose search returns makes one outbound
    call and caches the result. *)
Lemma first_successful_search_is_cached q result w w' :
  searchCache w !! q = None ->
  SearchAgent.search q w = (Returned result, w') ->
  searchCache (snd (SearchAgentTool._call q w)) !! q = Some result /\
  outbound_calls q (snd (SearchAgentTool._call q w)) = S (outbound_calls q w).
Proof.
  intros Hq Hs. rewrite (_call_miss_returned _ _ _ _ Hq Hs). simpl.
  rewrite lookup_insert_eq. split; [done|].
  pose proof (search_outbound_calls q q w) as Hcount. rewrite Hs in Hcount.
  unfold outbound_calls in *. simpl in *. rewrite Hcount, String.eqb_refl. lia.
Qed.

(** A request whose search throws caches nothing. *)
Lemma failed_search_is_not_cached q e w w' :
  searchCache w !! q = None ->
  SearchAgent.search q w = (Thrown e, w') ->
  searchCache (snd (SearchAgentTool._call q w)) !! q = None.
Proof.
  intros Hq Hs. rewrite (_call_miss_thrown _ _ _ _ Hq Hs). simpl.
  pose proof (search_keeps_cache q w) as Hcache. rewrite Hs in Hcache.
  simpl in Hcache. by rewrite Hcache.
Qed.

End SearchCache.

Lemma cached_query_is_not_searched_again_witness :
  outbound_calls "rocq"
    (snd (@requests Samples.healthy ["coq"; "rocq"; "rocq"] Samples.after_rocq)) =
  outbound_calls "rocq" Samples.after_rocq.
Proof.
  destruct (searchCache Samples.after_rocq !! "rocq") as [cached|] eqn:Hq;
    [|vm_compute in Hq; discriminate].
  destruct (@cached_query_is_not_searched_again Samples.healthy "rocq" cached
              Samples.after_rocq Hq) as [_ Hlater].
  exact (proj2 (Hlater ["coq"; "rocq"; "rocq"])).
Defined.

(** C6 as stated fails: when the model behind the search fails once, the
    same query requested twice is handed to a [SearchAgent] twice. *)
Lemma repeated_query_searched_twice :
  outbound_calls "rocq"
    (snd (@requests Samples.llm_flaky ["rocq"; "rocq"] initial_world)) = 2%nat.
Proof. vm_compute. reflexivity. Qed.

(** The key of the cache is the query as it is written. *)
Example cache_is_case_sensitive :
  outbound_calls "rocq"
    (snd (@requests Samples.healthy ["rocq"; "Rocq"; "rocq"; "Rocq"] initial_world)) = 1%nat /\
  outbound_calls "Rocq"
    (snd (@requests Samples.healthy ["rocq"; "Rocq"; "rocq"; "Rocq"] initial_world)) = 1%nat.
Proof. split; vm_compute; reflexivity. Qed.

(** ** A search that throws *)

Section FailedSearch.
Context `{Env}.

(** C10.  When the cache has no entry for [q] and the search for [q]
    throws, [getStructuredResult] does not throw: it resolves to
    [undefined].  The loop of [searchNode] then appends that [undefined]
    to [searchResults] and goes on. *)
Theorem failed_search_resolves_to_undefined (q : string) (e : exn) (w w' : world) :
  searchCache w !! q = None ->
  SearchAgent.search q w = (Thrown e, w') ->
  SearchAgentTool.getStructuredResult q w = (Returned None, w') /\
  forall last_query rest searchResults,
    ResearchAgent.search_loop last_query (q :: rest) searchResults w =
      ((if bool_decide (Some q = last_query) then ret tt else sleep 2000) ;;
       ResearchAgent.search_loop last_query rest (searchResults ++ [None])) w'.
Proof.
  intros Hq Hs.
  assert (Hget : SearchAgentTool.getStructuredResult q w = (Returned None, w')).
  { unfold SearchAgentTool.getStructuredResult, bind.
    rewrite (_call_miss_thrown _ _ _ _ Hq Hs). unfold get_world, ret.
    pose proof (search_keeps_cache q w) as Hcache. rewrite Hs in Hcache.
    simpl in Hcache. by rewrite Hcache, Hq. }
  split; [done|]. intros last_query rest searchResults.
  cbn [ResearchAgent.search_loop]. unfold bind at 1. by rewrite Hget.
Qed.

End FailedSearch.

Lemma failed_search_resolves_to_undefined_witness :
  fst (@ResearchAgent.search_loop Samples.llm_down (Some "rocq") ["rocq"] [] initial_world)
  = Returned [None].
Proof.
  destruct (@SearchAgent.search Samples.llm_down "rocq" initial_world) as [[r|e] w'] eqn:Hs;
    [vm_compute in Hs; discriminate|].
  destruct (@failed_search_resolves_to_undefined Samples.llm_down "rocq" e
              initial_world w' eq_refl Hs) as [_ Hloop].
  rewrite Hloop. reflexivity.
Defined.

(** What the [undefined] leads to: the filter stage reads [result.results]
    of it and throws, which ends the run. *)
Example undefined_result_breaks_filter :
  fst (@ResearchAgent.filterNode Samples.healthy
         {| ResearchState.topic := "AI";
            ResearchState.generatedQueries := ["q"];
            ResearchState.searchResults := [None];
            ResearchState.filteredResults := [];
            ResearchState.summary := "";
            ResearchState.sources := [] |}
         initial_world) = Thrown ResearchAgent.undefined_results.
Proof. reflexivity. Qed.

Example failed_searches_end_the_run :
  fst (@ResearchAgent.research Samples.summaries_down "AI" initial_world) =
    Thrown ResearchAgent.undefined_results.
Proof. vm_compute. reflexivity. Qed.

(** ** The relevance score stored by the filter stage *)

Lemma relevanceScore_of_absent : ResearchAgent.relevanceScore_of None = 5%Q.
Proof. reflexivity. Qed.

Lemma relevanceScore_of_nonzero (s : Q) :
  ~ (s == 0)%Q -> ResearchAgent.relevanceScore_of (Some s) = Qmin 10 (s * 10).
Proof.
  intros Hs. unfold ResearchAgent.relevanceScore_of, truthy_number.
  destruct (Qeq_bool s 0) eqn:Heq; [|done].
  by apply Qeq_bool_eq in Heq.
Qed.

Example relevanceScore_of_073 : (ResearchAgent.relevanceScore_of (Some 0.73) == 7.3)%Q.
Proof. reflexivity. Qed.

Example relevanceScore_of_14 : (ResearchAgent.relevanceScore_of (Some 1.4) == 10)%Q.
Proof. reflexivity. Qed.

(** Nothing clamps a negative score from below. *)
Example relevanceScore_of_negative : (ResearchAgent.relevanceScore_of (Some (-0.5)) == -5)%Q.
Proof. reflexivity. Qed.

(** C1 fails at a score of zero.  The test [result.score ? ... : 5] takes
    a score of 0 for a missing one: the filter stage, run on a match whose
    similarity is 0, stores the default 5 and not [min(10, 0 * 10) = 0]. *)
Theorem score_zero_is_stored_as_5 :
  ResearchAgent.relevanceScore_of (Some 0%Q) = 5%Q /\
  fst (@ResearchAgent.filterNode Samples.score_zero Samples.searched_state initial_world) =
    Returned
      [{| SearchResult.query := "q";
          SearchResult.results :=
            [{| StructuredSearchResult.title := "T";
                StructuredSearchResult.url := "http://a";
                StructuredSearchResult.snippet := "S";
                StructuredSearchResult.relevanceScore := Some 5%Q |}];
          SearchResult.summary := "sum";
          SearchResult.timestamp := 7 |}].
Proof. split; [reflexivity|]. vm_compute. reflexivity. Qed.

(** ** Planning the queries *)

Lemma all_strings_length items qs :
  ResearchAgent.all_strings items = Some qs -> length qs = length items.
Proof.
  revert qs. induction items as [|v items IH]; intros qs Hall; simpl in Hall.
  - by inversion Hall.
  - destruct v; try discriminate.
    destruct (ResearchAgent.all_strings items) as [l|]; [|discriminate].
    inversion Hall; subst. simpl. by rewrite (IH l).
Qed.

Lemma SearchQueriesSchema_arity v parsed :
  ResearchAgent.SearchQueriesSchema v = Returned parsed ->
  (3 <= length (ResearchAgent.queries parsed) <= 5)%nat.
Proof.
  unfold ResearchAgent.SearchQueriesSchema. intros Hv.
  destruct v as [| | | | |members]; try discriminate.
  destruct (get_member members "queries") as [[| | | |items|]|]; try discriminate.
  destruct (ResearchAgent.all_strings items) as [qs|]; [|discriminate].
  destruct (length qs <? 3)%nat eqn:Hlo; [discriminate|].
  destruct (5 <? length qs)%nat eqn:Hhi; [discriminate|].
  inversion Hv; subst. simpl.
  apply Nat.ltb_ge in Hlo, Hhi. lia.
Qed.

(** The schema looks at the arity and at the type of the entries, not at
    what the strings hold. *)
Lemma SearchQueriesSchema_accepts_any_strings (qs : list string) :
  (3 <= length qs <= 5)%nat ->
  ResearchAgent.SearchQueriesSchema (JObject [("queries", JArray (map JString qs))]) =
    Returned {| ResearchAgent.queries := qs |}.
Proof.
  intros Hlen. unfold ResearchAgent.SearchQueriesSchema. simpl.
  assert (Hall : ResearchAgent.all_strings (map JString qs) = Some qs).
  { clear Hlen. induction qs as [|q qs IH]; [done|]. simpl. by rewrite IH. }
  rewrite Hall.
  destruct (length qs <? 3)%nat eqn:Hlo; [apply Nat.ltb_lt in Hlo; lia|].
  destruct (5 <? length qs)%nat eqn:Hhi; [apply Nat.ltb_lt in Hhi; lia|].
  reflexivity.
Qed.

Lemma extractJson_validated {T} (text : string) (schema : LlmHelpers.Schema T) (v : T) :
  LlmHelpers.extractJsonFromLLMResponse text schema = Returned v ->
  exists parsed, schema parsed = Returned v.
Proof.
  unfold LlmHelpers.extractJsonFromLLMResponse, LlmHelpers.parse_and_validate, and_then, catch.
  destruct (LlmHelpers.locate_json text) as [jsonText|e]; [|discriminate].
  destruct (JSON.parse jsonText) as [parsed|e].
  - destruct (schema parsed) as [v'|e] eqn:Hs.
    + intros [= ->]. eauto.
    + by destruct (instanceof e ZodError).
  - by destruct (instanceof e ZodError).
Qed.

(** What the schema answers on an array of strings depends on the length of
    the array alone. *)
Lemma SearchQueriesSchema_strings (qs : list string) :
  ResearchAgent.SearchQueriesSchema (JObject [("queries", JArray (map JString qs))]) =
    if (length qs <? 3)%nat then
      Thrown (Exn ZodError "Too small: expected array to have >=3 items")
    else if (5 <? length qs)%nat then
      Thrown (Exn ZodError "Too big: expected array to have <=5 items")
    else Returned {| ResearchAgent.queries := qs |}.
Proof.
  unfold ResearchAgent.SearchQueriesSchema. simpl.
  assert (Hall : ResearchAgent.all_strings (map JString qs) = Some qs).
  { induction qs as [|q qs IH]; [done|]. simpl. by rewrite IH. }
  by rewrite Hall.
Qed.

(** C2, amended.  The query-planning stage throws, or it returns between
    three and five strings.  The strings themselves are not looked at: an
    array of three to five strings passes the schema whatever the strings
    are, empty and blank ones included. *)
Theorem generateQueriesNode_arity `{Env} (state : ResearchState.t) (w : world) :
  match fst (ResearchAgent.generateQueriesNode state w) with
  | Returned generatedQueries => (3 <= length generatedQueries <= 5)%nat
  | Thrown _ => True
  end /\
  forall qs : list string,
    ResearchAgent.SearchQueriesSchema (JObject [("queries", JArray (map JString qs))]) =
      if (length qs <? 3)%nat then
        Thrown (Exn ZodError "Too small: expected array to have >=3 items")
      else if (5 <? length qs)%nat then
        Thrown (Exn ZodError "Too big: expected array to have <=5 items")
      else Returned {| ResearchAgent.queries := qs |}.
Proof.
  split; [|apply SearchQueriesSchema_strings].
  unfold ResearchAgent.generateQueriesNode, bind, llm_request, lift.
  destruct (llm_invoke _ _) as [response|e]; [|done]. simpl.
  unfold catch, and_then.
  destruct (LlmHelpers.extractJsonFromLLMResponse _ _) as [parsed|e] eqn:Hx; [|done].
  destruct (extractJson_validated _ _ _ Hx) as (v & Hv).
  by apply SearchQueriesSchema_arity in Hv.
Qed.

(** C2 as stated fails: a reply of the right arity that holds an empty and
    a blank string passes the schema, and the stage returns it. *)
Lemma blank_queries_are_accepted :
  ResearchAgent.SearchQueriesSchema
    (JObject [("queries", JArray [JString ""; JString " "; JString "x"])]) =
    Returned {| ResearchAgent.queries := [""; " "; "x"] |} /\
  fst (@ResearchAgent.generateQueriesNode Samples.blank_queries (Samples.state_of "AI")
         initial_world) = Returned [""; " "; "x"] /\
  trim "" = "" /\ trim " " = "".
Proof. repeat split; vm_compute; reflexivity. Qed.

(** ** Extracting the JSON object from a reply *)

Lemma locate_json_leading_brace (text : string) :
  startsWith (trim text) "{" = true ->
  LlmHelpers.locate_json text = Returned (trim text).
Proof. intros Hb. unfold LlmHelpers.locate_json. by rewrite Hb. Qed.

(** The error that says that no object was found is reserved to replies
    that do not begin with a brace. *)
Lemma no_json_object_found_iff (text : string) :
  LlmHelpers.locate_json text = Thrown (Exn PlainError LlmHelpers.no_json_object_found) <->
  startsWith (trim text) "{" = false /\
  (indexOf (trim text) "{" = -1 \/ lastIndexOf (trim text) "}" = -1 \/
   lastIndexOf (trim text) "}" <= indexOf (trim text) "{")%Z.
Proof.
  unfold LlmHelpers.locate_json.
  destruct (startsWith (trim text) "{"); simpl.
  - split; [discriminate|]. intros [? _]. discriminate.
  - destruct (indexOf (trim text) "{" =? -1)%Z eqn:H1; simpl.
    { apply Z.eqb_eq in H1. split; auto. }
    destruct (lastIndexOf (trim text) "}" =? -1)%Z eqn:H2; simpl.
    { apply Z.eqb_eq in H2. split; auto. }
    destruct (lastIndexOf (trim text) "}" <=? indexOf (trim text) "{")%Z eqn:H3.
    { apply Z.leb_le in H3. split; auto. }
    apply Z.eqb_neq in H1, H2. apply Z.leb_gt in H3.
    split; [discriminate|]. intros [_ [?|[?|?]]]; lia.
Qed.

(** *** Where the extraction branch cuts *)

Lemma append_assoc (a b c : string) : (a +:+ b) +:+ c = a +:+ (b +:+ c).
Proof.
  induction a as [|x a IH]; [done|].
  change (String x ((a +:+ b) +:+ c) = String x (a +:+ (b +:+ c))). by rewrite IH.
Qed.

Lemma length_append (a b : string) :
  String.length (a +:+ b) = (String.length a + String.length b)%nat.
Proof.
  induction a as [|x a IH]; [done|].
  change (S (String.length (a +:+ b)) = S (String.length a + String.length b)).
  by rewrite IH.
Qed.

Lemma indexOf_from_absent (i : Z) (s : string) (c : ascii) :
  occurs c s = false -> indexOf_from i s c = (-1)%Z.
Proof.
  revert i. induction s as [|d s IH]; intros i Hc; simpl in *; [done|].
  apply orb_false_iff in Hc as [-> Hc]. by apply IH.
Qed.

Lemma indexOf_from_first (i : Z) (pre rest : string) (c : ascii) :
  occurs c pre = false ->
  indexOf_from i (pre +:+ String c rest) c = (i + Z.of_nat (String.length pre))%Z.
Proof.
  revert i. induction pre as [|d pre IH]; intros i Hc; simpl in *.
  - rewrite Ascii.eqb_refl. lia.
  - apply orb_false_iff in Hc as [-> Hc]. rewrite IH by done. lia.
Qed.

Lemma lastIndexOf_from_absent (i : Z) (s : string) (c : ascii) (found : Z) :
  occurs c s = false -> lastIndexOf_from i s c found = found.
Proof.
  revert i found. induction s as [|d s IH]; intros i found Hc; simpl in *; [done|].
  apply orb_false_iff in Hc as [-> Hc]. by apply IH.
Qed.

Lemma lastIndexOf_from_last (i : Z) (front post : string) (c : ascii) (found : Z) :
  occurs c post = false ->
  lastIndexOf_from i (front +:+ String c post) c found =
    (i + Z.of_nat (String.length front))%Z.
Proof.
  revert i found. induction front as [|d front IH]; intros i found Hc; simpl.
  - rewrite Ascii.eqb_refl, lastIndexOf_from_absent by done. lia.
  - rewrite IH by done. lia.
Qed.

Lemma substring_prefix (mid post : string) :
  String.substring 0 (String.length mid) (mid +:+ post) = mid.
Proof.
  induction mid as [|x mid IH].
  - by destruct post.
  - change (String x (String.substring 0 (String.length mid) (mid +:+ post)) = String x mid).
    by rewrite IH.
Qed.

Lemma substring_middle (pre mid post : string) :
  String.substring (String.length pre) (String.length mid) (pre +:+ mid +:+ post) = mid.
Proof.
  induction pre as [|x pre IH]; [exact (substring_prefix mid post)|exact IH].
Qed.

(** A reply that, once trimmed, is some text without an opening brace, then
    an object, then some text without a closing brace: the text handed to
    [JSON.parse] is the object, from its first brace to its last. *)
Lemma locate_json_between (text pre body post : string) :
  trim text = pre +:+ "{" +:+ body +:+ "}" +:+ post ->
  pre <> "" ->
  occurs "{" pre = false ->
  occurs "}" post = false ->
  LlmHelpers.locate_json text = Returned ("{" +:+ body +:+ "}").
Proof.
  intros Htrim Hpre Hopen Hclose. unfold LlmHelpers.locate_json. rewrite Htrim.
  assert (Hstart : startsWith (pre +:+ "{" +:+ body +:+ "}" +:+ post) "{" = false).
  { destruct pre as [|d pre]; [done|]. simpl in Hopen.
    apply orb_false_iff in Hopen as [Hd _]. unfold startsWith.
    change (String d pre +:+ "{" +:+ body +:+ "}" +:+ post)
      with (String d (pre +:+ "{" +:+ body +:+ "}" +:+ post)).
    cbn [String.prefix].
    destruct (ascii_dec "{" d) as [<-|Hne]; [by rewrite Ascii.eqb_refl in Hd|done]. }
  rewrite Hstart. cbn [negb].
  unfold indexOf, lastIndexOf.
  change (pre +:+ "{" +:+ body +:+ "}" +:+ post)
    with (pre +:+ String "{" (body +:+ String "}" post)).
  rewrite indexOf_from_first by done.
  replace (pre +:+ String "{" (body +:+ String "}" post))
    with ((pre +:+ String "{" body) +:+ String "}" post)
    by (by rewrite append_assoc).
  rewrite lastIndexOf_from_last by done.
  rewrite length_append. cbn [String.length].
  set (n := String.length pre). set (k := String.length body).
  rewrite (proj2 (Z.eqb_neq (0 + Z.of_nat n) (-1))) by lia.
  rewrite (proj2 (Z.eqb_neq (0 + Z.of_nat (n + S k)) (-1))) by lia.
  rewrite (proj2 (Z.leb_gt (0 + Z.of_nat (n + S k)) (0 + Z.of_nat n))) by lia.
  cbn [orb]. f_equal. unfold slice.
  replace (Z.to_nat (0 + Z.of_nat n)) with n by lia.
  replace (Z.to_nat (0 + Z.of_nat (n + S k) + 1 - (0 + Z.of_nat n)))
    with (String.length ("{" +:+ body +:+ "}"))
    by (rewrite !length_append; simpl; lia).
  replace ((pre +:+ String "{" body) +:+ String "}" post)
    with (pre +:+ ("{" +:+ body +:+ "}") +:+ post).
  - apply substring_middle.
  - rewrite !append_assoc. reflexivity.
Qed.

Lemma extractJson_between {T} (text pre body post : string) (schema : LlmHelpers.Schema T) :
  trim text = pre +:+ "{" +:+ body +:+ "}" +:+ post ->
  pre <> "" ->
  occurs "{" pre = false ->
  occurs "}" post = false ->
  LlmHelpers.extractJsonFromLLMResponse text schema =
    LlmHelpers.parse_and_validate ("{" +:+ body +:+ "}") schema.
Proof.
  intros Htrim Hpre Hopen Hclose. unfold LlmHelpers.extractJsonFromLLMResponse.
  by rewrite (locate_json_between text pre body post).
Qed.

(** A reply that begins with a brace is parsed as it is, with whatever
    follows the object. *)
Lemma extractJson_leading_brace {T} (text : string) (schema : LlmHelpers.Schema T) :
  startsWith (trim text) "{" = true ->
  LlmHelpers.extractJsonFromLLMResponse text schema =
    LlmHelpers.parse_and_validate (trim text) schema.
Proof.
  intros Hb. unfold LlmHelpers.extractJsonFromLLMResponse.
  by rewrite locate_json_leading_brace.
Qed.

(** C9 fails on a reply that begins with its JSON object and goes on with
    other text: the whole reply is handed to [JSON.parse].  The same object
    with text on both sides is extracted. *)
Theorem trailing_text_breaks_extraction :
  LlmHelpers.extractJsonFromLLMResponse
    (Samples.three_queries +:+ " Hope this helps!")
    ResearchAgent.SearchQueriesSchema =
    Thrown (Exn PlainError
      "Failed to parse JSON from LLM response: Unexpected non-whitespace character after JSON") /\
  LlmHelpers.extractJsonFromLLMResponse
    ("Sure! " +:+ Samples.three_queries +:+ " Hope this helps!")
    ResearchAgent.SearchQueriesSchema =
    Returned {| ResearchAgent.queries := ["a"; "b"; "c"] |}.
Proof. split; vm_compute; reflexivity. Qed.

(** A reply that opens a brace and never closes it holds no object, and is
    reported as a parse failure. *)
Example unclosed_brace_is_a_parse_error :
  LlmHelpers.extractJsonFromLLMResponse "{ oops" ResearchAgent.SearchQueriesSchema =
    Thrown (Exn PlainError
      "Failed to parse JSON from LLM response: Unexpected token or end of JSON input").
Proof. vm_compute. reflexivity. Qed.

Example no_brace_at_all :
  LlmHelpers.extractJsonFromLLMResponse "I cannot answer that." ResearchAgent.SearchQueriesSchema =
    Thrown (Exn PlainError LlmHelpers.no_json_object_found).
Proof. vm_compute. reflexivity. Qed.

(** ** Clearing a namespace *)

Section Namespace.
Context `{Env}.

Lemma clearNamespace_noop (w : world) :
  VectorSearch.clearNamespace w = (Returned tt, w).
Proof. reflexivity. Qed.

(** C8 fails on every entry: what [addContent] stored under a namespace is
    still returned by [getById] after [clearNamespace], and the world is
    the same as before the call. *)
Theorem clearNamespace_leaves_entries (namespace : list string) (id : string)
    (content : SearchableContent.t) (w w1 : world) :
  VectorSearch.addContent namespace id content w = (Returned tt, w1) ->
  (VectorSearch.clearNamespace ;; VectorSearch.getById namespace id) w1 =
    (Returned
       (Some (default ∅ (SearchableContent.metadata content)
                ∪ {[ "text" := SearchableContent.text content ]})),
     w1).
Proof.
  unfold VectorSearch.addContent, VectorSearch.store_put, VectorSearch.embed.
  unfold bind, emit, modify, lift, VectorSearch.clearNamespace, VectorSearch.getById,
    get_world, ret.
  destruct (ollama_embeddings _) as [[]|e]; [|discriminate].
  intros [= <-]. unfold bind. simpl. by rewrite lookup_insert_eq.
Qed.

End Namespace.

Lemma clearNamespace_leaves_entries_witness :
  fst ((@VectorSearch.addContent Samples.healthy ["research"; "ai"] "q-0-http://a"
          {| SearchableContent.text := "T"; SearchableContent.metadata := None |} ;;
        VectorSearch.clearNamespace ;;
        VectorSearch.getById ["research"; "ai"] "q-0-http://a") initial_world) =
  Returned (Some {[ "text" := "T" ]}).
Proof.
  unfold bind at 1.
  destruct (@VectorSearch.addContent Samples.healthy ["research"; "ai"] "q-0-http://a"
              {| SearchableContent.text := "T"; SearchableContent.metadata := None |}
              initial_world) as [[[]|e] w1] eqn:Hadd; [|vm_compute in Hadd; discriminate].
  rewrite (@clearNamespace_leaves_entries Samples.healthy _ _ _ _ _ Hadd).
  simpl. by rewrite (left_id_L ∅ (∪)).
Defined.

(** The search, too, still finds what was indexed before the namespace was
    cleared. *)
Example cleared_namespace_is_still_searched :
  fst ((@VectorSearch.addContent Samples.healthy ["research"; "ai"] "q-0-http://a"
          {| SearchableContent.text := "T"; SearchableContent.metadata := None |} ;;
        VectorSearch.clearNamespace ;;
        @VectorSearch.search Samples.healthy ["research"; "ai"] "AI" None 20) initial_world) =
  Returned [{| ScoredMatch.key := "q-0-http://a";
               ScoredMatch.value := {[ "text" := "T" ]};
               ScoredMatch.score := Some 0.73%Q |}].
Proof. vm_compute. reflexivity. Qed.

(** ** Saving the report *)

Section Persistence.
Context `{Env}.



(** The three ways a write fails, and the string each one ends as. *)
Lemma mongo_call_invalid_json (input : string) (e : exn) (w : world) :
  JSON.parse input = Thrown e ->
  exn_class e = SyntaxError ->
  MongoDBStorageTool._call input w =
    (Returned ("Error: Invalid JSON input. " +:+ message e), w).
Proof.
  intros Hp Hc. unfold MongoDBStorageTool._call, try_catch, bind, lift.
  rewrite Hp. unfold instanceof. by rewrite Hc.
Qed.

Lemma mongo_call_missing_fields (input : string) (data : json) (query summary : option json)
    (w : world) :
  JSON.parse input = Returned data ->
  MongoDBStorageTool.get_property data "query" = Returned query ->
  MongoDBStorageTool.get_property data "summary" = Returned summary ->
  MongoDBStorageTool.truthy query && MongoDBStorageTool.truthy summary = false ->
  MongoDBStorageTool._call input w =
    (Returned MongoDBStorageTool.missing_fields, w).
Proof.
  intros Hp Hq Hs Hmissing. unfold MongoDBStorageTool._call, try_catch, bind, lift.
  rewrite Hp, Hq, Hs.
  replace (negb (MongoDBStorageTool.truthy query) || negb (MongoDBStorageTool.truthy summary))
    with true; [done|].
  by destruct (MongoDBStorageTool.truthy query), (MongoDBStorageTool.truthy summary).
Qed.

End Persistence.


(** ** The insertion-ordered map *)

Section JSMapFacts.
Context {V : Type}.
Implicit Types (m : JSMap.t V) (k u : string) (v : V).

Lemma JSMap_get_set m k v u :
  JSMap.get (JSMap.set m k v) u = if String.eqb k u then Some v else JSMap.get m u.
Proof.
  induction m as [|[k' v'] m IH]; simpl.
  - done.
  - destruct (String.eqb k' k) eqn:Hk; simpl.
    + apply String.eqb_eq in Hk. subst k'. by destruct (String.eqb k u).
    + rewrite IH. destruct (String.eqb k' u) eqn:Hu; [|done].
      apply String.eqb_eq in Hu. subst k'.
      rewrite String.eqb_sym in Hk. by rewrite Hk.
Qed.

Lemma JSMap_has_false_not_key m k :
  JSMap.has m k = false -> k ∉ map fst m.
Proof.
  unfold JSMap.has. induction m as [|[k' v'] m IH]; simpl; intros Hhas.
  - apply not_elem_of_nil.
  - destruct (String.eqb k' k) eqn:Hk; [discriminate|].
    apply String.eqb_neq in Hk. rewrite not_elem_of_cons. split; [congruence|auto].
Qed.

(** A new key goes to the end. *)
Lemma JSMap_set_new m k v :
  JSMap.has m k = false -> JSMap.set m k v = m ++ [(k, v)].
Proof.
  unfold JSMap.has. induction m as [|[k' v'] m IH]; simpl; intros Hhas; [done|].
  destruct (String.eqb k' k); [discriminate|]. by rewrite IH.
Qed.


End JSMapFacts.

(** ** Sorting by decreasing key *)

Section SortDescending.
Context {A : Type} (key : A -> Q).

Let cmp (a b : A) : Q := key b - key a.
Let above (a b : A) : Prop := (key b <= key a)%Q.
Let keyed (r : Q) (a : A) : bool := Qeq_bool (key a) r.

Lemma sorted_insert_perm x l : sorted_insert cmp x l ≡ₚ x :: l.
Proof.
  induction l as [|y l IH]; simpl; [done|].
  destruct (Qle_bool (cmp x y) 0); [done|].
  rewrite IH. apply Permutation_swap.
Qed.

Lemma toSorted_perm l : toSorted cmp l ≡ₚ l.
Proof.
  induction l as [|x l IH]; simpl; [done|].
  by rewrite sorted_insert_perm, IH.
Qed.

Lemma above_trans a b c : above a b -> above b c -> above a c.
Proof. unfold above. intros. lra. Qed.

Lemma sorted_insert_sorted x l :
  StronglySorted above l -> StronglySorted above (sorted_insert cmp x l).
Proof.
  induction l as [|y l IH]; simpl; intros Hs.
  - repeat constructor.
  - apply StronglySorted_cons in Hs as [Hy Hs].
    destruct (Qle_bool (cmp x y) 0) eqn:Hle.
    + apply Qle_bool_iff in Hle. unfold cmp in Hle.
      assert (Hxy : above x y) by (unfold above; lra).
      apply StronglySorted_cons. split.
      * constructor; [done|]. eapply Forall_impl; [exact Hy|].
        intros z Hz. by apply (above_trans x y z).
      * by apply StronglySorted_cons.
    + assert (Hyx : above y x).
      { unfold above. destruct (Qlt_le_dec 0 (cmp x y)) as [Hlt|Hge].
        - unfold cmp in Hlt. lra.
        - apply Qle_bool_iff in Hge. congruence. }
      apply StronglySorted_cons. split; [|by apply IH].
      rewrite sorted_insert_perm. by constructor.
Qed.

Lemma toSorted_sorted l : StronglySorted above (toSorted cmp l).
Proof.
  induction l as [|x l IH]; simpl; [constructor|].
  by apply sorted_insert_sorted.
Qed.

(** Stability: among the elements of one key, the order is the one the
    list had. *)
Lemma sorted_insert_stable r x l :
  List.filter (keyed r) (sorted_insert cmp x l) = List.filter (keyed r) (x :: l).
Proof.
  induction l as [|y l IH]; [done|].
  cbn [sorted_insert].
  destruct (Qle_bool (cmp x y) 0) eqn:Hle; [done|].
  cbn [List.filter] in IH |- *. rewrite IH.
  destruct (keyed r x) eqn:Hx, (keyed r y) eqn:Hy; try done.
  exfalso. unfold keyed in Hx, Hy.
  apply Qeq_bool_iff in Hx, Hy.
  assert (Hle' : Qle_bool (cmp x y) 0 = true); [|congruence].
  apply Qle_bool_iff. unfold cmp. lra.
Qed.

Lemma toSorted_stable r l :
  List.filter (keyed r) (toSorted cmp l) = List.filter (keyed r) l.
Proof.
  induction l as [|x l IH]; [done|].
  cbn [toSorted]. rewrite sorted_insert_stable. cbn [List.filter]. by rewrite IH.
Qed.

(** Two lists that are sorted and hold the same elements of each key in
    the same order are the same list: whatever stable algorithm the
    built-in sort runs, it returns what [toSorted] returns. *)
Lemma stable_sorted_unique l1 l2 :
  StronglySorted above l1 -> StronglySorted above l2 ->
  (forall r, List.filter (keyed r) l1 = List.filter (keyed r) l2) ->
  l1 = l2.
Proof.
  assert (Hself : forall a, keyed (key a) a = true).
  { intros a. unfold keyed. apply Qeq_bool_iff. reflexivity. }
  assert (Hhead : forall x l y l',
    StronglySorted above (y :: l') ->
    (forall r, List.filter (keyed r) (x :: l) = List.filter (keyed r) (y :: l')) ->
    above y x).
  { intros x l y l' Hs Hf.
    apply StronglySorted_cons in Hs as [Hy _].
    assert (Hin : In x (y :: l')).
    { apply (proj1 (filter_In (keyed (key x)) x (y :: l'))).
      rewrite <- Hf. simpl. rewrite Hself. by left. }
    destruct Hin as [->|Hin].
    - unfold above. lra.
    - rewrite Forall_forall in Hy. apply Hy. by apply list_elem_of_In. }
  revert l2. induction l1 as [|x l1 IH]; intros l2 Hs1 Hs2 Hf.
  - destruct l2 as [|y l2]; [done|].
    specialize (Hf (key y)). simpl in Hf. by rewrite Hself in Hf.
  - destruct l2 as [|y l2].
    { specialize (Hf (key x)). simpl in Hf. by rewrite Hself in Hf. }
    pose proof (Hhead x l1 y l2 Hs2 Hf) as Hyx.
    pose proof (Hhead y l2 x l1 Hs1 (fun r => eq_sym (Hf r))) as Hxy.
    assert (Hkey : keyed (key x) y = true).
    { unfold keyed, above in *. apply Qeq_bool_iff. lra. }
    pose proof (Hf (key x)) as Hfx. simpl in Hfx. rewrite Hself, Hkey in Hfx.
    injection Hfx as -> _.
    f_equal. apply StronglySorted_cons in Hs1 as [_ Hs1], Hs2 as [_ Hs2].
    apply IH; [done..|].
    intros r. specialize (Hf r). simpl in Hf.
    destruct (keyed r y); [by injection Hf|done].
Qed.

Lemma toSorted_unique l l' :
  StronglySorted above l' ->
  (forall r, List.filter (keyed r) l' = List.filter (keyed r) l) ->
  l' = toSorted cmp l.
Proof.
  intros Hs Hf. apply stable_sorted_unique; [done|apply toSorted_sorted|].
  intros r. by rewrite toSorted_stable.
Qed.

End SortDescending.

(** What a filter keeps of a prefix is a prefix of what it keeps of the
    list. *)
Lemma filter_take_prefix {A} (p : A -> bool) (n : nat) (l : list A) :
  exists k, List.filter p (take n l) = take k (List.filter p l).
Proof.
  revert n. induction l as [|x l IH]; intros n.
  - exists 0%nat. by destruct n.
  - destruct n as [|n]; [by exists 0%nat|].
    destruct (IH n) as [k Hk]. simpl.
    destruct (p x); [exists (S k)|exists k]; simpl; by rewrite Hk.
Qed.

(** ** Collecting the sources *)

Section Sources.
Import ResearchAgent.

Lemma fold_groups_flat (filteredResults : list SearchResult.t) (m : JSMap.t Source.t) :
  fold_left (fun sourcesMap result =>
               fold_left add_source (SearchResult.results result) sourcesMap)
    filteredResults m =
  fold_left add_source (items_in_order filteredResults) m.
Proof.
  revert m. induction filteredResults as [|g gs IH]; intros m; [done|].
  unfold items_in_order in *. simpl. by rewrite fold_left_app, IH.
Qed.

Lemma fill_sourcesMap_flat filteredResults :
  fill_sourcesMap filteredResults = fold_left add_source (items_in_order filteredResults) [].
Proof. apply fold_groups_flat. Qed.

Lemma add_source_well_keyed m source : well_keyed m -> well_keyed (add_source m source).
Proof.
  intros [Hnd Hurl]. unfold add_source.
  destruct (JSMap.has m (StructuredSearchResult.url source)) eqn:Hhas; simpl; [done|].
  rewrite JSMap_set_new by done. split.
  - rewrite map_app. simpl. apply NoDup_app. split; [done|]. split.
    + intros k Hk Hk'. apply list_elem_of_singleton in Hk'. subst k.
      by apply JSMap_has_false_not_key in Hhas.
    + apply NoDup_singleton.
  - apply Forall_app. split; [done|]. by repeat constructor.
Qed.

Lemma fold_add_source_well_keyed items m :
  well_keyed m -> well_keyed (fold_left add_source items m).
Proof.
  revert m. induction items as [|x items IH]; intros m Hm; [done|].
  simpl. apply IH. by apply add_source_well_keyed.
Qed.

Lemma fill_sourcesMap_well_keyed filteredResults :
  well_keyed (fill_sourcesMap filteredResults).
Proof.
  rewrite fill_sourcesMap_flat. apply fold_add_source_well_keyed.
  split; constructor.
Qed.

(** An entry, once made, stays as it is; a url not yet there gets the first
    item that carries it. *)
Lemma fold_add_source_get items m u :
  JSMap.get (fold_left add_source items m) u =
    match JSMap.get m u with
    | Some src => Some src
    | None => source_of <$> List.find (has_url u) items
    end.
Proof.
  revert m. induction items as [|x items IH]; intros m.
  - simpl. by destruct (JSMap.get m u).
  - cbn [fold_left List.find]. rewrite IH. unfold add_source, JSMap.has, has_url.
    destruct (JSMap.get m (StructuredSearchResult.url x)) as [old|] eqn:Hx; simpl.
    + destruct (JSMap.get m u) as [src|] eqn:Hu; [done|].
      destruct (String.eqb (StructuredSearchResult.url x) u) eqn:Hxu; [|done].
      apply String.eqb_eq in Hxu. congruence.
    + rewrite JSMap_get_set.
      destruct (String.eqb (StructuredSearchResult.url x) u) eqn:Hxu; [|done].
      apply String.eqb_eq in Hxu. subst u. by rewrite Hx.
Qed.

Lemma well_keyed_urls m : well_keyed m -> map Source.url (JSMap.values m) = map fst m.
Proof.
  intros [_ Hurl]. unfold JSMap.values. rewrite map_map.
  induction Hurl as [|kv m Hkv _ IH]; [done|]. simpl. by rewrite Hkv, IH.
Qed.



End Sources.

(** C4.  Whatever the groups, the list of top sources has at most fifteen
    entries, is not increasing in relevance, holds each url at most once,
    and keeps the entries of one relevance in the order in which they were
    inserted: what it holds of a relevance is a prefix of what was inserted
    with that relevance. *)
Theorem collectSources_ranked (filteredResults : list SearchResult.t) :
  (length (ResearchAgent.collectSources filteredResults) <= 15)%nat /\
  StronglySorted ranked_before (ResearchAgent.collectSources filteredResults) /\
  NoDup (map Source.url (ResearchAgent.collectSources filteredResults)) /\
  forall r, exists k,
    List.filter (has_relevance r) (ResearchAgent.collectSources filteredResults) =
    take k (List.filter (has_relevance r) (insertion_order filteredResults)).
Proof.
  unfold ResearchAgent.collectSources.
  fold (insertion_order filteredResults).
  set (inserted := insertion_order filteredResults).
  pose proof (toSorted_sorted Source.relevance inserted) as Hsorted.
  pose proof (toSorted_perm Source.relevance inserted) as Hperm.
  change (fun a b : Source.t => (Source.relevance b - Source.relevance a)%Q)
    with ResearchAgent.by_relevance in Hsorted, Hperm.
  repeat split.
  - rewrite length_take. lia.
  - rewrite <- (take_drop 15 (toSorted _ inserted)) in Hsorted.
    by apply StronglySorted_app_1_l in Hsorted.
  - assert (Hnd : NoDup (Source.url <$> toSorted ResearchAgent.by_relevance inserted)).
    { rewrite Hperm. subst inserted. unfold insertion_order.
      change (NoDup (map Source.url (JSMap.values (ResearchAgent.fill_sourcesMap filteredResults)))).
      rewrite well_keyed_urls by apply fill_sourcesMap_well_keyed.
      apply fill_sourcesMap_well_keyed. }
    eapply sublist_NoDup; [exact Hnd|].
    apply (fmap_sublist Source.url), (sublist_take _ 15).
  - intros r.
    destruct (filter_take_prefix (has_relevance r) 15
                (toSorted ResearchAgent.by_relevance inserted)) as [k Hk].
    exists k. rewrite Hk. f_equal.
    apply (toSorted_stable Source.relevance r inserted).
Qed.

Example collectSources_twenty :
  map Source.url (ResearchAgent.collectSources Samples.twenty) =
    ["http://a/10"; "http://b/10"; "http://a/9"; "http://b/9"; "http://a/8"; "http://b/8";
     "http://a/7"; "http://b/7"; "http://a/6"; "http://b/6"; "http://a/5"; "http://b/5";
     "http://a/4"; "http://b/4"; "http://a/3"].
Proof. vm_compute. reflexivity. Qed.

(** ** The first item seen for a url wins *)

Lemma relevance_of_present (source : StructuredSearchResult.t) (r : Q) :
  StructuredSearchResult.relevanceScore source = Some r ->
  ~ (r == 0)%Q ->
  ResearchAgent.relevance_of source = r.
Proof.
  intros Hr Hnz. unfold ResearchAgent.relevance_of, truthy_number. rewrite Hr.
  destruct (Qeq_bool r 0) eqn:Heq; [|done].
  by apply Qeq_bool_eq in Heq.
Qed.




(** Relevances 6 then 9 on the same url, in two groups: one source, with
    relevance 6. *)
Example first_seen_wins_6_then_9 :
  ResearchAgent.collectSources
    [Samples.group "q1" [Samples.item "http://a" "First" 6];
     Samples.group "q2" [Samples.item "http://a" "Second" 9]] =
    [{| Source.url := "http://a"; Source.title := "First"; Source.relevance := 6 |}].
Proof. reflexivity. Qed.

(** * Further properties of the sources *)

(** ** tools/searxng-search-tool.ts *)

Section SearxNGFacts.
Context `{Env}.

Import SearxNGSearchTool.

Lemma snippet_of_nonempty (result : SearxNGResult.t) : snippet_of result <> "".
Proof.
  unfold snippet_of, truthy_string.
  destruct (String.eqb (SearxNGResult.content result) "") eqn:Hc; simpl; [done|].
  by apply String.eqb_neq in Hc.
Qed.

Lemma attempt_body_found q maxResults attempt w response r rs :
  axios_get (count is_HttpGet (trace w)) q = Returned response ->
  SearxNGResponse.results response = Some (r :: rs) ->
  attempt_body q maxResults attempt w =
    (Returned
       (Return
          (map (fun result =>
                  {| StructuredSearchResult.title := SearxNGResult.title result;
                     StructuredSearchResult.url := SearxNGResult.url result;
                     StructuredSearchResult.snippet := snippet_of result;
                     StructuredSearchResult.relevanceScore := None |})
               (take maxResults (r :: rs)))),
     set_trace (trace w ++ [HttpGet q]) w).
Proof.
  intros Hget Hres. unfold attempt_body, try_catch, bind, axios_request.
  by rewrite Hget, Hres.
Qed.

Lemma for_attempts_found fuel q maxResults attempt w response r rs :
  (attempt <=? maxRetries)%Z = true ->
  axios_get (count is_HttpGet (trace w)) q = Returned response ->
  SearxNGResponse.results response = Some (r :: rs) ->
  for_attempts (S fuel) q maxResults attempt w =
    (Returned
       (map (fun result =>
               {| StructuredSearchResult.title := SearxNGResult.title result;
                  StructuredSearchResult.url := SearxNGResult.url result;
                  StructuredSearchResult.snippet := snippet_of result;
                  StructuredSearchResult.relevanceScore := None |})
            (take maxResults (r :: rs))),
     set_trace (trace w ++ [HttpGet q]) w).
Proof.
  intros Hle Hget Hres. cbn [for_attempts]. rewrite Hle. unfold bind.
  by rewrite (attempt_body_found _ _ _ _ _ _ _ Hget Hres).
Qed.

Lemma mapped_results_fresh maxResults (results : list SearxNGResult.t) :
  let structured :=
    map (fun result =>
           {| StructuredSearchResult.title := SearxNGResult.title result;
              StructuredSearchResult.url := SearxNGResult.url result;
              StructuredSearchResult.snippet := snippet_of result;
              StructuredSearchResult.relevanceScore := None |})
        (take maxResults results) in
  (length structured <= maxResults)%nat /\ Forall fresh structured.
Proof.
  simpl. split.
  - rewrite length_map, length_take. lia.
  - apply Forall_forall. intros x Hx.
    apply list_elem_of_fmap in Hx as (result & -> & _).
    split; [apply snippet_of_nonempty|done].
Qed.

(** Either an answer brings nothing, or it brings a list with a head. *)
Lemma answer_cases (o : outcome SearxNGResponse.t) :
  brings_nothing o = true \/
  exists response r rs, o = Returned response /\
    SearxNGResponse.results response = Some (r :: rs).
Proof.
  destruct o as [response|e]; [|by left]. simpl.
  destruct (SearxNGResponse.results response) as [[|r rs]|] eqn:Hr; simpl; eauto 6.
Qed.

(** The shape of every run: it returns, after one, two or three requests. *)
Lemma getStructuredResults_shape q maxResults w :
  exists results tr,
    getStructuredResults q maxResults w = (Returned results, set_trace (trace w ++ tr) w) /\
    attempts_log q tr /\
    (length results <= maxResults)%nat /\ Forall fresh results.
Proof.
  unfold getStructuredResults. change (Z.to_nat maxRetries) with 3%nat.
  destruct (answer_cases (axios_get (count is_HttpGet (trace w)) q))
    as [Hnone1|(resp & r & rs & Hget & Hres)].
  2:{ rewrite (for_attempts_found 2 q maxResults 1 w _ _ _ eq_refl Hget Hres).
      eexists _, [HttpGet q]. split; [done|]. split; [by left|].
      apply mapped_results_fresh. }
  rewrite for_attempts_retry by done.
  set (w1 := set_trace (trace w ++ [HttpGet q; Sleep retryDelay]) w).
  destruct (answer_cases (axios_get (count is_HttpGet (trace w1)) q))
    as [Hnone2|(resp & r & rs & Hget & Hres)].
  2:{ rewrite (for_attempts_found 1 q maxResults (1 + 1) w1 _ _ _ eq_refl Hget Hres).
      eexists _, [HttpGet q; Sleep 3000; HttpGet q]. split.
      - subst w1. unfold set_trace. simpl. by rewrite <- app_assoc.
      - split; [right; by left|]. apply mapped_results_fresh. }
  rewrite for_attempts_retry by done.
  set (w2 := set_trace (trace w1 ++ [HttpGet q; Sleep retryDelay]) w1).
  change (1 + 1 + 1)%Z with maxRetries.
  destruct (answer_cases (axios_get (count is_HttpGet (trace w2)) q))
    as [Hnone3|(resp & r & rs & Hget & Hres)].
  2:{ rewrite (for_attempts_found 0 q maxResults maxRetries w2 _ _ _ eq_refl Hget Hres).
      eexists _, [HttpGet q; Sleep 3000; HttpGet q; Sleep 3000; HttpGet q]. split.
      - subst w2 w1. unfold set_trace. simpl. by rewrite <- !app_assoc.
      - split; [right; by right|]. apply mapped_results_fresh. }
  rewrite for_attempts_last by done.
  exists [], [HttpGet q; Sleep 3000; HttpGet q; Sleep 3000; HttpGet q]. split.
  - subst w2 w1. unfold set_trace. simpl. by rewrite <- !app_assoc.
  - split; [right; by right|]. split; [simpl; lia|constructor].
Qed.

End SearxNGFacts.

Section SearxNGProperties.
Context `{Env}.

Import SearxNGSearchTool.

Lemma searxng_call_shape q w :
  exists s, _call q w = (Returned s, set_trace (trace w ++ [HttpGet q]) w).
Proof.
  unfold _call, try_catch, bind, axios_request.
  destruct (axios_get _ q) as [response|e].
  - destruct (SearxNGResponse.results response) as [[|r rs]|]; unfold ret; eauto.
  - destruct (instanceof e AxiosError); unfold ret; eauto.
Qed.

(** X1.  [getStructuredResults] never throws, for a limit [maxResults]
    that is a natural number.  What it adds to the log is one request for
    the query, or two or three of them with a sleep of 3000 ms between
    each two and none after the last; it does nothing else to the world.
    It returns at most [maxResults] results, each with a snippet that is
    not empty and without a score. *)
Theorem getStructuredResults_bounded (q : string) (maxResults : nat) (w : world) :
  exists results tr,
    getStructuredResults q maxResults w = (Returned results, set_trace (trace w ++ tr) w) /\
    (tr = [HttpGet q] \/
     tr = [HttpGet q; Sleep 3000; HttpGet q] \/
     tr = [HttpGet q; Sleep 3000; HttpGet q; Sleep 3000; HttpGet q]) /\
    (length results <= maxResults)%nat /\
    Forall (fun r => StructuredSearchResult.snippet r <> "" /\
                     StructuredSearchResult.relevanceScore r = None) results.
Proof.
  destruct (getStructuredResults_shape q maxResults w)
    as (results & tr & Hrun & Hlog & Hlen & Hfresh).
  by exists results, tr.
Qed.

(** X2.  When the first answer of the search engine holds results, they are
    returned in the order of the answer, cut to [maxResults], after a single
    request and without any sleep; an empty [content] becomes the snippet
    "No description available". *)
Theorem getStructuredResults_first_answer (q : string) (maxResults : nat) (w : world)
    (response : SearxNGResponse.t) (r : SearxNGResult.t) (rs : list SearxNGResult.t) :
  axios_get (count is_HttpGet (trace w)) q = Returned response ->
  SearxNGResponse.results response = Some (r :: rs) ->
  getStructuredResults q maxResults w =
    (Returned
       (map (fun result =>
               {| StructuredSearchResult.title := SearxNGResult.title result;
                  StructuredSearchResult.url := SearxNGResult.url result;
                  StructuredSearchResult.snippet :=
                    if String.eqb (SearxNGResult.content result) ""
                    then "No description available"
                    else SearxNGResult.content result;
                  StructuredSearchResult.relevanceScore := None |})
            (take maxResults (r :: rs))),
     set_trace (trace w ++ [HttpGet q]) w).
Proof.
  intros Hget Hres. unfold getStructuredResults.
  change (Z.to_nat maxRetries) with 3%nat.
  rewrite (for_attempts_found 2 q maxResults 1 w _ _ _ eq_refl Hget Hres).
  do 2 f_equal. apply map_ext. intros result.
  unfold snippet_of, truthy_string.
  by destruct (String.eqb (SearxNGResult.content result) "").
Qed.

(** X3.  When the first request brings nothing and the second one brings
    results, these are returned in the order of the answer, cut to
    [maxResults], each with its title and url, without a score, and with
    its content as snippet ("No description available" when the content
    is empty); the log is a request, a sleep of 3000 ms and a request. *)
Theorem getStructuredResults_recovers (q : string) (maxResults : nat) (w : world)
    (response : SearxNGResponse.t) (r : SearxNGResult.t) (rs : list SearxNGResult.t) :
  brings_nothing (axios_get (count is_HttpGet (trace w)) q) = true ->
  axios_get (S (count is_HttpGet (trace w))) q = Returned response ->
  SearxNGResponse.results response = Some (r :: rs) ->
  getStructuredResults q maxResults w =
    (Returned
       (map (fun result =>
               {| StructuredSearchResult.title := SearxNGResult.title result;
                  StructuredSearchResult.url := SearxNGResult.url result;
                  StructuredSearchResult.snippet :=
                    if String.eqb (SearxNGResult.content result) ""
                    then "No description available"
                    else SearxNGResult.content result;
                  StructuredSearchResult.relevanceScore := None |})
            (take maxResults (r :: rs))),
     set_trace (trace w ++ [HttpGet q; Sleep 3000; HttpGet q]) w).
Proof.
  intros Hnone Hget Hres. unfold getStructuredResults.
  change (Z.to_nat maxRetries) with 3%nat.
  rewrite for_attempts_retry by done.
  set (w1 := set_trace (trace w ++ [HttpGet q; Sleep retryDelay]) w).
  assert (Hcount : count is_HttpGet (trace w1) = S (count is_HttpGet (trace w))).
  { subst w1. rewrite trace_set_trace, count_app.
    change (count is_HttpGet [HttpGet q; Sleep retryDelay]) with 1%nat. lia. }
  rewrite <- Hcount in Hget.
  rewrite (for_attempts_found 1 q maxResults (1 + 1) w1 _ _ _ eq_refl Hget Hres).
  f_equal.
  - f_equal. apply map_ext. intros result. unfold snippet_of, truthy_string.
    by destruct (String.eqb (SearxNGResult.content result) "").
  - subst w1. unfold set_trace. simpl. by rewrite <- app_assoc.
Qed.

(** X4.  The text search [_call] never throws and never retries: whatever
    the search engine answers, it sends one request and returns a string. *)
Theorem searxng_call_one_request (q : string) (w : world) :
  exists s,
    _call q w = (Returned s, set_trace (trace w ++ [HttpGet q]) w) /\
    (brings_nothing (axios_get (count is_HttpGet (trace w)) q) = true ->
     is_thrown (axios_get (count is_HttpGet (trace w)) q) = false ->
     s = "No results found for the query.").
Proof.
  unfold _call, try_catch, bind, axios_request.
  destruct (axios_get _ q) as [response|e].
  - destruct (SearxNGResponse.results response) as [[|r rs]|] eqn:Hr;
      unfold ret; eexists; (split; [reflexivity|]); simpl; rewrite ?Hr; simpl;
      intros; congruence.
  - destruct (instanceof e AxiosError); unfold ret; eexists;
      (split; [reflexivity|]); simpl; intros; congruence.
Qed.

End SearxNGProperties.

Lemma getStructuredResults_first_answer_witness :
  fst (@SearxNGSearchTool.getStructuredResults Samples.healthy "rocq" 1 initial_world) =
    Returned
      [{| StructuredSearchResult.title := "Title rocq/1";
          StructuredSearchResult.url := "http://rocq/1";
          StructuredSearchResult.snippet := "About rocq/1";
          StructuredSearchResult.relevanceScore := None |}].
Proof.
  rewrite (@getStructuredResults_first_answer Samples.healthy "rocq" 1 initial_world
             _ _ _ eq_refl eq_refl).
  reflexivity.
Defined.

Lemma getStructuredResults_recovers_witness :
  @SearxNGSearchTool.getStructuredResults Samples.engine_flaky "rocq" 1 initial_world =
    (Returned
       [{| StructuredSearchResult.title := "Title rocq/1";
           StructuredSearchResult.url := "http://rocq/1";
           StructuredSearchResult.snippet := "About rocq/1";
           StructuredSearchResult.relevanceScore := None |}],
     set_trace [HttpGet "rocq"; Sleep 3000; HttpGet "rocq"] initial_world).
Proof.
  rewrite (@getStructuredResults_recovers Samples.engine_flaky "rocq" 1 initial_world
             _ _ _ eq_refl eq_refl eq_refl).
  reflexivity.
Defined.

Lemma searxng_call_one_request_witness :
  fst (@SearxNGSearchTool._call Samples.nothing_found "rocq" initial_world) =
    Returned "No results found for the query.".
Proof.
  destruct (@searxng_call_one_request Samples.nothing_found "rocq" initial_world)
    as (s & -> & Hs).
  simpl. f_equal. apply Hs; reflexivity.
Defined.

(** ** agents/search-agent.ts *)

Section SearchAgentProperties.
Context `{Env}.

(** A search, spelled out: the requests for the structured results, one more
    request for the text shown to the model, and the call of the model,
    whose answer decides how the search ends. *)
Lemma search_shape q w :
  exists raw tr prompt,
    attempts_log q tr /\ (length raw <= 5)%nat /\ Forall fresh raw /\
    SearchAgent.search q w =
      (match llm_invoke (count is_LlmInvoke (trace w ++ AgentSearch q :: tr ++ [HttpGet q]))
               prompt with
       | Returned summary =>
           Returned
             {| SearchResult.query := q;
                SearchResult.results := raw;
                SearchResult.summary := summary;
                SearchResult.timestamp :=
                  Date_now (length (trace w ++ AgentSearch q :: tr ++
                                    [HttpGet q; LlmInvoke prompt])) |}
       | Thrown e => Thrown e
       end,
       set_trace (trace w ++ AgentSearch q :: tr ++ [HttpGet q; LlmInvoke prompt]) w).
Proof.
  unfold SearchAgent.search. unfold bind at 1. unfold emit, modify. cbv beta iota.
  set (w1 := set_trace (trace w ++ [AgentSearch q]) w).
  destruct (getStructuredResults_shape q 5 w1) as (raw & tr & Hraw & Hlog & Hlen & Hfresh).
  unfold bind at 1. rewrite Hraw.
  set (w2 := set_trace (trace w1 ++ tr) w1).
  unfold SearchAgent.searchNode. unfold bind at 1. unfold bind at 1.
  destruct (searxng_call_shape q w2) as (s & Hcall). rewrite Hcall.
  set (w3 := set_trace (trace w2 ++ [HttpGet q]) w2).
  match goal with |- context [llm_request ?p] => set (prompt := p) end.
  exists raw, tr, prompt. repeat (split; [done|]).
  assert (Hw3 : w3 = set_trace (trace w ++ AgentSearch q :: tr ++ [HttpGet q]) w).
  { subst w3 w2 w1. unfold set_trace. simpl. by rewrite <- !app_assoc. }
  clearbody w3. subst w3. clear Hcall Hraw. clearbody prompt.
  unfold llm_request. cbn [trace set_trace].
  assert (Hlog3 :
    (trace w ++ AgentSearch q :: tr ++ [HttpGet q]) ++ [LlmInvoke prompt] =
    trace w ++ AgentSearch q :: tr ++ [HttpGet q; LlmInvoke prompt]).
  { rewrite <- !app_assoc. simpl. by rewrite <- app_assoc. }
  destruct (llm_invoke _ prompt) as [summary|e].
  - unfold bind, new_Date, ret. cbn [trace set_trace]. rewrite set_trace_twice.
    by rewrite Hlog3.
  - rewrite set_trace_twice. by rewrite Hlog3.
Qed.

(** X5.  A search that returns gives a result for the query it was asked:
    at most five items, each with a snippet and no score yet; it has
    written to the log and touched nothing else. *)
Theorem search_result_shape (q : string) (w w' : world) (result : SearchResult.t) :
  SearchAgent.search q w = (Returned result, w') ->
  SearchResult.query result = q /\
  (length (SearchResult.results result) <= 5)%nat /\
  Forall fresh (SearchResult.results result) /\
  exists tr, w' = set_trace (trace w ++ tr) w.
Proof.
  destruct (search_shape q w) as (raw & tr & prompt & Hlog & Hlen & Hfresh & ->).
  destruct (llm_invoke _ prompt) as [summary|e]; [|discriminate].
  intros [= <- <-]. simpl. eauto.
Qed.

(** X6.  A search throws only what the language model threw: a search
    engine that is down or brings nothing never makes it fail. *)
Theorem search_throws_only_the_model_error (q : string) (w w' : world) (e : exn) :
  SearchAgent.search q w = (Thrown e, w') ->
  exists n prompt, llm_invoke n prompt = Thrown e.
Proof.
  destruct (search_shape q w) as (raw & tr & prompt & Hlog & Hlen & Hfresh & ->).
  destruct (llm_invoke _ prompt) as [summary|e'] eqn:Hllm; [discriminate|].
  intros [= <- _]. eauto.
Qed.

(** X7.  Every search asks the search engine at least twice and at most
    four times (one to three requests for the structured results, and one
    more for the text given to the model), and calls the model once. *)
Theorem search_request_counts (q : string) (w : world) :
  (count is_HttpGet (trace w) + 2 <=
     count is_HttpGet (trace (snd (SearchAgent.search q w))) <=
     count is_HttpGet (trace w) + 4)%nat /\
  count is_LlmInvoke (trace (snd (SearchAgent.search q w))) =
    S (count is_LlmInvoke (trace w)).
Proof.
  destruct (search_shape q w) as (raw & tr & prompt & Hlog & Hlen & Hfresh & ->).
  simpl. rewrite !count_app.
  destruct Hlog as [ -> | [ -> | -> ] ]; vm_compute count; lia.
Qed.

End SearchAgentProperties.

Lemma search_result_shape_witness :
  exists result w',
    @SearchAgent.search Samples.healthy "rocq" initial_world = (Returned result, w') /\
    SearchResult.query result = "rocq".
Proof.
  destruct (@SearchAgent.search Samples.healthy "rocq" initial_world) as [[result|e] w'] eqn:Hs;
    [|vm_compute in Hs; discriminate].
  exists result, w'. split; [reflexivity|].
  exact (proj1 (@search_result_shape Samples.healthy "rocq" initial_world w' result Hs)).
Defined.

Lemma search_throws_only_the_model_error_witness :
  exists n prompt, @llm_invoke Samples.llm_down n prompt = Thrown (Exn PlainError "fetch failed").
Proof.
  destruct (@SearchAgent.search Samples.llm_down "rocq" initial_world) as [[result|e] w'] eqn:Hs;
    [vm_compute in Hs; discriminate|].
  assert (He : e = Exn PlainError "fetch failed") by (vm_compute in Hs; congruence).
  rewrite <- He.
  exact (@search_throws_only_the_model_error Samples.llm_down "rocq" initial_world w' e Hs).
Defined.

(** ** tools/search-agent-tool.ts *)

Section SearchAgentToolProperties.
Context `{Env}.

Lemma tool_call_returns q w :
  exists s w', SearchAgentTool._call q w = (Returned s, w').
Proof.
  unfold SearchAgentTool._call, try_catch.
  match goal with |- context [match ?body w with _ => _ end] => destruct (body w) as [[s|e] w1] end;
    unfold ret; eauto.
Qed.

(** X8.  Neither [_call] nor [getStructuredResult] ever throws, whatever
    the collaborators do; what [getStructuredResult] resolves to is what the
    cache holds for the query when it is done. *)
Theorem search_tool_never_throws (q : string) (w : world) :
  (exists s w', SearchAgentTool._call q w = (Returned s, w')) /\
  (exists w', SearchAgentTool.getStructuredResult q w = (Returned (searchCache w' !! q), w')).
Proof.
  split; [apply tool_call_returns|].
  unfold SearchAgentTool.getStructuredResult, bind.
  destruct (tool_call_returns q w) as (s & w' & ->).
  unfold get_world, ret. eauto.
Qed.

(** X9.  A search that returns with no result at all is cached like any
    other: the first request answers that nothing was found, the second
    request is served from the cache and answers with the formatted, empty
    result, without a new search. *)
Theorem empty_result_is_cached (q : string) (w w' : world) (result : SearchResult.t) :
  searchCache w !! q = None ->
  SearchAgent.search q w = (Returned result, w') ->
  SearchResult.results result = [] ->
  let w1 := set_searchCache (<[q := result]> (searchCache w')) w' in
  SearchAgentTool._call q w = (Returned ("No results found for query: " +:+ quoted q), w1) /\
  SearchAgentTool._call q w1 = (Returned (SearchAgentTool.formatResults result), w1).
Proof.
  intros Hq Hs Hempty w1. split.
  - unfold SearchAgentTool._call, try_catch, bind, get_world, modify.
    by rewrite Hq, Hs, Hempty.
  - apply _call_hit. subst w1. simpl. apply lookup_insert_eq.
Qed.

(** X10.  [clearCache] forgets everything without touching the log, so the
    next request for any query, cached before or not, is handed to a
    [SearchAgent] once more. *)
Theorem clearCache_forces_a_new_search (q : string) (w : world) :
  SearchAgentTool.clearCache w = (Returned tt, set_searchCache ∅ w) /\
  outbound_calls q (snd ((SearchAgentTool.clearCache ;; SearchAgentTool._call q) w)) =
    S (outbound_calls q w).
Proof.
  split; [done|].
  unfold bind at 1. unfold SearchAgentTool.clearCache, modify. cbv beta iota.
  set (w0 := set_searchCache ∅ w).
  assert (Hmiss : searchCache w0 !! q = None) by apply lookup_empty.
  pose proof (search_outbound_calls q q w0) as Hcount.
  rewrite String.eqb_refl in Hcount.
  pose proof (search_keeps_cache q w0) as Hcache.
  destruct (SearchAgent.search q w0) as [[result|e] w'] eqn:Hs; simpl in Hcount, Hcache.
  - rewrite (_call_miss_returned _ _ _ _ Hmiss Hs).
    unfold outbound_calls in *. simpl in *. lia.
  - rewrite (_call_miss_thrown _ _ _ _ Hmiss Hs).
    unfold outbound_calls in *. simpl in *. lia.
Qed.

End SearchAgentToolProperties.

Lemma empty_result_is_cached_witness :
  fst (@requests Samples.nothing_found ["rocq"] initial_world) = Returned tt /\
  outbound_calls "rocq" (snd (@requests Samples.nothing_found ["rocq"; "rocq"] initial_world))
    = 1%nat.
Proof.
  destruct (@SearchAgent.search Samples.nothing_found "rocq" initial_world)
    as [[result|e] w'] eqn:Hs; [|vm_compute in Hs; discriminate].
  assert (Hempty : SearchResult.results result = [])
    by (vm_compute in Hs; injection Hs as <- _; reflexivity).
  destruct (@empty_result_is_cached Samples.nothing_found "rocq" initial_world w' result
              eq_refl Hs Hempty) as [Hfirst Hsecond].
  split.
  - cbn [requests]. unfold bind at 1. rewrite Hfirst. reflexivity.
  - cbn [requests]. unfold bind at 1. rewrite Hfirst. unfold bind at 1. rewrite Hsecond.
    simpl. unfold outbound_calls. simpl.
    pose proof (@search_outbound_calls Samples.nothing_found "rocq" "rocq" initial_world) as Hc.
    rewrite Hs in Hc. exact Hc.
Defined.

(** ** agents/research-agent.ts: the search stage *)

Section SearchStage.
Context `{Env}.

Lemma getStructuredResult_spec q w :
  exists o w',
    SearchAgentTool.getStructuredResult q w = (Returned o, w') /\
    (cache_keyed w -> cache_keyed w' /\ answers q o) /\
    count is_pause (trace w') = count is_pause (trace w).
Proof.
  unfold SearchAgentTool.getStructuredResult, bind, get_world, ret.
  destruct (searchCache w !! q) as [cached|] eqn:Hq.
  - rewrite (_call_hit _ _ _ Hq). eexists _, _. split; [reflexivity|].
    split; [|done]. intros Hkeyed. split; [done|].
    rewrite Hq. intros r [= <-]. by apply Hkeyed.
  - pose proof (search_keeps_cache q w) as Hcache.
    destruct (search_shape q w) as (raw & tr & prompt & Hlog & _ & _ & Hs).
    assert (Hpause : count is_pause (trace w ++ AgentSearch q :: tr ++
                                     [HttpGet q; LlmInvoke prompt]) =
                     count is_pause (trace w)).
    { rewrite count_app.
      destruct Hlog as [ -> | [ -> | -> ] ]; vm_compute count; lia. }
    rewrite Hs in Hcache. simpl in Hcache.
    destruct (llm_invoke _ prompt) as [summary|e].
    + destruct (tool_call_returns q w) as (s & w1 & Hcall).
      pose proof (_call_miss_returned _ _ _ _ Hq Hs) as Hsnd.
      rewrite Hcall in Hsnd. simpl in Hsnd. subst w1. rewrite Hcall.
      eexists _, _. split; [reflexivity|]. split; [|exact Hpause].
      intros Hkeyed. unfold cache_keyed, answers. simpl. split.
      * intros k r. rewrite lookup_insert. case_decide as Hk.
        -- intros [= <-]. by subst k.
        -- apply Hkeyed.
      * rewrite lookup_insert_eq. by intros r [= <-].
    + rewrite (_call_miss_thrown _ _ _ _ Hq Hs).
      eexists _, _. split; [reflexivity|]. split; [|exact Hpause].
      intros Hkeyed. simpl. split; [done|].
      rewrite Hq. by intros r.
Qed.

Lemma search_loop_spec last_query pending :
  forall searchResults w,
  exists rs w',
    ResearchAgent.search_loop last_query pending searchResults w =
      (Returned (searchResults ++ rs), w') /\
    (cache_keyed w -> Forall2 answers pending rs) /\
    length rs = length pending /\
    count is_pause (trace w') =
      (count is_pause (trace w) + length (List.filter (pause_after last_query) pending))%nat.
Proof.
  induction pending as [|q rest IH]; intros searchResults w.
  - exists [], w. rewrite app_nil_r. simpl. repeat split; [by constructor|lia].
  - cbn [ResearchAgent.search_loop List.filter]. unfold bind at 1.
    destruct (getStructuredResult_spec q w) as (o & w1 & -> & Hkeep & Hpause1).
    unfold bind at 1. unfold pause_after at 1.
    set (w2 := snd ((if bool_decide (Some q = last_query) then ret tt else sleep 2000) w1)).
    assert (Hstep : (if bool_decide (Some q = last_query) then ret tt else sleep 2000) w1 =
                    (Returned tt, w2)).
    { subst w2. by destruct (bool_decide (Some q = last_query)). }
    rewrite Hstep.
    assert (Hcache2 : searchCache w2 = searchCache w1).
    { subst w2. by destruct (bool_decide (Some q = last_query)). }
    assert (Hpause2 : count is_pause (trace w2) =
              (count is_pause (trace w1) +
               if bool_decide (Some q = last_query) then 0 else 1)%nat).
    { subst w2. destruct (bool_decide (Some q = last_query)); simpl; [lia|].
      rewrite count_app. reflexivity. }
    destruct (IH (searchResults ++ [o]) w2) as (rs & w' & -> & Hall & Hlen & Hpause).
    exists (o :: rs), w'. rewrite <- app_assoc. split; [done|]. split; [|split].
    + intros Hkeyed. destruct (Hkeep Hkeyed) as [Hkeyed1 Ho].
      constructor; [done|]. apply Hall. unfold cache_keyed. by rewrite Hcache2.
    + simpl. by rewrite Hlen.
    + rewrite Hpause, Hpause2, Hpause1.
      destruct (bool_decide (Some q = last_query)); simpl; lia.
Qed.

(** X11.  [searchNode] never throws and returns one entry per generated
    query, in the order of the queries; when the cache keeps its results
    under their own query, as it does from an empty cache on, the entry of
    a query is [undefined] or a result for that very query. *)
Theorem searchNode_one_entry_per_query (state : ResearchState.t) (w : world) :
  cache_keyed w ->
  exists searchResults w',
    ResearchAgent.searchNode state w = (Returned searchResults, w') /\
    Forall2 answers (ResearchState.generatedQueries state) searchResults.
Proof.
  intros Hkeyed. unfold ResearchAgent.searchNode.
  destruct (search_loop_spec (last (ResearchState.generatedQueries state))
              (ResearchState.generatedQueries state) [] w)
    as (rs & w' & Hrun & Hall & _).
  exists rs, w'. split; [exact Hrun|]. by apply Hall.
Qed.

(** X12.  [searchNode] pauses 2000 ms after every query that differs from
    the last query of the list, and only then: not after the last query,
    and not after an earlier query that is equal to it. *)
Theorem searchNode_pauses (state : ResearchState.t) (w : world) :
  count is_pause (trace (snd (ResearchAgent.searchNode state w))) =
    (count is_pause (trace w) +
     length (List.filter (pause_after (last (ResearchState.generatedQueries state)))
               (ResearchState.generatedQueries state)))%nat.
Proof.
  unfold ResearchAgent.searchNode.
  destruct (search_loop_spec (last (ResearchState.generatedQueries state))
              (ResearchState.generatedQueries state) [] w)
    as (rs & w' & -> & _ & _ & Hpause).
  exact Hpause.
Qed.

End SearchStage.

Lemma searchNode_one_entry_per_query_witness :
  exists searchResults w',
    @ResearchAgent.searchNode Samples.healthy (Samples.planned_state ["a"; "b"]) initial_world
      = (Returned searchResults, w') /\
    Forall2 answers ["a"; "b"] searchResults.
Proof.
  apply (@searchNode_one_entry_per_query Samples.healthy (Samples.planned_state ["a"; "b"])
           initial_world).
  intros k r Hk. simpl in Hk. by rewrite lookup_empty in Hk.
Defined.

(** Three queries of which the first equals the last: one pause, not two. *)
Example searchNode_pauses_duplicate :
  count is_pause
    (trace (snd (@ResearchAgent.searchNode Samples.healthy
                   (Samples.planned_state ["a"; "b"; "a"]) initial_world))) = 1%nat.
Proof. vm_compute. reflexivity. Qed.

(** ** agents/research-agent.ts: the namespace of a run *)






Lemma dash_blank_run (ws rest : string) :
  every Ascii.is_space ws = true ->
  dash_whitespace true (ws +:+ rest) = dash_whitespace true rest.
Proof.
  induction ws as [|c ws IH]; intros Hws; [done|].
  simpl in Hws. apply andb_true_iff in Hws as [Hc Hws].
  change (String c ws +:+ rest) with (String c (ws +:+ rest)).
  cbn [dash_whitespace]. rewrite Hc. by apply IH.
Qed.

Lemma dash_run_length in_run (front ws1 ws2 rest : string) :
  ws1 <> "" -> ws2 <> "" ->
  every Ascii.is_space ws1 = true -> every Ascii.is_space ws2 = true ->
  dash_whitespace in_run (front +:+ ws1 +:+ rest) =
  dash_whitespace in_run (front +:+ ws2 +:+ rest).
Proof.
  intros Hne1 Hne2 Hws1 Hws2. revert in_run.
  induction front as [|c front IH]; intros in_run.
  - destruct ws1 as [|c1 ws1]; [done|]. destruct ws2 as [|c2 ws2]; [done|].
    simpl in Hws1, Hws2.
    apply andb_true_iff in Hws1 as [Hc1 Hws1]. apply andb_true_iff in Hws2 as [Hc2 Hws2].
    change ("" +:+ String c1 ws1 +:+ rest) with (String c1 (ws1 +:+ rest)).
    change ("" +:+ String c2 ws2 +:+ rest) with (String c2 (ws2 +:+ rest)).
    cbn [dash_whitespace]. rewrite Hc1, Hc2, !dash_blank_run by done. reflexivity.
  - change (String c front +:+ ws1 +:+ rest) with (String c (front +:+ ws1 +:+ rest)).
    change (String c front +:+ ws2 +:+ rest) with (String c (front +:+ ws2 +:+ rest)).
    cbn [dash_whitespace]. by rewrite !IH.
Qed.

(** X14.  How long a run of white space in the topic is does not matter
    for the namespace: a run is replaced by one dash. *)
Theorem namespace_of_blank_runs (front ws1 ws2 rest : string) :
  ws1 <> "" -> ws2 <> "" ->
  every Ascii.is_space ws1 = true -> every Ascii.is_space ws2 = true ->
  ResearchAgent.namespace_of (front +:+ ws1 +:+ rest) =
  ResearchAgent.namespace_of (front +:+ ws2 +:+ rest).
Proof.
  intros. unfold ResearchAgent.namespace_of.
  by rewrite (dash_run_length false front ws1 ws2 rest).
Qed.

Lemma namespace_of_blank_runs_witness :
  ResearchAgent.namespace_of ("AI" +:+ " " +:+ "in Healthcare") =
  ResearchAgent.namespace_of ("AI" +:+ ("  " +:+ nl) +:+ "in Healthcare") /\
  ResearchAgent.namespace_of "AI in Healthcare" = ["research"; "ai-in-healthcare"].
Proof.
  split; [|reflexivity].
  apply (namespace_of_blank_runs "AI" " " ("  " +:+ nl) "in Healthcare");
    (discriminate || reflexivity).
Defined.

(** ** agents/research-agent.ts: the filter stage *)

(** X15.  The batch for the vector store is built before anything is
    stored.  Building it throws a [TypeError] exactly when some entry of
    [searchResults] is [undefined].  Otherwise the batch holds, for the
    search results in their order and for the raw results of each in
    theirs, one item: its id is the query, the index and the url joined
    with dashes, its text the title, the snippet and the query, and its
    metadata the title, url, snippet, query and summary. *)
Theorem contentItems_one_per_result (searchResults : list (option SearchResult.t)) :
  match ResearchAgent.contentItems searchResults with
  | Thrown e =>
      e = Exn TypeError "Cannot read properties of undefined (reading 'results')" /\
      None ∈ searchResults
  | Returned items =>
      exists results,
        searchResults = map Some results /\
        items =
          flat_map
            (fun result =>
               imap (fun index r =>
                       (SearchResult.query result +:+ "-" +:+ pretty index +:+ "-" +:+
                        StructuredSearchResult.url r,
                        {| SearchableContent.text :=
                             StructuredSearchResult.title r +:+ nl +:+ nl +:+
                             StructuredSearchResult.snippet r +:+ nl +:+ nl +:+
                             "Query: " +:+ SearchResult.query result;
                           SearchableContent.metadata :=
                             Some (list_to_map
                                     [("title", StructuredSearchResult.title r);
                                      ("url", StructuredSearchResult.url r);
                                      ("snippet", StructuredSearchResult.snippet r);
                                      ("query", SearchResult.query result);
                                      ("summary", SearchResult.summary result)]) |}))
                    (SearchResult.results result))
            results
  end.
Proof.
  induction searchResults as [|[result|] rest IH]; cbn [ResearchAgent.contentItems].
  - by exists [].
  - unfold and_then. destruct (ResearchAgent.contentItems rest) as [items|e].
    + destruct IH as (results & -> & ->). by exists (result :: results).
    + destruct IH as [-> Hin]. split; [done|by right].
  - split; [done|by left].
Qed.

Lemma relevanceScore_of_le_10 (score : option Q) :
  (ResearchAgent.relevanceScore_of score <= 10)%Q.
Proof.
  unfold ResearchAgent.relevanceScore_of.
  destruct score as [s|]; [|discriminate].
  destruct (truthy_number s); [apply Q.le_min_l|discriminate].
Qed.

Lemma find_original_some original q r :
  ResearchAgent.find_original original (Some q) = Returned (Some r) ->
  SearchResult.query r = q /\ Some r ∈ original.
Proof.
  induction original as [|[x|] rest IH]; cbn [ResearchAgent.find_original]; try discriminate.
  case_bool_decide as Hx.
  - intros [= <-]. split; [congruence|by left].
  - intros Hrest. destruct (IH Hrest). split; [done|by right].
Qed.

Section JSMapUpdates.
Context {V : Type}.
Implicit Types (m : JSMap.t V) (k : string) (v : V).

(** A key that is there keeps its place when it is set again. *)
Lemma JSMap_set_present m k old v :
  JSMap.get m k = Some old ->
  exists m1 m2, m = m1 ++ (k, old) :: m2 /\ JSMap.set m k v = m1 ++ (k, v) :: m2.
Proof.
  induction m as [|[k' v'] m IH]; simpl; [discriminate|].
  destruct (String.eqb k' k) eqn:Hk.
  - intros [= ->]. apply String.eqb_eq in Hk. subst k'. by exists [], m.
  - intros Hget. destruct (IH Hget) as (m1 & m2 & -> & ->).
    by exists ((k', v') :: m1), m2.
Qed.

Lemma JSMap_set_last m k old v :
  JSMap.has m k = false -> JSMap.set (m ++ [(k, old)]) k v = m ++ [(k, v)].
Proof.
  unfold JSMap.has. induction m as [|[k' v'] m IH]; simpl; intros Hhas.
  - by rewrite String.eqb_refl.
  - destruct (String.eqb k' k); [discriminate|]. by rewrite IH.
Qed.

End JSMapUpdates.

Section Grouping.
Import ResearchAgent.

Lemma held_app (m1 m2 : JSMap.t SearchResult.t) : held (m1 ++ m2) = (held m1 + held m2)%nat.
Proof. unfold held. by rewrite flat_map_app, length_app. Qed.

Lemma held_cons k g (m : JSMap.t SearchResult.t) :
  held ((k, g) :: m) = (length (SearchResult.results g) + held m)%nat.
Proof. unfold held. simpl. by rewrite length_app. Qed.

(** One match leaves the invariant of the map in place, and adds at most
    one item. *)
Lemma group_step_grouped original m result m' :
  grouped original m ->
  group_step original m result = Returned m' ->
  grouped original m' /\ (held m' <= held m + 1)%nat.
Proof.
  intros [Hnd Hall]. unfold group_step, and_then.
  destruct (ScoredMatch.value result !! "query") as [q|].
  2:{ destruct (find_original original None); [|discriminate].
      intros [= <-]. split; [done|lia]. }
  set (item := {| StructuredSearchResult.title := field (ScoredMatch.value result) "title";
                  StructuredSearchResult.url := field (ScoredMatch.value result) "url";
                  StructuredSearchResult.snippet := field (ScoredMatch.value result) "snippet";
                  StructuredSearchResult.relevanceScore :=
                    Some (relevanceScore_of (ScoredMatch.score result)) |}).
  assert (Hitem : scored item).
  { eexists. split; [reflexivity|apply relevanceScore_of_le_10]. }
  unfold JSMap.has at 1.
  destruct (JSMap.get m q) as [g|] eqn:Hg; cbn [negb].
  - rewrite Hg. intros [= <-].
    destruct (JSMap_set_present m q g
                (with_results (SearchResult.results g ++ [item]) g) Hg)
      as (m1 & m2 & -> & ->).
    rewrite !held_app, !held_cons. cbn [with_results SearchResult.results].
    rewrite length_app. simpl. split; [|lia].
    split.
    + by rewrite map_app in Hnd |- *.
    + apply Forall_app in Hall as [Hall1 Hall2].
      apply Forall_cons in Hall2 as [(Hk & Hne & Hsc & r & Hr) Hall2].
      apply Forall_app. split; [done|]. constructor; [|done]. simpl in *.
      split; [done|]. split; [by destruct (SearchResult.results g)|].
      split; [apply Forall_app; split; [done|by constructor]|].
      by exists r.
  - destruct (find_original original (Some q)) as [[orig|]|e] eqn:Hf; [| |discriminate].
    + assert (Hhas : JSMap.has m q = false) by (unfold JSMap.has; by rewrite Hg).
      rewrite JSMap_get_set, String.eqb_refl.
      rewrite (JSMap_set_new m q _ Hhas).
      rewrite (JSMap_set_last m q _ _ Hhas).
      intros [= <-]. rewrite held_app, held_cons. simpl. split; [|unfold held; simpl; lia].
      destruct (find_original_some _ _ _ Hf) as [Hq Hin]. split.
      * rewrite map_app. apply NoDup_app. split; [done|]. split; [|apply NoDup_singleton].
        intros k Hk Hk'. apply list_elem_of_singleton in Hk'. subst k.
        by apply JSMap_has_false_not_key in Hhas.
      * apply Forall_app. split; [done|]. constructor; [|done]. simpl.
        split; [done|]. split; [done|]. split; [by constructor|].
        by exists orig.
    + rewrite Hg. intros [= <-]. split; [done|lia].
Qed.

Lemma group_matches_grouped original matches :
  forall m m',
    grouped original m ->
    group_matches original m matches = Returned m' ->
    grouped original m' /\ (held m' <= held m + length matches)%nat.
Proof.
  induction matches as [|result rest IH]; intros m m' Hm; cbn [group_matches].
  - intros [= <-]. split; [done|lia].
  - unfold and_then. destruct (group_step original m result) as [m1|e] eqn:Hstep;
      [|discriminate].
    destruct (group_step_grouped _ _ _ _ Hm Hstep) as [Hm1 Hheld1].
    intros Hrest. destruct (IH _ _ Hm1 Hrest) as [Hm' Hheld]. split; [done|].
    simpl. lia.
Qed.

End Grouping.

Section FilterStage.
Context `{Env}.

Lemma store_search_limit namespace query filter limit w matches w' :
  VectorSearch.search namespace query filter limit w = (Returned matches, w') ->
  (length matches <= limit)%nat.
Proof.
  unfold VectorSearch.search, VectorSearch.store_search, VectorSearch.embed.
  unfold bind, emit, modify, lift, get_world, ret.
  destruct (ollama_embeddings query) as [[]|e]; [|discriminate].
  intros [= <- _]. rewrite length_map, length_take. lia.
Qed.

(** What the filter stage returns, when it returns. *)
Lemma filterNode_groups state w groups w' :
  ResearchAgent.filterNode state w = (Returned groups, w') ->
  exists m,
    groups = JSMap.values m /\
    grouped (ResearchState.searchResults state) m /\
    (held m <= 20)%nat.
Proof.
  unfold ResearchAgent.filterNode. unfold bind at 1. unfold lift at 1.
  destruct (ResearchAgent.contentItems _) as [items|e]; [|discriminate].
  unfold bind at 1.
  destruct (VectorSearch.addBatch _ items w) as [[[]|e] w1]; [|discriminate].
  unfold bind at 1.
  destruct (VectorSearch.search _ _ None 20 w1) as [[matches|e] w2] eqn:Hsearch;
    [|discriminate].
  apply store_search_limit in Hsearch.
  unfold bind at 1. unfold lift.
  destruct (ResearchAgent.group_matches _ [] matches) as [m|e] eqn:Hgroup; [|discriminate].
  unfold bind, VectorSearch.clearNamespace, ret. intros [= <- _].
  exists m. split; [done|].
  destruct (group_matches_grouped _ _ [] m (conj (NoDup_nil_2) (Forall_nil_2 _)) Hgroup)
    as [Hm Hheld].
  split; [done|]. unfold held in Hheld at 2. simpl in Hheld. lia.
Qed.

Lemma grouped_queries original (m : JSMap.t SearchResult.t) :
  grouped original m -> map SearchResult.query (JSMap.values m) = map fst m.
Proof.
  intros [_ Hall]. unfold JSMap.values. rewrite map_map.
  induction Hall as [|kv m (Hq & _) _ IH]; [done|]. simpl. by rewrite Hq, IH.
Qed.

(** X16.  The groups the filter stage returns have pairwise different
    queries; each group has at least one item, and its query, summary and
    timestamp are those of the first search result of the run with that
    query: there is no group without items and no group out of nowhere. *)
Theorem filterNode_groups_wellformed (state : ResearchState.t) (w w' : world)
    (groups : list SearchResult.t) :
  ResearchAgent.filterNode state w = (Returned groups, w') ->
  NoDup (map SearchResult.query groups) /\
  Forall (fun g =>
            SearchResult.results g <> [] /\
            exists r,
              ResearchAgent.find_original (ResearchState.searchResults state)
                (Some (SearchResult.query g)) = Returned (Some r) /\
              SearchResult.query r = SearchResult.query g /\
              SearchResult.summary g = SearchResult.summary r /\
              SearchResult.timestamp g = SearchResult.timestamp r)
    groups.
Proof.
  intros Hrun. destruct (filterNode_groups _ _ _ _ Hrun) as (m & -> & Hm & _).
  split.
  - rewrite (grouped_queries _ _ Hm). apply Hm.
  - destruct Hm as [_ Hall]. unfold JSMap.values. apply Forall_fmap.
    eapply Forall_impl; [exact Hall|].
    intros [k g] (Hq & Hne & _ & r & Hr & Hsum & Htime). simpl in *. subst k.
    split; [done|]. exists r. repeat split; try done.
    by destruct (find_original_some _ _ _ Hr).
Qed.

(** X17.  Every item of every group the filter stage returns carries a
    relevance score, which is at most 10 (nothing bounds it from below),
    and the groups hold at most 20 items together. *)
Theorem filterNode_scores_bounded (state : ResearchState.t) (w w' : world)
    (groups : list SearchResult.t) :
  ResearchAgent.filterNode state w = (Returned groups, w') ->
  Forall scored (flat_map SearchResult.results groups) /\
  (length (flat_map SearchResult.results groups) <= 20)%nat.
Proof.
  intros Hrun. destruct (filterNode_groups _ _ _ _ Hrun) as (m & -> & [_ Hall] & Hheld).
  unfold JSMap.values, held in *. split.
  - clear Hheld Hrun. induction Hall as [|[k g] m (_ & _ & Hsc & _) _ IH]; [constructor|].
    simpl. apply Forall_app. split; [exact Hsc|exact IH].
  - replace (flat_map SearchResult.results (map snd m))
      with (flat_map (fun kv : string * SearchResult.t => SearchResult.results (snd kv)) m);
      [exact Hheld|].
    clear. induction m as [|[k g] m IH]; [done|]. simpl. by rewrite IH.
Qed.

End FilterStage.

Lemma filterNode_groups_wellformed_witness :
  exists groups w',
    @ResearchAgent.filterNode Samples.healthy Samples.searched_state initial_world =
      (Returned groups, w') /\
    NoDup (map SearchResult.query groups).
Proof.
  destruct (@ResearchAgent.filterNode Samples.healthy Samples.searched_state initial_world)
    as [[groups|e] w'] eqn:Hrun; [|vm_compute in Hrun; discriminate].
  exists groups, w'. split; [reflexivity|].
  exact (proj1 (@filterNode_groups_wellformed Samples.healthy _ _ _ _ Hrun)).
Defined.

Lemma filterNode_scores_bounded_witness :
  exists groups w',
    @ResearchAgent.filterNode Samples.healthy Samples.searched_state initial_world =
      (Returned groups, w') /\
    Forall scored (flat_map SearchResult.results groups).
Proof.
  destruct (@ResearchAgent.filterNode Samples.healthy Samples.searched_state initial_world)
    as [[groups|e] w'] eqn:Hrun; [|vm_compute in Hrun; discriminate].
  exists groups, w'. split; [reflexivity|].
  exact (proj1 (@filterNode_scores_bounded Samples.healthy _ _ _ _ Hrun)).
Defined.

(** ** utils/vector-search.ts *)


Section VectorStore.
Context `{Env}.

Lemma addContent_run namespace id content w :
  VectorSearch.addContent namespace id content w =
    match ollama_embeddings (indexed_text (stored_value content)) with
    | Returned _ =>
        (Returned tt,
         set_store (<[(VectorSearch.namespace_key namespace, id) := stored_value content]>
                      (store w))
           (set_trace (trace w ++ [Embed (indexed_text (stored_value content))]) w))
    | Thrown e =>
        (Thrown e, set_trace (trace w ++ [Embed (indexed_text (stored_value content))]) w)
    end.
Proof.
  unfold VectorSearch.addContent, VectorSearch.store_put, VectorSearch.embed.
  unfold bind, emit, modify, lift. fold (stored_value content).
  by destruct (ollama_embeddings _) as [[]|e].
Qed.

Lemma getById_run namespace id w :
  VectorSearch.getById namespace id w =
    (Returned (store w !! (join ":" namespace, id)), w).
Proof. reflexivity. Qed.

(** X18.  [addContent] writes one entry and no other.  After it returned,
    [getById] finds the value [{ text, ...metadata }] under the namespace
    and id it was given, and for every namespace and id of which the
    joined namespace or the id is another one, it answers what it answered
    before.  The store tells namespaces apart by their parts joined with a
    colon, which is why the condition is stated on the joined names.  When
    the embedding fails, [addContent] throws and [getById] answers as
    before for every namespace and id. *)
Theorem addContent_writes_one_entry (namespace : list string) (id : string)
    (content : SearchableContent.t) (w : world) :
  match VectorSearch.addContent namespace id content w with
  | (Returned _, w1) =>
      fst (VectorSearch.getById namespace id w1) =
        Returned (Some (default ∅ (SearchableContent.metadata content)
                          ∪ {[ "text" := SearchableContent.text content ]})) /\
      forall namespace' id',
        (join ":" namespace', id') <> (join ":" namespace, id) ->
        fst (VectorSearch.getById namespace' id' w1) =
        fst (VectorSearch.getById namespace' id' w)
  | (Thrown _, w1) =>
      forall namespace' id',
        fst (VectorSearch.getById namespace' id' w1) =
        fst (VectorSearch.getById namespace' id' w)
  end.
Proof.
  rewrite addContent_run. destruct (ollama_embeddings _) as [[]|e]; [|done].
  split.
  - rewrite getById_run. cbn [fst store set_store set_trace].
    by rewrite lookup_insert_eq.
  - intros namespace' id' Hne. rewrite !getById_run. cbn [fst store set_store set_trace].
    by rewrite lookup_insert_ne.
Qed.

(** Two namespaces with the same joined name are one namespace. *)
Example joined_namespaces_are_one (w : world) (content : SearchableContent.t) :
  match VectorSearch.addContent ["a:b"] "k" content w with
  | (Returned _, w1) =>
      fst (VectorSearch.getById ["a"; "b"] "k" w1) =
        Returned (Some (default ∅ (SearchableContent.metadata content)
                          ∪ {[ "text" := SearchableContent.text content ]}))
  | (Thrown _, _) => True
  end.
Proof.
  rewrite addContent_run. destruct (ollama_embeddings _) as [[]|e]; [|done].
  rewrite getById_run. cbn [fst store set_store set_trace].
  change (join ":" ["a"; "b"]) with (VectorSearch.namespace_key ["a:b"]).
  by rewrite lookup_insert_eq.
Qed.

(** In the stored value the fields of the metadata come after [text]: a
    [text] field of the metadata replaces the text of the content, and
    every other field is the one of the metadata. *)
Lemma stored_value_fields (content : SearchableContent.t) (key : string) :
  stored_value content !! key =
    match SearchableContent.metadata content with
    | Some metadata =>
        match metadata !! key with
        | Some v => Some v
        | None => if String.eqb key "text" then Some (SearchableContent.text content) else None
        end
    | None => if String.eqb key "text" then Some (SearchableContent.text content) else None
    end.
Proof.
  unfold stored_value.
  assert (Hsingle : ({[ "text" := SearchableContent.text content ]} : gmap string string) !! key =
                    if String.eqb key "text" then Some (SearchableContent.text content) else None).
  { destruct (String.eqb key "text") eqn:Hk.
    - apply String.eqb_eq in Hk. subst key. apply lookup_singleton_eq.
    - apply String.eqb_neq in Hk. by apply lookup_singleton_ne. }
  destruct (SearchableContent.metadata content) as [metadata|]; simpl.
  - rewrite lookup_union. rewrite Hsingle.
    destruct (metadata !! key) as [v|]; [|by destruct (String.eqb key "text")].
    by destruct (String.eqb key "text").
  - by rewrite (left_id_L ∅ (∪)).
Qed.

(** X20.  [delete] removes the entry it is given and no other, writes
    nothing to the log, and does not throw, whether the entry was there or
    not: afterwards [getById] finds nothing under that namespace and id,
    and for every namespace and id of which the joined namespace or the id
    is another one, it answers what it answered before. *)
Theorem delete_removes_one_entry (namespace : list string) (id : string) (w : world) :
  exists w1,
    VectorSearch.delete namespace id w = (Returned tt, w1) /\
    trace w1 = trace w /\
    fst (VectorSearch.getById namespace id w1) = Returned None /\
    forall namespace' id',
      (join ":" namespace', id') <> (join ":" namespace, id) ->
      fst (VectorSearch.getById namespace' id' w1) =
      fst (VectorSearch.getById namespace' id' w).
Proof.
  eexists. split; [reflexivity|]. split; [done|]. split.
  - rewrite getById_run. cbn [fst store set_store].
    change (join ":" namespace) with (VectorSearch.namespace_key namespace).
    by rewrite lookup_delete_eq.
  - intros namespace' id' Hne. rewrite !getById_run. cbn [fst store set_store].
    by rewrite lookup_delete_ne.
Qed.




End VectorStore.


(** ** tools/mongodb-storage-tool.ts *)

Section MongoFacts.
Context `{Env}.

Import MongoDBStorageTool.

Lemma mongo_call_rejected input w :
  storable input = None -> exists s, _call input w = (Returned s, w).
Proof.
  unfold storable, _call, try_catch, bind, lift.
  destruct (JSON.parse input) as [data|e].
  - destruct data as [| | | | |members]; cbn [get_property and_then];
      try (intros _; unfold ret; simpl; eauto; fail).
    destruct (truthy (get_member members "query")),
      (truthy (get_member members "summary")); simpl; try discriminate;
      intros _; unfold ret; eauto.
  - intros _. destruct (instanceof e SyntaxError); unfold ret; eauto.
Qed.

Lemma mongo_call_connected input members w :
  storable input = Some members ->
  db w = true ->
  _call input w =
    let doc := document_of members (Date_now (length (trace w))) in
    match mongo_insertOne (count is_DbInsert (trace w)) doc with
    | Returned insertedId =>
        (Returned (saved_text insertedId members),
         set_research_collection (research_collection w ++ [doc])
           (set_trace (trace w ++ [DbInsert doc]) w))
    | Thrown e => (Returned (error_text e), set_trace (trace w ++ [DbInsert doc]) w)
    end.
Proof.
  unfold storable. intros Hst Hdb.
  destruct (JSON.parse input) as [[| | | | |members']|e] eqn:Hparse; try discriminate.
  destruct (truthy (get_member members' "query")) eqn:Hq; [|discriminate].
  destruct (truthy (get_member members' "summary")) eqn:Hs; [|discriminate].
  injection Hst as ->.
  unfold _call, try_catch, bind, lift. rewrite Hparse. cbn [get_property].
  rewrite Hq, Hs. cbn [negb orb].
  unfold connect, bind, get_world. rewrite Hdb. cbn [negb].
  unfold ret, new_Date, insertOne. cbv zeta. fold (document_of members (Date_now (length (trace w)))).
  destruct (mongo_insertOne _ _) as [insertedId|e]; [reflexivity|].
  unfold error_text. by destruct (instanceof e SyntaxError).
Qed.

Lemma mongo_call_connecting input members w :
  storable input = Some members ->
  db w = false ->
  _call input w =
    match mongo_connect (count is_DbConnect (trace w)) with
    | Returned _ => _call input (set_db true (set_trace (trace w ++ [DbConnect]) w))
    | Thrown e => (Returned (error_text e), set_trace (trace w ++ [DbConnect]) w)
    end.
Proof.
  unfold storable. intros Hst Hdb.
  destruct (JSON.parse input) as [[| | | | |members']|e] eqn:Hparse; try discriminate.
  destruct (truthy (get_member members' "query")) eqn:Hq; [|discriminate].
  destruct (truthy (get_member members' "summary")) eqn:Hs; [|discriminate].
  injection Hst as ->.
  unfold _call, try_catch, bind, lift. rewrite Hparse. cbn [get_property].
  rewrite Hq, Hs. cbn [negb orb].
  unfold connect, bind, get_world. rewrite Hdb. cbn [negb db set_db set_trace].
  destruct (mongo_connect _) as [[]|e]; [reflexivity|].
  unfold error_text. by destruct (instanceof e SyntaxError).
Qed.

(** A storable input and a database that works: what is stored, and when. *)
Lemma mongo_call_stores input members w :
  storable input = Some members ->
  (forall n, mongo_connect n = Returned tt) ->
  (forall n doc, exists insertedId, mongo_insertOne n doc = Returned insertedId) ->
  exists insertedId w',
    _call input w = (Returned (saved_text insertedId members), w') /\
    research_collection w' =
      research_collection w ++
      [document_of members
         (Date_now (length (trace w) + if db w then 0 else 1))] /\
    count is_DbInsert (trace w') = S (count is_DbInsert (trace w)) /\
    db w' = true.
Proof.
  intros Hst Hconnect Hinsert.
  assert (Hconnected : forall w0, db w0 = true ->
    exists insertedId w',
      _call input w0 = (Returned (saved_text insertedId members), w') /\
      research_collection w' =
        research_collection w0 ++ [document_of members (Date_now (length (trace w0)))] /\
      count is_DbInsert (trace w') = S (count is_DbInsert (trace w0)) /\
      db w' = true).
  { intros w0 Hdb. rewrite (mongo_call_connected _ _ _ Hst Hdb). cbv zeta.
    destruct (Hinsert (count is_DbInsert (trace w0))
                (document_of members (Date_now (length (trace w0))))) as [insertedId ->].
    exists insertedId. eexists. split; [reflexivity|].
    destruct w0; simpl in *. split; [reflexivity|]. split; [|assumption].
    rewrite count_app. vm_compute (count is_DbInsert [_]). lia. }
  destruct (db w) eqn:Hdb.
  { rewrite Nat.add_0_r. by apply Hconnected. }
  rewrite (mongo_call_connecting _ _ _ Hst Hdb), Hconnect.
  destruct (Hconnected (set_db true (set_trace (trace w ++ [DbConnect]) w)))
    as (insertedId & w' & Hrun & Hcoll & Hcount & Hdb').
  { by destruct w. }
  exists insertedId, w'. split; [exact Hrun|].
  destruct w; simpl in *. rewrite length_app in Hcoll. split; [exact Hcoll|].
  split; [|exact Hdb'].
  rewrite Hcount, count_app. vm_compute (count is_DbInsert [_]). lia.
Qed.

Lemma storable_parsed input :
  storable input =
    match JSON.parse input with
    | Returned (JObject members) =>
        if truthy (get_member members "query") && truthy (get_member members "summary")
        then Some members else None
    | _ => None
    end.
Proof. reflexivity. Qed.

End MongoFacts.

Section MongoProperties.
Context `{Env}.

Import MongoDBStorageTool.

(** X22. Unless [JSON.parse] returns for the input an object whose [query]
    and [summary] are both truthy (so: when it throws, and when it returns
    [null], another value that is no object, or an object with one of the
    two fields missing, empty, 0, [false] or [null]), [_call] returns a
    text that starts with [Error] and does nothing else: no connection is
    opened, nothing is inserted, nothing is logged. *)
Theorem unstorable_input_is_refused input w :
  (forall members,
     JSON.parse input = Returned (JObject members) ->
     truthy (get_member members "query") && truthy (get_member members "summary") = false) ->
  exists rest, _call input w = (Returned ("Error" +:+ rest), w).
Proof.
  unfold _call, try_catch, bind, lift. intros Hrefused.
  destruct (JSON.parse input) as [data|e].
  - destruct data as [| | | | |members]; cbn [get_property and_then];
      try (unfold ret; simpl; eexists; reflexivity).
    specialize (Hrefused members eq_refl).
    destruct (truthy (get_member members "query")),
      (truthy (get_member members "summary")); simpl in *; try discriminate;
      unfold ret; eexists; reflexivity.
  - destruct (instanceof e SyntaxError); unfold ret; eexists; reflexivity.
Qed.


(** X24. One call opens the connection at most once, and only when it is
    needed: the number of connection attempts grows by one when
    [JSON.parse] returns for the input an object whose [query] and
    [summary] are both truthy and no connection is open, and not at all
    otherwise. *)
Theorem connection_is_opened_on_demand input w :
  count is_DbConnect (trace (snd (_call input w))) =
  (count is_DbConnect (trace w) +
   match JSON.parse input with
   | Returned (JObject members) =>
       if truthy (get_member members "query") && truthy (get_member members "summary")
       then (if db w then 0 else 1)
       else 0
   | _ => 0
   end)%nat.
Proof.
  assert (Hcases :
    match JSON.parse input with
    | Returned (JObject members) =>
        if truthy (get_member members "query") && truthy (get_member members "summary")
        then (if db w then 0 else 1)
        else 0
    | _ => 0
    end =
    match storable input with
    | Some _ => if db w then 0 else 1
    | None => 0
    end).
  { rewrite storable_parsed.
    destruct (JSON.parse input) as [[| | | | |members]|e]; try reflexivity.
    by destruct (truthy (get_member members "query") &&
                 truthy (get_member members "summary")). }
  rewrite Hcases. clear Hcases.
  destruct (storable input) as [members|] eqn:Hst.
  - assert (Hconnected : forall w0, db w0 = true ->
      count is_DbConnect (trace (snd (_call input w0))) = count is_DbConnect (trace w0)).
    { intros w0 Hdb. rewrite (mongo_call_connected _ _ _ Hst Hdb). cbv zeta.
      destruct (mongo_insertOne _ _); destruct w0; simpl;
        rewrite count_app; vm_compute (count is_DbConnect [_]); lia. }
    destruct (db w) eqn:Hdb.
    + rewrite Hconnected by done. lia.
    + rewrite (mongo_call_connecting _ _ _ Hst Hdb).
      destruct (mongo_connect _).
      * rewrite Hconnected by (by destruct w). destruct w; simpl.
        rewrite count_app. vm_compute (count is_DbConnect [_]). lia.
      * destruct w; simpl. rewrite count_app. vm_compute (count is_DbConnect [_]). lia.
  - destruct (mongo_call_rejected input w Hst) as [s ->]. simpl. lia.
Qed.


End MongoProperties.

Lemma unstorable_input_is_refused_witness :
  exists rest,
    @MongoDBStorageTool._call Samples.healthy "not json" initial_world =
    (Returned ("Error" +:+ rest), initial_world).
Proof.
  apply (@unstorable_input_is_refused Samples.healthy "not json" initial_world).
  intros members Hparse. vm_compute in Hparse. discriminate.
Defined.



(** ** utils/llm-helpers.ts *)

Lemma JSON_parse_thrown text e : JSON.parse text = Thrown e -> exn_class e = SyntaxError.
Proof.
  unfold JSON.parse. destruct (parse_value _ _) as [[v rest]|].
  - destruct (skip_ws rest); [discriminate|]. by intros [= <-].
  - by intros [= <-].
Qed.

Lemma extractJson_thrown {T} (text : string) (schema : LlmHelpers.Schema T) e :
  LlmHelpers.extractJsonFromLLMResponse text schema = Thrown e ->
  exn_class e = PlainError /\ extraction_message (message e).
Proof.
  unfold LlmHelpers.extractJsonFromLLMResponse, LlmHelpers.parse_and_validate,
    LlmHelpers.locate_json, and_then, catch, extraction_message.
  destruct (negb (startsWith (trim text) "{")).
  - destruct (_ || _ || _).
    + intros [= <-]. auto.
    + destruct (JSON.parse _) as [parsed|cause]; [destruct (schema parsed) as [v|cause]|];
        [discriminate| |]; destruct (instanceof cause ZodError); intros [= <-]; eauto.
  - destruct (JSON.parse _) as [parsed|cause]; [destruct (schema parsed) as [v|cause]|];
      [discriminate| |]; destruct (instanceof cause ZodError); intros [= <-]; eauto.
Qed.

(** X26. What [extractJsonFromLLMResponse] can do.  A value it returns is
    what the schema made of the JSON value of the located text.  An error
    it throws is a plain [Error], never the [SyntaxError] or the [ZodError]
    that caused it, and says which step failed: no object was located, the
    located text is not JSON (the parser's message follows), or the schema
    rejected the value with a [ZodError] (its message follows).  A schema
    that throws another kind of error is reported as a parse failure. *)
Theorem extraction_outcomes {T} (text : string) (schema : LlmHelpers.Schema T) :
  match LlmHelpers.extractJsonFromLLMResponse text schema with
  | Returned v =>
      exists jsonText parsed,
        LlmHelpers.locate_json text = Returned jsonText /\
        JSON.parse jsonText = Returned parsed /\
        schema parsed = Returned v
  | Thrown e =>
      exn_class e = PlainError /\
      (LlmHelpers.locate_json text = Thrown e /\
       message e = LlmHelpers.no_json_object_found \/
       exists jsonText,
         LlmHelpers.locate_json text = Returned jsonText /\
         ((exists cause, JSON.parse jsonText = Thrown cause /\
             message e = "Failed to parse JSON from LLM response: " +:+ message cause) \/
          (exists parsed cause,
             JSON.parse jsonText = Returned parsed /\ schema parsed = Thrown cause /\
             message e =
               (if instanceof cause ZodError
                then "Failed to validate LLM response against schema: "
                else "Failed to parse JSON from LLM response: ") +:+ message cause)))
  end.
Proof.
  unfold LlmHelpers.extractJsonFromLLMResponse, and_then.
  destruct (LlmHelpers.locate_json text) as [jsonText|e] eqn:Hlocate.
  - unfold LlmHelpers.parse_and_validate, and_then, catch.
    destruct (JSON.parse jsonText) as [parsed|cause] eqn:Hparse.
    + destruct (schema parsed) as [v|cause] eqn:Hschema; [by eauto|].
      destruct (instanceof cause ZodError) eqn:Hzod; (split; [done|]); right;
        exists jsonText; (split; [done|]); right; exists parsed, cause; by rewrite Hzod.
    + pose proof (JSON_parse_thrown _ _ Hparse) as Hclass.
      unfold instanceof. rewrite Hclass. simpl. split; [done|]. right.
      exists jsonText. split; [done|]. left. by exists cause.
  - unfold LlmHelpers.locate_json in Hlocate.
    destruct (negb _); [|discriminate]. destruct (_ || _ || _); [|discriminate].
    injection Hlocate as <-. split; [done|]. by left.
Qed.

(** X27. Prose around the object is tolerated on both sides: when the
    trimmed reply is some text without an opening brace, then an object,
    then some text without a closing brace, the object alone is parsed and
    validated, and its value is returned. *)
Theorem object_between_prose_is_extracted {T} (text pre body post : string)
    (schema : LlmHelpers.Schema T) (parsed : json) (v : T) :
  trim text = pre +:+ "{" +:+ body +:+ "}" +:+ post ->
  pre <> "" ->
  occurs "{" pre = false ->
  occurs "}" post = false ->
  JSON.parse ("{" +:+ body +:+ "}") = Returned parsed ->
  schema parsed = Returned v ->
  LlmHelpers.extractJsonFromLLMResponse text schema = Returned v.
Proof.
  intros Htrim Hpre Hopen Hclose Hparse Hschema.
  rewrite (extractJson_between text pre body post) by done.
  unfold LlmHelpers.parse_and_validate, and_then, catch. by rewrite Hparse, Hschema.
Qed.

Lemma object_between_prose_is_extracted_witness :
  LlmHelpers.extractJsonFromLLMResponse
    ("Sure! " +:+ Samples.queries_reply ["a"; "b"; "c"] +:+ " Hope this helps!")
    ResearchAgent.SearchQueriesSchema =
  Returned {| ResearchAgent.queries := ["a"; "b"; "c"] |}.
Proof.
  apply (object_between_prose_is_extracted
           ("Sure! " +:+ Samples.queries_reply ["a"; "b"; "c"] +:+ " Hope this helps!")
           "Sure! "
           (quoted "queries" +:+ ":" +:+ stringify_strings ["a"; "b"; "c"])
           " Hope this helps!"
           ResearchAgent.SearchQueriesSchema
           (JObject [("queries", JArray [JString "a"; JString "b"; JString "c"])])).
  - vm_compute. reflexivity.
  - discriminate.
  - reflexivity.
  - reflexivity.
  - vm_compute. reflexivity.
  - vm_compute. reflexivity.
Defined.

(** ** agents/research-agent.ts: planning *)

Section PlanningProperties.
Context `{Env}.

Lemma generateQueriesNode_returned state w generatedQueries w' :
  ResearchAgent.generateQueriesNode state w = (Returned generatedQueries, w') ->
  (3 <= length generatedQueries <= 5)%nat.
Proof.
  unfold ResearchAgent.generateQueriesNode, bind, llm_request, lift.
  destruct (llm_invoke _ _) as [response|e]; [|discriminate].
  unfold catch, and_then.
  destruct (LlmHelpers.extractJsonFromLLMResponse _ _) as [parsed|e] eqn:Hx; [|discriminate].
  destruct (extractJson_validated _ _ _ Hx) as (v & Hv).
  apply SearchQueriesSchema_arity in Hv. intros Hrun.
  assert (generatedQueries = ResearchAgent.queries parsed) as -> by congruence. exact Hv.
Qed.

(** X28. The planning stage asks the model once, whatever comes back: a
    reply that cannot be used is not asked for again.  It leaves the rest
    of the world alone.  An error of the model passes through as it is; a
    reply that cannot be used is reported as a plain [Error] whose message
    is [Failed to generate valid search queries: ] followed by one of the
    three messages of the extraction. *)
Theorem generateQueriesNode_asks_once (state : ResearchState.t) (w : world) :
  exists prompt,
    snd (ResearchAgent.generateQueriesNode state w) =
      set_trace (trace w ++ [LlmInvoke prompt]) w /\
    forall e,
      fst (ResearchAgent.generateQueriesNode state w) = Thrown e ->
      llm_invoke (count is_LlmInvoke (trace w)) prompt = Thrown e \/
      exists m,
        llm_invoke (count is_LlmInvoke (trace w)) prompt <> Thrown e /\
        extraction_message m /\
        e = Exn PlainError ("Failed to generate valid search queries: " +:+ m).
Proof.
  unfold ResearchAgent.generateQueriesNode, bind, llm_request, lift.
  eexists. split.
  - destruct (llm_invoke _ _); reflexivity.
  - intros e. destruct (llm_invoke _ _) as [response|e'] eqn:Hllm; simpl.
    + unfold catch, and_then.
      destruct (LlmHelpers.extractJsonFromLLMResponse _ _) as [parsed|cause] eqn:Hx;
        [discriminate|].
      apply extractJson_thrown in Hx as [_ Hm].
      intros [= <-]. right. exists (message cause). done.
    + intros [= <-]. by left.
Qed.

End PlanningProperties.

(** ** agents/research-agent.ts: the top sources *)

Lemma JSMap_get_is_Some {V} (m : JSMap.t V) (k : string) :
  is_Some (JSMap.get m k) <-> k ∈ map fst m.
Proof.
  induction m as [|[k' v'] m IH]; simpl.
  - split; [by intros [? ?]|]. intros Hin. by apply elem_of_nil in Hin.
  - rewrite elem_of_cons. destruct (String.eqb k' k) eqn:Hk.
    + apply String.eqb_eq in Hk. split; [by left|by eauto].
    + apply String.eqb_neq in Hk. rewrite IH. split; [by right|].
      intros [Heq|Hin]; [congruence|done].
Qed.

Lemma find_has_url_is_Some (u : string) (items : list StructuredSearchResult.t) :
  is_Some (List.find (has_url u) items) <-> u ∈ map StructuredSearchResult.url items.
Proof.
  induction items as [|item items IH]; simpl.
  - split; [by intros [? ?]|]. intros Hin. by apply elem_of_nil in Hin.
  - rewrite elem_of_cons. unfold has_url at 1.
    destruct (String.eqb (StructuredSearchResult.url item) u) eqn:Hu.
    + apply String.eqb_eq in Hu. split; [by left|by eauto].
    + apply String.eqb_neq in Hu. rewrite IH. split; [by right|].
      intros [Heq|Hin]; [congruence|done].
Qed.

Lemma fill_sourcesMap_keys (filteredResults : list SearchResult.t) (u : string) :
  u ∈ map fst (ResearchAgent.fill_sourcesMap filteredResults) <->
  u ∈ map StructuredSearchResult.url (items_in_order filteredResults).
Proof.
  rewrite <- JSMap_get_is_Some, <- find_has_url_is_Some.
  rewrite fill_sourcesMap_flat, fold_add_source_get. simpl.
  by rewrite fmap_is_Some.
Qed.

(** X29. How many top sources there are: as many as the items of the
    groups have distinct urls, and fifteen when there are more.  Below
    that cut no url is lost: every url of an item is the url of a top
    source. *)
Theorem collectSources_count (filteredResults : list SearchResult.t) :
  length (ResearchAgent.collectSources filteredResults) =
    (15 `min`
     length (remove_dups (map StructuredSearchResult.url (items_in_order filteredResults))))%nat /\
  ((length (remove_dups (map StructuredSearchResult.url (items_in_order filteredResults)))
    <= 15)%nat ->
   forall u,
     u ∈ map StructuredSearchResult.url (items_in_order filteredResults) ->
     u ∈ map Source.url (ResearchAgent.collectSources filteredResults)).
Proof.
  pose proof (fill_sourcesMap_well_keyed filteredResults) as Hkeyed.
  pose proof Hkeyed as [Hnd _].
  assert (Hperm : map fst (ResearchAgent.fill_sourcesMap filteredResults) ≡ₚ
                  remove_dups (map StructuredSearchResult.url (items_in_order filteredResults))).
  { apply NoDup_Permutation; [done|apply NoDup_remove_dups|].
    intros u. by rewrite elem_of_remove_dups, fill_sourcesMap_keys. }
  assert (Hlen : length (toSorted ResearchAgent.by_relevance
                           (JSMap.values (ResearchAgent.fill_sourcesMap filteredResults))) =
                 length (remove_dups
                           (map StructuredSearchResult.url (items_in_order filteredResults)))).
  { rewrite <- Hperm. unfold ResearchAgent.by_relevance.
    rewrite (toSorted_perm Source.relevance). unfold JSMap.values.
    by rewrite !length_map. }
  unfold ResearchAgent.collectSources. split.
  - rewrite length_take, Hlen. lia.
  - intros Hfew u Hu. rewrite take_ge by lia.
    unfold ResearchAgent.by_relevance. rewrite (toSorted_perm Source.relevance).
    rewrite well_keyed_urls by done. by apply fill_sourcesMap_keys.
Qed.

(** ** agents/research-agent.ts: the whole run *)

Section WholeRun.
Context `{Env}.

Lemma generateQueriesNode_keeps_cache state w :
  searchCache (snd (ResearchAgent.generateQueriesNode state w)) = searchCache w.
Proof.
  unfold ResearchAgent.generateQueriesNode, bind, llm_request, lift.
  by destruct (llm_invoke _ _).
Qed.

Lemma answered_queries (queries : list string) (searchResults : list (option SearchResult.t))
    (r : SearchResult.t) :
  Forall2 answers queries searchResults ->
  Some r ∈ searchResults ->
  SearchResult.query r ∈ queries.
Proof.
  induction 1 as [|q o queries searchResults Ho _ IH]; intros Hin.
  - by apply elem_of_nil in Hin.
  - apply elem_of_cons in Hin as [<-|Hin].
    + rewrite (Ho r eq_refl). by left.
    + right. by apply IH.
Qed.

(** What the graph leaves in its state, when it completes. *)
Lemma graph_invoke_result (state result : ResearchState.t) (w w' : world) :
  cache_keyed w ->
  ResearchAgent.graph_invoke state w = (Returned result, w') ->
  ResearchState.topic result = ResearchState.topic state /\
  (3 <= length (ResearchState.generatedQueries result) <= 5)%nat /\
  ResearchState.sources result =
    ResearchAgent.collectSources (ResearchState.filteredResults result) /\
  NoDup (map SearchResult.query (ResearchState.filteredResults result)) /\
  Forall (fun g =>
            SearchResult.results g <> [] /\
            SearchResult.query g ∈ ResearchState.generatedQueries result)
    (ResearchState.filteredResults result).
Proof.
  intros Hkeyed. unfold ResearchAgent.graph_invoke. unfold bind at 1.
  pose proof (generateQueriesNode_keeps_cache state w) as Hcache.
  destruct (ResearchAgent.generateQueriesNode state w) as [[generatedQueries|e] w1] eqn:Hgen;
    [|discriminate].
  apply generateQueriesNode_returned in Hgen. simpl in Hcache.
  unfold bind at 1. unfold ResearchAgent.searchNode.
  destruct (search_loop_spec
              (last (ResearchState.generatedQueries
                       (ResearchAgent.with_generatedQueries generatedQueries state)))
              (ResearchState.generatedQueries
                 (ResearchAgent.with_generatedQueries generatedQueries state)) [] w1)
    as (searchResults & w2 & -> & Hanswers & _).
  cbn [app]. unfold bind at 1.
  destruct (ResearchAgent.filterNode _ w2) as [[filteredResults|e] w3] eqn:Hfilter;
    [|discriminate].
  destruct (filterNode_groups _ _ _ _ Hfilter) as (m & -> & Hm & _).
  unfold bind at 1. unfold ResearchAgent.summarizeNode, bind at 1, llm_request, ret.
  destruct (llm_invoke _ _) as [summary|e]; [|discriminate].
  unfold bind at 1.
  destruct (ResearchAgent.saveNode _ _) as [[[]|e] w5]; [|discriminate].
  intros [= <- _]. cbn.
  split; [done|]. split; [done|]. split; [done|]. split.
  - rewrite (grouped_queries _ _ Hm). apply Hm.
  - destruct Hm as [_ Hall]. unfold JSMap.values. apply Forall_fmap.
    eapply Forall_impl; [exact Hall|].
    intros [k g] (Hq & Hne & _ & r & Hr & _). simpl in *. subst k.
    split; [done|].
    destruct (find_original_some _ _ _ Hr) as [<- Hin].
    apply (answered_queries _ searchResults); [|done].
    apply Hanswers. unfold cache_keyed. by rewrite Hcache.
Qed.

(** X30. What a report holds, when [research] returns one from a world
    whose cache keeps its results under their own query (as the empty
    cache does): the topic asked for; three to five queries; the top
    sources collected from its own groups; groups with pairwise different
    queries, each with at least one item and each for one of the queries
    of the report, so that there are no more groups than queries. *)
Theorem research_report (topic : string) (w w' : world) (report : ResearchReport.t) :
  cache_keyed w ->
  ResearchAgent.research topic w = (Returned report, w') ->
  ResearchReport.topic report = topic /\
  (3 <= length (ResearchReport.queries report) <= 5)%nat /\
  ResearchReport.topSources report =
    ResearchAgent.collectSources (ResearchReport.allResults report) /\
  NoDup (map SearchResult.query (ResearchReport.allResults report)) /\
  Forall (fun g =>
            SearchResult.results g <> [] /\
            SearchResult.query g ∈ ResearchReport.queries report)
    (ResearchReport.allResults report) /\
  (length (ResearchReport.allResults report) <= length (ResearchReport.queries report))%nat.
Proof.
  intros Hkeyed. unfold ResearchAgent.research. unfold bind at 1.
  destruct (ResearchAgent.graph_invoke _ w) as [[result|e] w1] eqn:Hgraph; [|discriminate].
  destruct (graph_invoke_result _ _ _ _ Hkeyed Hgraph) as (Htopic & Hlen & Hsrc & Hnd & Hall).
  unfold bind, new_Date, ret. intros [= <- _]. cbn.
  repeat (split; [done|]).
  rewrite <- (length_map SearchResult.query).
  apply submseteq_length, NoDup_submseteq; [done|].
  intros q Hq. apply list_elem_of_fmap in Hq as (g & -> & Hg).
  rewrite Forall_forall in Hall. by apply Hall.
Qed.

End WholeRun.

Lemma research_report_witness :
  exists report w',
    @ResearchAgent.research Samples.healthy "AI" initial_world = (Returned report, w') /\
    ResearchReport.topic report = "AI" /\
    (3 <= length (ResearchReport.queries report) <= 5)%nat.
Proof.
  destruct (@ResearchAgent.research Samples.healthy "AI" initial_world)
    as [[report|e] w'] eqn:Hrun; [|vm_compute in Hrun; discriminate].
  exists report, w'. split; [reflexivity|].
  assert (Hkeyed : cache_keyed initial_world).
  { intros k r Hk. simpl in Hk. by rewrite lookup_empty in Hk. }
  destruct (@research_report Samples.healthy "AI" initial_world w' report Hkeyed Hrun)
    as (Htopic & Hlen & _).
  split; [exact Htopic|exact Hlen].
Defined.

(** ** [JSON.parse] reads back what [JSON.stringify] wrote *)

Section JSONRoundTrip.

Lemma append_nil_r (s : string) : s +:+ "" = s.
Proof.
  induction s as [|c s IH]; [done|].
  change (String c (s +:+ "") = String c s). by rewrite IH.
Qed.

Lemma parse_string_body_escape_char (c : ascii) (rest acc : string) :
  parse_string_body (escape_char c +:+ rest) acc = parse_string_body rest (String c acc).
Proof. destruct c as [[] [] [] [] [] [] [] []]; reflexivity. Qed.

Lemma rev_app_rev_app (s a b : string) :
  String.rev_app (String.rev_app s a) b = String.rev_app a (s +:+ b).
Proof.
  revert a b. induction s as [|c s IH]; intros a b; [done|].
  change (String.rev_app (String.rev_app s (String c a)) b = String.rev_app a (String c (s +:+ b))).
  by rewrite IH.
Qed.

Lemma parse_string_body_escape_onto (s rest acc : string) :
  parse_string_body (escape s +:+ String "034" rest) acc =
    Some (String.rev (String.rev_app s acc), rest).
Proof.
  revert acc. induction s as [|c s IH]; intros acc; [done|].
  change (escape (String c s)) with (escape_char c +:+ escape s).
  by rewrite append_assoc, parse_string_body_escape_char, IH.
Qed.

Lemma parse_string_body_escape (s rest : string) :
  parse_string_body (escape s +:+ String "034" rest) "" = Some (s, rest).
Proof.
  rewrite parse_string_body_escape_onto. unfold String.rev.
  by rewrite rev_app_rev_app, append_nil_r.
Qed.

Lemma stringify_string_app (s rest : string) :
  stringify_string s +:+ rest = String "034" (escape s +:+ String "034" rest).
Proof. unfold stringify_string, quoted. rewrite !append_assoc. reflexivity. Qed.

Lemma parse_value_string (fuel : nat) (s rest : string) :
  parse_value (S fuel) (stringify_string s +:+ rest) = Some (JString s, rest).
Proof.
  rewrite stringify_string_app.
  change (parse_value (S fuel) (String "034" (escape s +:+ String "034" rest)))
    with (match parse_string_body (escape s +:+ String "034" rest) "" with
          | Some (str, r') => Some (JString str, r')
          | None => None
          end).
  by rewrite parse_string_body_escape.
Qed.


Lemma parse_elements_strings (l : list string) :
  forall (fuel : nat) (acc : list json) (rest : string),
    l <> [] ->
    (length l < fuel)%nat ->
    parse_elements fuel (join "," (map stringify_string l) +:+ String "]" rest) acc =
      Some (JArray (rev acc ++ map JString l), rest).
Proof.
  induction l as [|s l IH]; intros fuel acc rest Hne Hfuel; [done|].
  destruct fuel as [|[|fuel]]; [simpl in Hfuel; lia..|].
  destruct l as [|s' l].
  - change (join "," (map stringify_string [s])) with (stringify_string s).
    change (parse_elements (S (S fuel)) ?t acc)
      with (match parse_value (S fuel) t with
            | Some (v, r) =>
                match skip_ws r with
                | String "," r' => parse_elements (S fuel) r' (v :: acc)
                | String "]" r' => Some (JArray (rev (v :: acc)), r')
                | _ => None
                end
            | None => None
            end).
    rewrite parse_value_string. reflexivity.
  - change (join "," (map stringify_string (s :: s' :: l)))
      with (stringify_string s +:+ "," +:+ join "," (map stringify_string (s' :: l))).
    rewrite !append_assoc.
    change (parse_elements (S (S fuel)) ?t acc)
      with (match parse_value (S fuel) t with
            | Some (v, r) =>
                match skip_ws r with
                | String "," r' => parse_elements (S fuel) r' (v :: acc)
                | String "]" r' => Some (JArray (rev (v :: acc)), r')
                | _ => None
                end
            | None => None
            end).
    rewrite parse_value_string.
    change (parse_elements (S fuel)
              (join "," (map stringify_string (s' :: l)) +:+ String "]" rest)
              (JString s :: acc) =
            Some (JArray (rev acc ++ map JString (s :: s' :: l)), rest)).
    rewrite IH; [|done|simpl in *; lia].
    simpl. by rewrite <- app_assoc.
Qed.

Lemma parse_value_strings (l : list string) (fuel : nat) (rest : string) :
  (length l + 1 < fuel)%nat ->
  parse_value fuel (stringify_strings l +:+ rest) = Some (JArray (map JString l), rest).
Proof.
  intros Hfuel. destruct fuel as [|fuel]; [lia|].
  unfold stringify_strings. rewrite !append_assoc.
  destruct l as [|s l]; [reflexivity|].
  assert (Hhead : exists tail,
            join "," (map stringify_string (s :: l)) +:+ "]" +:+ rest = String "034" tail).
  { destruct l as [|s' l].
    - change (join "," (map stringify_string [s])) with (stringify_string s).
      rewrite stringify_string_app. eauto.
    - change (join "," (map stringify_string (s :: s' :: l)))
        with (stringify_string s +:+ "," +:+ join "," (map stringify_string (s' :: l))).
      rewrite stringify_string_app. eauto. }
  destruct Hhead as [tail Hhead].
  change (parse_value (S fuel) ("[" +:+ ?t))
    with (match skip_ws t with
          | String "]" r' => Some (JArray [], r')
          | r' => parse_elements fuel r' []
          end).
  rewrite Hhead.
  change (parse_elements fuel (String "034" tail) [] =
          Some (JArray (map JString (s :: l)), rest)).
  rewrite <- Hhead.
  change ("]" +:+ rest) with (String "]" rest).
  rewrite parse_elements_strings; [done|done|simpl in *; lia].
Qed.


(** One member whose value is still to be read. *)
Lemma parse_members_key (fuel : nat) (key text : string) (acc : list (string * json)) :
  parse_members (S fuel) (stringify_string key +:+ String ":" text) acc =
    match parse_value fuel text with
    | Some (v, r3) =>
        match skip_ws r3 with
        | String "," r4 => parse_members fuel r4 ((key, v) :: acc)
        | String "}" r4 => Some (JObject (rev ((key, v) :: acc)), r4)
        | _ => None
        end
    | None => None
    end.
Proof.
  rewrite stringify_string_app.
  change (parse_members (S fuel) (String "034" ?r) acc)
    with (match parse_string_body r "" with
          | Some (key, r1) =>
              match skip_ws r1 with
              | String ":" r2 =>
                  match parse_value fuel r2 with
                  | Some (v, r3) =>
                      match skip_ws r3 with
                      | String "," r4 => parse_members fuel r4 ((key, v) :: acc)
                      | String "}" r4 => Some (JObject (rev ((key, v) :: acc)), r4)
                      | _ => None
                      end
                  | None => None
                  end
              | _ => None
              end
          | None => None
          end).
  by rewrite parse_string_body_escape.
Qed.

Lemma storageData_shape (state : ResearchState.t) :
  ResearchAgent.storageData state =
    String "{"
      (stringify_string "query" +:+ String ":"
         (stringify_string (ResearchState.topic state) +:+ String ","
            (stringify_string "summary" +:+ String ":"
               (stringify_string (ResearchState.summary state) +:+ String ","
                  (stringify_string "sources" +:+ String ":"
                     (stringify_strings (map Source.url (ResearchState.sources state)) +:+
                      String "}" "")))))).
Proof.
  unfold ResearchAgent.storageData, stringify_string, quoted.
  rewrite !append_assoc. reflexivity.
Qed.

Lemma parse_value_storageData (state : ResearchState.t) (fuel : nat) :
  (length (ResearchState.sources state) + 6 <= fuel)%nat ->
  parse_value fuel (ResearchAgent.storageData state) =
    Some (JObject (storage_members (ResearchState.topic state) (ResearchState.summary state)
                     (map Source.url (ResearchState.sources state))), "").
Proof.
  intros Hfuel. rewrite storageData_shape.
  destruct fuel as [|[|[|[|fuel]]]]; [lia..|].
  change (parse_value (S (S (S (S fuel)))) (String "{" ?r))
    with (match skip_ws r with
          | String "}" r' => Some (JObject [], r')
          | r' => parse_members (S (S (S fuel))) r' []
          end).
  rewrite (stringify_string_app "query").
  change (parse_members (S (S (S fuel)))
            (stringify_string "query" +:+ String ":"
               (stringify_string (ResearchState.topic state) +:+ String ","
                  (stringify_string "summary" +:+ String ":"
                     (stringify_string (ResearchState.summary state) +:+ String ","
                        (stringify_string "sources" +:+ String ":"
                           (stringify_strings (map Source.url (ResearchState.sources state)) +:+
                            String "}" "")))))) [] = 
          Some (JObject (storage_members (ResearchState.topic state)
                           (ResearchState.summary state)
                           (map Source.url (ResearchState.sources state))), "")).
  rewrite parse_members_key, parse_value_string.
  change (parse_members (S (S fuel))
            (stringify_string "summary" +:+ String ":"
               (stringify_string (ResearchState.summary state) +:+ String ","
                  (stringify_string "sources" +:+ String ":"
                     (stringify_strings (map Source.url (ResearchState.sources state)) +:+
                      String "}" ""))))
            [("query", JString (ResearchState.topic state))] =
          Some (JObject (storage_members (ResearchState.topic state)
                           (ResearchState.summary state)
                           (map Source.url (ResearchState.sources state))), "")).
  rewrite parse_members_key, parse_value_string.
  change (parse_members (S fuel)
            (stringify_string "sources" +:+ String ":"
               (stringify_strings (map Source.url (ResearchState.sources state)) +:+
                String "}" ""))
            [("summary", JString (ResearchState.summary state));
             ("query", JString (ResearchState.topic state))] =
          Some (JObject (storage_members (ResearchState.topic state)
                           (ResearchState.summary state)
                           (map Source.url (ResearchState.sources state))), "")).
  rewrite parse_members_key, parse_value_strings by (rewrite length_map; lia).
  reflexivity.
Qed.

Lemma join_stringify_length (l : list string) :
  (length l <= String.length (join "," (map stringify_string l)))%nat.
Proof.
  assert (Hone : forall s, (1 <= String.length (stringify_string s))%nat).
  { intros s. unfold stringify_string, quoted. rewrite !length_append.
    change (String.length dq) with 1%nat. lia. }
  induction l as [|s l IH]; [done|].
  destruct l as [|s' l].
  - exact (Hone s).
  - change (join "," (map stringify_string (s :: s' :: l)))
      with (stringify_string s +:+ "," +:+ join "," (map stringify_string (s' :: l))).
    rewrite !length_append. pose proof (Hone s). cbn [length] in *. lia.
Qed.

Lemma JSON_parse_storageData (state : ResearchState.t) :
  JSON.parse (ResearchAgent.storageData state) =
    Returned (JObject (storage_members (ResearchState.topic state)
                         (ResearchState.summary state)
                         (map Source.url (ResearchState.sources state)))).
Proof.
  unfold JSON.parse. rewrite parse_value_storageData; [done|].
  rewrite storageData_shape. unfold stringify_strings.
  repeat (rewrite length_append ||
          match goal with
          | |- context [String.length (String ?c ?s)] =>
              change (String.length (String c s)) with (S (String.length s))
          end).
  pose proof (join_stringify_length (map Source.url (ResearchState.sources state))) as Hlen.
  rewrite length_map in Hlen. lia.
Qed.

End JSONRoundTrip.

(** ** agents/research-agent.ts: saving *)

Section Saving.
Context `{Env}.

Lemma storable_storageData (state : ResearchState.t) :
  storable (ResearchAgent.storageData state) =
    if truthy_string (ResearchState.topic state) &&
       truthy_string (ResearchState.summary state)
    then Some (storage_members (ResearchState.topic state) (ResearchState.summary state)
                 (map Source.url (ResearchState.sources state)))
    else None.
Proof. unfold storable. by rewrite JSON_parse_storageData. Qed.

(** X19. What [saveNode] stores, with a database that accepts connections
    and inserts.  A state with a topic and a summary that are not empty
    adds one document to the collection: its query is the topic, its
    summary the summary, and its sources the urls of the sources in their
    order, whatever characters these texts hold.  A state whose topic or
    summary is empty is not stored, the database is not contacted, and
    [saveNode] completes all the same. *)
Theorem saveNode_stores_the_report (state : ResearchState.t) (w : world) :
  (forall n, mongo_connect n = Returned tt) ->
  (forall n doc, exists insertedId, mongo_insertOne n doc = Returned insertedId) ->
  exists w',
    ResearchAgent.saveNode state w = (Returned tt, w') /\
    if truthy_string (ResearchState.topic state) &&
       truthy_string (ResearchState.summary state)
    then
      exists now,
        research_collection w' =
          research_collection w ++
          [{| ResearchDocument.query := JString (ResearchState.topic state);
              ResearchDocument.summary := JString (ResearchState.summary state);
              ResearchDocument.sources :=
                JArray (map JString (map Source.url (ResearchState.sources state)));
              ResearchDocument.timestamp := now |}]
    else w' = w.
Proof.
  intros Hconnect Hinsert. unfold ResearchAgent.saveNode, bind.
  pose proof (storable_storageData state) as Hst.
  destruct (truthy_string (ResearchState.topic state) &&
            truthy_string (ResearchState.summary state)).
  - destruct (mongo_call_stores _ _ w Hst Hconnect Hinsert)
      as (insertedId & w' & -> & Hcoll & _).
    exists w'. split; [done|]. eexists. exact Hcoll.
  - destruct (mongo_call_rejected _ w Hst) as [s ->]. by exists w.
Qed.

End Saving.

Lemma saveNode_stores_the_report_witness :
  exists w',
    @ResearchAgent.saveNode Samples.healthy Samples.summarized_state initial_world =
      (Returned tt, w') /\
    exists now,
      research_collection w' =
        [{| ResearchDocument.query := JString "AI";
            ResearchDocument.summary := JString "A summary.";
            ResearchDocument.sources := JArray [];
            ResearchDocument.timestamp := now |}].
Proof.
  apply (@saveNode_stores_the_report Samples.healthy Samples.summarized_state initial_world).
  - intros n. reflexivity.
  - intros n doc. eexists. reflexivity.
Defined.
